(** * PAL pipeline ABI metadata and the GFX9 hull-shader pipeline chunk

    A shallow embedding of
      - [src/core/hw/gfxip/gfx9/gfx9PipelineChunkHs.cpp]
        (constructor, [LateInit], [WriteShCommands], [WriteContextCommands]);
      - [inc/core/g_palPipelineAbiMetadata.h]
        (the metadata structures, their keys and the legacy deserialize
        overload),
    followed by the properties established about them.

    Unsigned machine integers are values of [Z]; every narrowing the C++
    performs (casts, bit-field stores) is written out. *)

From Stdlib Require Import ZArith List String Bool Lia.
Import ListNotations.
Local Open Scope Z_scope.
Set Warnings "-register-all".

(** ** Bit-fields of a 32-bit register *)

Module Bits.

(** A bit-field of a register union: [bf_width] bits starting at bit
    [bf_shift]. *)
Record BitField := mkBitField { bf_shift : N; bf_width : N }.

Definition bf_mask (f : BitField) : Z :=
  Z.shiftl (Z.ones (Z.of_N (bf_width f))) (Z.of_N (bf_shift f)).

(** Reading [reg.bits.FIELD]. *)
Definition get (f : BitField) (u32All : Z) : Z :=
  Z.land (Z.shiftr u32All (Z.of_N (bf_shift f))) (Z.ones (Z.of_N (bf_width f))).

(** [reg.bits.FIELD = v]: the value is truncated to the field's width and
    the other bits of the register are kept. *)
Definition set (f : BitField) (v : Z) (u32All : Z) : Z :=
  Z.lor (Z.ldiff u32All (bf_mask f))
        (Z.shiftl (Z.land v (Z.ones (Z.of_N (bf_width f)))) (Z.of_N (bf_shift f))).

(** Bit [i] belongs to field [f]. *)
Definition in_field (f : BitField) (i : Z) : bool :=
  (Z.of_N (bf_shift f) <=? i) && (i <? Z.of_N (bf_shift f) + Z.of_N (bf_width f)).

(** Two fields share no bit. *)
Definition disjoint (f g : BitField) : bool :=
  (Z.of_N (bf_shift f) + Z.of_N (bf_width f) <=? Z.of_N (bf_shift g))
  || (Z.of_N (bf_shift g) + Z.of_N (bf_width g) <=? Z.of_N (bf_shift f)).

(** [v1] and [v2] agree on every bit that lies in none of [fields]. *)
Definition same_outside (fields : list BitField) (v1 v2 : Z) : Prop :=
  forall i, 0 <= i ->
    forallb (fun f => negb (in_field f i)) fields = true ->
    Z.testbit v1 i = Z.testbit v2 i.

End Bits.

(** ** Helpers of [palInlineFuncs.h] *)

Module Util.

(** Modelled from the spec: [LowPart], [HighPart], [IsPow2Aligned],
    [Get256BAddrLo] and [Get256BAddrHi] are declared in [palInlineFuncs.h],
    which is not among the sources.  The entry-point address has to lie on
    a power-of-two boundary; the register takes the address in units of
    256 bytes, split into a low and a high 32-bit part. *)
Definition LowPart (value : Z) : Z := Z.land value 0xffffffff.
Definition HighPart (value : Z) : Z := Z.land (Z.shiftr value 32) 0xffffffff.
Definition IsPow2Aligned (value alignment : Z) : bool :=
  Z.land value (alignment - 1) =? 0.
Definition Get256BAddrLo (virtAddr : Z) : Z := LowPart (Z.shiftr virtAddr 8).
Definition Get256BAddrHi (virtAddr : Z) : Z := HighPart (Z.shiftr virtAddr 8).

Definition UINT_MAX : Z := 0xffffffff.

End Util.

(** ** Build configuration *)

(** The preprocessor symbols the two files test. *)
Class BuildConfig := {
  PAL_ENABLE_PRINTS_ASSERTS : bool;
  PAL_AMDGPU_BUILD : bool;
  PAL_CLIENT_INTERFACE_MAJOR_VERSION : Z
}.

(** ** Pipeline ABI metadata ([g_palPipelineAbiMetadata.h]) *)

Module Abi.

(** [Abi::HardwareStage] and the members of [Abi::PipelineSymbolType] by
    family; both enumerations are declared in [palPipelineAbi.h]. *)
Inductive HardwareStage := Ls | Hs | Es | Gs | Vs | Ps | Cs.

Inductive PipelineSymbolType :=
| UnknownSymbol
| MainEntry (stage : HardwareStage)
| ShdrIntrlTblPtr (stage : HardwareStage)
| Disassembly (stage : HardwareStage)
| ShdrIntrlData (stage : HardwareStage)
| OtherSymbol (ordinal : nat).

Definition HsMainEntry := MainEntry Hs.
Definition HsShdrIntrlTblPtr := ShdrIntrlTblPtr Hs.
Definition HsDisassembly := Disassembly Hs.

(** The underlying value of an [Abi::PipelineType]. *)
Definition PipelineType := Z.

Definition MsgPackOffset := Z.

Record BinaryData := { pBuffer : list Z; sizeInBytes : Z }.

(** A one-bit member of a [hasEntry] or [flags] union, read from and
    written to the union's [uAll]. *)
Definition bit_is_set (uAll : Z) (bit : Z) : bool := Z.testbit uAll bit.
Definition bit_of (b : bool) (bit : Z) : Z := if b then Z.shiftl 1 bit else 0.
Definition uAll_of (bits : list Z) : Z := fold_right Z.lor 0 bits.

(** *** [struct ShaderMetadata] *)
Module ShaderMetadata.
Record t := {
  apiShaderHash : Z * Z;
  hardwareMapping : Z;
  hasEntry : Z
}.
Module hasEntryBit.
Definition apiShaderHash := 0.
Definition hardwareMapping := 1.
End hasEntryBit.
Definition zero : t :=
  {| apiShaderHash := (0, 0); hardwareMapping := 0; hasEntry := 0 |}.
End ShaderMetadata.

(** *** [struct HardwareStageMetadata] *)
Module HardwareStageMetadata.
Record t := {
  entryPoint : PipelineSymbolType;
  scratchMemorySize : Z;
  ldsSize : Z;
  perfDataBufferSize : Z;
  vgprCount : Z;
  sgprCount : Z;
  vgprLimit : Z;
  sgprLimit : Z;
  threadgroupDimensions : list Z;
  wavefrontSize : Z;
  (* only when PAL_CLIENT_INTERFACE_MAJOR_VERSION < 619 *)
  maxPrimsPerWave : Z;
  flags : Z;
  hasEntry : Z
}.
Module flagBit.
Definition usesUavs := 0.
Definition usesRovs := 1.
Definition writesUavs := 2.
Definition writesDepth := 3.
Definition usesAppendConsume := 4.
Definition usesPrimId := 5.
End flagBit.
Module hasEntryBit.
Definition entryPoint := 0.
Definition scratchMemorySize := 1.
Definition ldsSize := 2.
Definition perfDataBufferSize := 3.
Definition vgprCount := 4.
Definition sgprCount := 5.
Definition vgprLimit := 6.
Definition sgprLimit := 7.
Definition threadgroupDimensions := 8.
Definition wavefrontSize := 9.
Definition usesUavs := 10.
Definition usesRovs := 11.
Definition writesUavs := 12.
Definition writesDepth := 13.
Definition usesAppendConsume := 14.
Definition maxPrimsPerWave := 15.
Definition usesPrimId := 16.
End hasEntryBit.
Definition zero : t :=
  {| entryPoint := UnknownSymbol; scratchMemorySize := 0; ldsSize := 0;
     perfDataBufferSize := 0; vgprCount := 0; sgprCount := 0; vgprLimit := 0;
     sgprLimit := 0; threadgroupDimensions := [0; 0; 0]; wavefrontSize := 0;
     maxPrimsPerWave := 0; flags := 0; hasEntry := 0 |}.
End HardwareStageMetadata.

(** *** [struct PipelineMetadata] *)
Module PipelineMetadata.
Record t := {
  name : string;
  type : PipelineType;
  internalPipelineHash : Z * Z;
  shader : list ShaderMetadata.t;
  hardwareStage : list HardwareStageMetadata.t;
  shaderFunctions : MsgPackOffset;
  registers : MsgPackOffset;
  userDataLimit : Z;
  spillThreshold : Z;
  esGsLdsSize : Z;
  (* the next two only when PAL_CLIENT_INTERFACE_MAJOR_VERSION < 619 *)
  streamOutTableAddress : Z;
  indirectUserDataTableAddresses : list Z;
  nggSubgroupSize : Z;
  numInterpolants : Z;
  meshScratchMemorySize : Z;
  api : string;
  apiCreateInfo : BinaryData;
  flags : Z;
  hasEntry : Z
}.
Module flagBit.
Definition usesViewportArrayIndex := 0.
Definition calcWaveBreakSizeAtDrawTime := 1.
End flagBit.
Module hasEntryBit.
Definition name := 0.
Definition type := 1.
Definition internalPipelineHash := 2.
Definition shaderFunctions := 3.
Definition registers := 4.
Definition userDataLimit := 5.
Definition spillThreshold := 6.
Definition usesViewportArrayIndex := 7.
Definition esGsLdsSize := 8.
Definition streamOutTableAddress := 9.
Definition indirectUserDataTableAddresses := 10.
Definition nggSubgroupSize := 11.
Definition numInterpolants := 12.
Definition meshScratchMemorySize := 13.
Definition calcWaveBreakSizeAtDrawTime := 14.
Definition placeholder3 := 15.
Definition placeholder4 := 16.
Definition api := 17.
Definition apiCreateInfo := 18.
End hasEntryBit.
End PipelineMetadata.

(** *** [struct PalCodeObjectMetadata] *)
Module PalCodeObjectMetadata.
Record t := {
  version : Z * Z;
  pipeline : PipelineMetadata.t;
  hasEntry : Z
}.
Module hasEntryBit.
Definition version := 0.
End hasEntryBit.
End PalCodeObjectMetadata.

(** *** Key names *)
Module PalCodeObjectMetadataKey.
Definition Version := "amdpal.version"%string.
Definition Pipelines := "amdpal.pipelines"%string.
End PalCodeObjectMetadataKey.

Module PipelineMetadataKey.
Definition Name := ".name"%string.
Definition Type_ := ".type"%string.
Definition InternalPipelineHash := ".internal_pipeline_hash"%string.
Definition Shaders := ".shaders"%string.
Definition HardwareStages := ".hardware_stages"%string.
Definition ShaderFunctions := ".shader_functions"%string.
Definition Registers := ".registers"%string.
Definition UserDataLimit := ".user_data_limit"%string.
Definition SpillThreshold := ".spill_threshold"%string.
Definition UsesViewportArrayIndex := ".uses_viewport_array_index"%string.
Definition EsGsLdsSize := ".es_gs_lds_size"%string.
Definition StreamOutTableAddress := ".stream_out_table_address"%string.
Definition IndirectUserDataTableAddresses :=
  ".indirect_user_data_table_addresses"%string.
Definition NggSubgroupSize := ".nggSubgroupSize"%string.
Definition NumInterpolants := ".num_interpolants"%string.
Definition MeshScratchMemorySize := ".mesh_scratch_memory_size"%string.
Definition CalcWaveBreakSizeAtDrawTime := ".calc_wave_break_size_at_draw_time"%string.
Definition Api := ".api"%string.
Definition ApiCreateInfo := ".api_create_info"%string.
End PipelineMetadataKey.

Module HardwareStageMetadataKey.
Definition EntryPoint := ".entry_point"%string.
Definition ScratchMemorySize := ".scratch_memory_size"%string.
Definition LdsSize := ".lds_size"%string.
Definition PerfDataBufferSize := ".perf_data_buffer_size"%string.
Definition VgprCount := ".vgpr_count"%string.
Definition SgprCount := ".sgpr_count"%string.
Definition VgprLimit := ".vgpr_limit"%string.
Definition SgprLimit := ".sgpr_limit"%string.
Definition ThreadgroupDimensions := ".threadgroup_dimensions"%string.
Definition WavefrontSize := ".wavefront_size"%string.
Definition UsesUavs := ".uses_uavs"%string.
Definition UsesRovs := ".uses_rovs"%string.
Definition WritesUavs := ".writes_uavs"%string.
Definition WritesDepth := ".writes_depth"%string.
Definition UsesAppendConsume := ".uses_append_consume"%string.
Definition MaxPrimsPerWave := ".max_prims_per_wave"%string.
Definition UsesPrimId := ".uses_prim_id"%string.
End HardwareStageMetadataKey.

Module ShaderMetadataKey.
Definition ApiShaderHash := ".api_shader_hash"%string.
Definition HardwareMapping := ".hardware_mapping"%string.
End ShaderMetadataKey.

(** *** The codec ([namespace Metadata]) *)
Module Metadata.

(** Modelled from the spec: the token reader ([palMsgPack.h] is not among
    the sources).  It delivers the blob as nested items; a map item carries
    its byte offset in the blob and its entries keyed by string names.  A
    blob in which a declared length exceeds the remaining buffer is
    delivered as [TruncatedBlob]. *)
Inductive MsgPack :=
| MNil
| MBool (b : bool)
| MUInt (n : Z)
| MStr (s : string)
| MBin (bytes : list Z)
| MArray (items : list MsgPack)
| MMap (offset : MsgPackOffset) (entries : list (string * MsgPack)).

Inductive Blob :=
| TruncatedBlob
| Items (root : MsgPack).

(** Modelled from the spec: the typed result of a decode call ([Result] is
    declared in [palUtil.h], not among the sources), with the decode-time
    error taxonomy. *)
Inductive DecodeError :=
| MalformedStructure
| Truncated
| TypeMismatch
| VersionUnsupported.

Inductive Result :=
| Success
| Error (e : DecodeError).

Inductive Decoded (A : Type) :=
| Ok (a : A)
| Err (e : DecodeError).
Arguments Ok {A} a.
Arguments Err {A} e.

Definition and_then {A B} (d : Decoded A) (k : A -> Decoded B) : Decoded B :=
  match d with
  | Ok a => k a
  | Err e => Err e
  end.

Declare Scope decode_scope.
Delimit Scope decode_scope with decode.
Notation "x <- d ;; k" := (and_then d (fun x => k))
  (at level 61, d at next level, right associativity) : decode_scope.

Fixpoint for_each {A B} (f : A -> Decoded B) (l : list A) : Decoded (list B) :=
  match l with
  | [] => Ok []
  | a :: rest =>
      and_then (f a) (fun b => and_then (for_each f rest) (fun bs => Ok (b :: bs)))
  end.

(** What [palPipelineAbi.h] (not among the sources) fixes: the metadata
    major version the decoder supports, the key of each API shader type and
    of each hardware stage in enumeration order, and the wire form of the
    enumerations. *)
Class AbiSchema := {
  PipelineMetadataMajorVersion : Z;
  ApiShaderTypeStrings : list string;
  HardwareStageStrings : list string;
  DeserializeEnum_PipelineType : MsgPack -> option PipelineType;
  DeserializeEnum_PipelineSymbolType : MsgPack -> option PipelineSymbolType;
  DeserializeEnumBitflags_HardwareStage : MsgPack -> option Z
}.

Definition lookup (key : string) (entries : list (string * MsgPack))
  : option MsgPack :=
  option_map snd (find (fun kv => String.eqb (fst kv) key) entries).

(** Wire types.  A value of the wrong scalar type is a [TypeMismatch]; a
    value that should be a map or an array and is not, or has the wrong
    number of items, is a [MalformedStructure]. *)
Definition as_uint (v : MsgPack) : Decoded Z :=
  match v with MUInt n => Ok n | _ => Err TypeMismatch end.
Definition as_bool (v : MsgPack) : Decoded bool :=
  match v with MBool b => Ok b | _ => Err TypeMismatch end.
Definition as_str (v : MsgPack) : Decoded string :=
  match v with MStr s => Ok s | _ => Err TypeMismatch end.
Definition as_bin (v : MsgPack) : Decoded BinaryData :=
  match v with
  | MBin bytes => Ok {| pBuffer := bytes; sizeInBytes := Z.of_nat (List.length bytes) |}
  | _ => Err TypeMismatch
  end.
Definition as_enum {A} (parse : MsgPack -> option A) (v : MsgPack) : Decoded A :=
  match parse v with Some a => Ok a | None => Err TypeMismatch end.
Definition as_map (v : MsgPack) : Decoded (list (string * MsgPack)) :=
  match v with MMap _ entries => Ok entries | _ => Err MalformedStructure end.
Definition as_map_offset (v : MsgPack) : Decoded MsgPackOffset :=
  match v with MMap offset _ => Ok offset | _ => Err MalformedStructure end.
Definition as_array (v : MsgPack) : Decoded (list MsgPack) :=
  match v with MArray items => Ok items | _ => Err MalformedStructure end.
Definition as_uint_array (count : nat) (v : MsgPack) : Decoded (list Z) :=
  match v with
  | MArray items =>
      if Nat.eqb (List.length items) count then for_each as_uint items
      else Err MalformedStructure
  | _ => Err MalformedStructure
  end.
Definition as_uint_pair (v : MsgPack) : Decoded (Z * Z) :=
  match v with
  | MArray [a; b] =>
      and_then (as_uint a) (fun a => and_then (as_uint b) (fun b => Ok (a, b)))
  | _ => Err MalformedStructure
  end.

(** An optional field: absent leaves [None], present is decoded. *)
Definition field {A} (key : string) (dec : MsgPack -> Decoded A)
           (entries : list (string * MsgPack)) : Decoded (option A) :=
  match lookup key entries with
  | None => Ok None
  | Some v => and_then (dec v) (fun a => Ok (Some a))
  end.

(** A field that exists only in some build configurations. *)
Definition field_if {A} (enabled : bool) (key : string)
           (dec : MsgPack -> Decoded A) (entries : list (string * MsgPack))
  : Decoded (option A) :=
  if enabled then field key dec entries else Ok None.

(** A required entry of the root map. *)
Definition required {A} (key : string) (dec : MsgPack -> Decoded A)
           (entries : list (string * MsgPack)) : Decoded A :=
  match lookup key entries with
  | None => Err MalformedStructure
  | Some v => dec v
  end.

Definition value_or {A} (o : option A) (default : A) : A :=
  match o with Some a => a | None => default end.
Definition present {A} (o : option A) : bool :=
  match o with Some _ => true | None => false end.
Definition flag (o : option bool) : bool := value_or o false.

Section Decode.
Context {cfg : BuildConfig} {schema : AbiSchema}.
Local Open Scope decode_scope.

Definition before_619 : bool := PAL_CLIENT_INTERFACE_MAJOR_VERSION <? 619.

(** Modelled from the spec: the per-API-shader record of the decoder (its
    definition, [g_palPipelineAbiMetadataImpl.h], is not among the
    sources).  Known keys absent from the map leave the presence bit clear
    and the field at its default; keys the decoder does not know are never
    looked at. *)
Definition DeserializeShaderMetadata (entries : list (string * MsgPack))
  : Decoded ShaderMetadata.t :=
  apiShaderHash <- field ShaderMetadataKey.ApiShaderHash as_uint_pair entries ;;
  hardwareMapping <- field ShaderMetadataKey.HardwareMapping
                       (as_enum DeserializeEnumBitflags_HardwareStage) entries ;;
  Ok {| ShaderMetadata.apiShaderHash := value_or apiShaderHash (0, 0);
        ShaderMetadata.hardwareMapping := value_or hardwareMapping 0;
        ShaderMetadata.hasEntry := uAll_of
          [bit_of (present apiShaderHash) ShaderMetadata.hasEntryBit.apiShaderHash;
           bit_of (present hardwareMapping) ShaderMetadata.hasEntryBit.hardwareMapping] |}.

(** Modelled from the spec: the per-hardware-stage record of the decoder,
    under the same presence rule. *)
Definition DeserializeHardwareStageMetadata (entries : list (string * MsgPack))
  : Decoded HardwareStageMetadata.t :=
  entryPoint <- field HardwareStageMetadataKey.EntryPoint
                  (as_enum DeserializeEnum_PipelineSymbolType) entries ;;
  scratchMemorySize <- field HardwareStageMetadataKey.ScratchMemorySize as_uint entries ;;
  ldsSize <- field HardwareStageMetadataKey.LdsSize as_uint entries ;;
  perfDataBufferSize <- field HardwareStageMetadataKey.PerfDataBufferSize as_uint entries ;;
  vgprCount <- field HardwareStageMetadataKey.VgprCount as_uint entries ;;
  sgprCount <- field HardwareStageMetadataKey.SgprCount as_uint entries ;;
  vgprLimit <- field HardwareStageMetadataKey.VgprLimit as_uint entries ;;
  sgprLimit <- field HardwareStageMetadataKey.SgprLimit as_uint entries ;;
  threadgroupDimensions <- field HardwareStageMetadataKey.ThreadgroupDimensions
                             (as_uint_array 3) entries ;;
  wavefrontSize <- field HardwareStageMetadataKey.WavefrontSize as_uint entries ;;
  usesUavs <- field HardwareStageMetadataKey.UsesUavs as_bool entries ;;
  usesRovs <- field HardwareStageMetadataKey.UsesRovs as_bool entries ;;
  writesUavs <- field HardwareStageMetadataKey.WritesUavs as_bool entries ;;
  writesDepth <- field HardwareStageMetadataKey.WritesDepth as_bool entries ;;
  usesAppendConsume <- field HardwareStageMetadataKey.UsesAppendConsume as_bool entries ;;
  maxPrimsPerWave <- field_if before_619 HardwareStageMetadataKey.MaxPrimsPerWave
                       as_uint entries ;;
  usesPrimId <- field HardwareStageMetadataKey.UsesPrimId as_bool entries ;;
  Ok {| HardwareStageMetadata.entryPoint := value_or entryPoint UnknownSymbol;
        HardwareStageMetadata.scratchMemorySize := value_or scratchMemorySize 0;
        HardwareStageMetadata.ldsSize := value_or ldsSize 0;
        HardwareStageMetadata.perfDataBufferSize := value_or perfDataBufferSize 0;
        HardwareStageMetadata.vgprCount := value_or vgprCount 0;
        HardwareStageMetadata.sgprCount := value_or sgprCount 0;
        HardwareStageMetadata.vgprLimit := value_or vgprLimit 0;
        HardwareStageMetadata.sgprLimit := value_or sgprLimit 0;
        HardwareStageMetadata.threadgroupDimensions :=
          value_or threadgroupDimensions [0; 0; 0];
        HardwareStageMetadata.wavefrontSize := value_or wavefrontSize 0;
        HardwareStageMetadata.maxPrimsPerWave := value_or maxPrimsPerWave 0;
        HardwareStageMetadata.flags := uAll_of
          [bit_of (flag usesUavs) HardwareStageMetadata.flagBit.usesUavs;
           bit_of (flag usesRovs) HardwareStageMetadata.flagBit.usesRovs;
           bit_of (flag writesUavs) HardwareStageMetadata.flagBit.writesUavs;
           bit_of (flag writesDepth) HardwareStageMetadata.flagBit.writesDepth;
           bit_of (flag usesAppendConsume) HardwareStageMetadata.flagBit.usesAppendConsume;
           bit_of (flag usesPrimId) HardwareStageMetadata.flagBit.usesPrimId];
        HardwareStageMetadata.hasEntry := uAll_of
          [bit_of (present entryPoint) HardwareStageMetadata.hasEntryBit.entryPoint;
           bit_of (present scratchMemorySize) HardwareStageMetadata.hasEntryBit.scratchMemorySize;
           bit_of (present ldsSize) HardwareStageMetadata.hasEntryBit.ldsSize;
           bit_of (present perfDataBufferSize) HardwareStageMetadata.hasEntryBit.perfDataBufferSize;
           bit_of (present vgprCount) HardwareStageMetadata.hasEntryBit.vgprCount;
           bit_of (present sgprCount) HardwareStageMetadata.hasEntryBit.sgprCount;
           bit_of (present vgprLimit) HardwareStageMetadata.hasEntryBit.vgprLimit;
           bit_of (present sgprLimit) HardwareStageMetadata.hasEntryBit.sgprLimit;
           bit_of (present threadgroupDimensions)
                  HardwareStageMetadata.hasEntryBit.threadgroupDimensions;
           bit_of (present wavefrontSize) HardwareStageMetadata.hasEntryBit.wavefrontSize;
           bit_of (present usesUavs) HardwareStageMetadata.hasEntryBit.usesUavs;
           bit_of (present usesRovs) HardwareStageMetadata.hasEntryBit.usesRovs;
           bit_of (present writesUavs) HardwareStageMetadata.hasEntryBit.writesUavs;
           bit_of (present writesDepth) HardwareStageMetadata.hasEntryBit.writesDepth;
           bit_of (present usesAppendConsume)
                  HardwareStageMetadata.hasEntryBit.usesAppendConsume;
           bit_of (present maxPrimsPerWave) HardwareStageMetadata.hasEntryBit.maxPrimsPerWave;
           bit_of (present usesPrimId) HardwareStageMetadata.hasEntryBit.usesPrimId] |}.

(** One record per key of [keys], from the nested map stored under
    [key]; a stage the map does not mention keeps the zeroed record. *)
Definition per_stage {A} (key : string) (keys : list string) (zero : A)
           (dec : list (string * MsgPack) -> Decoded A)
           (entries : list (string * MsgPack)) : Decoded (list A) :=
  match lookup key entries with
  | None => Ok (map (fun _ => zero) keys)
  | Some v =>
      stages <- as_map v ;;
      for_each (fun stageKey =>
                  match lookup stageKey stages with
                  | None => Ok zero
                  | Some s => fields <- as_map s ;; dec fields
                  end) keys
  end.

(** Modelled from the spec: the per-pipeline record of the decoder.  The
    two large sub-structures (per-function metadata and the register map)
    are not materialized: only their byte offset in the blob is recorded. *)
Definition DeserializePipelineMetadata (entries : list (string * MsgPack))
  : Decoded PipelineMetadata.t :=
  name <- field PipelineMetadataKey.Name as_str entries ;;
  type <- field PipelineMetadataKey.Type_
            (as_enum DeserializeEnum_PipelineType) entries ;;
  internalPipelineHash <- field PipelineMetadataKey.InternalPipelineHash
                            as_uint_pair entries ;;
  shader <- per_stage PipelineMetadataKey.Shaders ApiShaderTypeStrings
              ShaderMetadata.zero DeserializeShaderMetadata entries ;;
  hardwareStage <- per_stage PipelineMetadataKey.HardwareStages HardwareStageStrings
                     HardwareStageMetadata.zero DeserializeHardwareStageMetadata
                     entries ;;
  shaderFunctions <- field PipelineMetadataKey.ShaderFunctions as_map_offset entries ;;
  registers <- field PipelineMetadataKey.Registers as_map_offset entries ;;
  userDataLimit <- field PipelineMetadataKey.UserDataLimit as_uint entries ;;
  spillThreshold <- field PipelineMetadataKey.SpillThreshold as_uint entries ;;
  usesViewportArrayIndex <- field PipelineMetadataKey.UsesViewportArrayIndex
                              as_bool entries ;;
  esGsLdsSize <- field PipelineMetadataKey.EsGsLdsSize as_uint entries ;;
  streamOutTableAddress <- field_if before_619 PipelineMetadataKey.StreamOutTableAddress
                             as_uint entries ;;
  indirectUserDataTableAddresses <-
    field_if before_619 PipelineMetadataKey.IndirectUserDataTableAddresses
             (as_uint_array 3) entries ;;
  nggSubgroupSize <- field PipelineMetadataKey.NggSubgroupSize as_uint entries ;;
  numInterpolants <- field PipelineMetadataKey.NumInterpolants as_uint entries ;;
  meshScratchMemorySize <- field PipelineMetadataKey.MeshScratchMemorySize
                             as_uint entries ;;
  calcWaveBreakSizeAtDrawTime <-
    field_if before_619 PipelineMetadataKey.CalcWaveBreakSizeAtDrawTime
             as_bool entries ;;
  api <- field PipelineMetadataKey.Api as_str entries ;;
  apiCreateInfo <- field PipelineMetadataKey.ApiCreateInfo as_bin entries ;;
  Ok {| PipelineMetadata.name := value_or name EmptyString;
        PipelineMetadata.type := value_or type 0;
        PipelineMetadata.internalPipelineHash := value_or internalPipelineHash (0, 0);
        PipelineMetadata.shader := shader;
        PipelineMetadata.hardwareStage := hardwareStage;
        PipelineMetadata.shaderFunctions := value_or shaderFunctions 0;
        PipelineMetadata.registers := value_or registers 0;
        PipelineMetadata.userDataLimit := value_or userDataLimit 0;
        PipelineMetadata.spillThreshold := value_or spillThreshold 0;
        PipelineMetadata.esGsLdsSize := value_or esGsLdsSize 0;
        PipelineMetadata.streamOutTableAddress := value_or streamOutTableAddress 0;
        PipelineMetadata.indirectUserDataTableAddresses :=
          value_or indirectUserDataTableAddresses [0; 0; 0];
        PipelineMetadata.nggSubgroupSize := value_or nggSubgroupSize 0;
        PipelineMetadata.numInterpolants := value_or numInterpolants 0;
        PipelineMetadata.meshScratchMemorySize := value_or meshScratchMemorySize 0;
        PipelineMetadata.api := value_or api EmptyString;
        PipelineMetadata.apiCreateInfo :=
          value_or apiCreateInfo {| pBuffer := []; sizeInBytes := 0 |};
        PipelineMetadata.flags := uAll_of
          [bit_of (flag usesViewportArrayIndex)
                  PipelineMetadata.flagBit.usesViewportArrayIndex;
           bit_of (flag calcWaveBreakSizeAtDrawTime)
                  PipelineMetadata.flagBit.calcWaveBreakSizeAtDrawTime];
        PipelineMetadata.hasEntry := uAll_of
          [bit_of (present name) PipelineMetadata.hasEntryBit.name;
           bit_of (present type) PipelineMetadata.hasEntryBit.type;
           bit_of (present internalPipelineHash)
                  PipelineMetadata.hasEntryBit.internalPipelineHash;
           bit_of (present shaderFunctions) PipelineMetadata.hasEntryBit.shaderFunctions;
           bit_of (present registers) PipelineMetadata.hasEntryBit.registers;
           bit_of (present userDataLimit) PipelineMetadata.hasEntryBit.userDataLimit;
           bit_of (present spillThreshold) PipelineMetadata.hasEntryBit.spillThreshold;
           bit_of (present usesViewportArrayIndex)
                  PipelineMetadata.hasEntryBit.usesViewportArrayIndex;
           bit_of (present esGsLdsSize) PipelineMetadata.hasEntryBit.esGsLdsSize;
           bit_of (present streamOutTableAddress)
                  PipelineMetadata.hasEntryBit.streamOutTableAddress;
           bit_of (present indirectUserDataTableAddresses)
                  PipelineMetadata.hasEntryBit.indirectUserDataTableAddresses;
           bit_of (present nggSubgroupSize) PipelineMetadata.hasEntryBit.nggSubgroupSize;
           bit_of (present numInterpolants) PipelineMetadata.hasEntryBit.numInterpolants;
           bit_of (present meshScratchMemorySize)
                  PipelineMetadata.hasEntryBit.meshScratchMemorySize;
           bit_of (present calcWaveBreakSizeAtDrawTime)
                  PipelineMetadata.hasEntryBit.calcWaveBreakSizeAtDrawTime;
           bit_of (present api) PipelineMetadata.hasEntryBit.api;
           bit_of (present apiCreateInfo) PipelineMetadata.hasEntryBit.apiCreateInfo] |}.

(** The version pair a blob declares, when its root is a map with a
    well-formed version entry. *)
Definition blob_version (blob : Blob) : option (Z * Z) :=
  match blob with
  | Items (MMap _ root) =>
      match lookup PalCodeObjectMetadataKey.Version root with
      | Some v => match as_uint_pair v with Ok p => Some p | Err _ => None end
      | None => None
      end
  | _ => None
  end.

(** Modelled from the spec: [Decode], the body of the plain
    [DeserializePalCodeObjectMetadata] overload, which the header only
    declares.  The root is a map with a version entry and a pipelines
    entry, both required.  A blob whose major version is greater than the
    supported one is rejected with [VersionUnsupported]; otherwise decoding
    proceeds with the first pipeline of the collection (a collection
    without entries leaves every pipeline field absent).  Each known key is
    looked up in its map; entries under other keys are never inspected. *)
Definition Decode (blob : Blob) : Decoded PalCodeObjectMetadata.t :=
  match blob with
  | TruncatedBlob => Err Truncated
  | Items root =>
      entries <- as_map root ;;
      version <- required PalCodeObjectMetadataKey.Version as_uint_pair entries ;;
      if PipelineMetadataMajorVersion <? fst version then Err VersionUnsupported
      else
        pipelines <- required PalCodeObjectMetadataKey.Pipelines as_array entries ;;
        pipeline <- match pipelines with
                    | [] => DeserializePipelineMetadata []
                    | first :: _ =>
                        fields <- as_map first ;; DeserializePipelineMetadata fields
                    end ;;
        Ok {| PalCodeObjectMetadata.version := version;
              PalCodeObjectMetadata.pipeline := pipeline;
              PalCodeObjectMetadata.hasEntry :=
                bit_of true PalCodeObjectMetadata.hasEntryBit.version |}
  end.

(** The plain overload in the shape of its declaration: the reader stands
    at the blob, the metadata is written only on success. *)
Definition DeserializePalCodeObjectMetadata (pReader : Blob)
           (pMetadata : PalCodeObjectMetadata.t)
  : Result * Blob * PalCodeObjectMetadata.t :=
  match Decode pReader with
  | Ok metadata => (Success, pReader, metadata)
  | Err e => (Error e, pReader, pMetadata)
  end.

(** The keys the decoder knows at each level. *)
Definition known_root_keys : list string :=
  [PalCodeObjectMetadataKey.Version; PalCodeObjectMetadataKey.Pipelines].

Definition known_pipeline_keys : list string :=
  [PipelineMetadataKey.Name; PipelineMetadataKey.Type_;
   PipelineMetadataKey.InternalPipelineHash; PipelineMetadataKey.Shaders;
   PipelineMetadataKey.HardwareStages; PipelineMetadataKey.ShaderFunctions;
   PipelineMetadataKey.Registers; PipelineMetadataKey.UserDataLimit;
   PipelineMetadataKey.SpillThreshold; PipelineMetadataKey.UsesViewportArrayIndex;
   PipelineMetadataKey.EsGsLdsSize; PipelineMetadataKey.NggSubgroupSize;
   PipelineMetadataKey.NumInterpolants; PipelineMetadataKey.MeshScratchMemorySize;
   PipelineMetadataKey.Api; PipelineMetadataKey.ApiCreateInfo]
  ++ (if before_619
      then [PipelineMetadataKey.StreamOutTableAddress;
            PipelineMetadataKey.IndirectUserDataTableAddresses;
            PipelineMetadataKey.CalcWaveBreakSizeAtDrawTime]
      else []).

Definition is_known (keys : list string) (key : string) : bool :=
  existsb (String.eqb key) keys.

Definition known_shader_keys : list string :=
  [ShaderMetadataKey.ApiShaderHash; ShaderMetadataKey.HardwareMapping].

Definition known_hardware_stage_keys : list string :=
  [HardwareStageMetadataKey.EntryPoint; HardwareStageMetadataKey.ScratchMemorySize;
   HardwareStageMetadataKey.LdsSize; HardwareStageMetadataKey.PerfDataBufferSize;
   HardwareStageMetadataKey.VgprCount; HardwareStageMetadataKey.SgprCount;
   HardwareStageMetadataKey.VgprLimit; HardwareStageMetadataKey.SgprLimit;
   HardwareStageMetadataKey.ThreadgroupDimensions;
   HardwareStageMetadataKey.WavefrontSize; HardwareStageMetadataKey.UsesUavs;
   HardwareStageMetadataKey.UsesRovs; HardwareStageMetadataKey.WritesUavs;
   HardwareStageMetadataKey.WritesDepth; HardwareStageMetadataKey.UsesAppendConsume;
   HardwareStageMetadataKey.UsesPrimId]
  ++ (if before_619 then [HardwareStageMetadataKey.MaxPrimsPerWave] else []).

(** A blob without the entries the decoder does not know.  At every level
    the decoder reads (the root map; the first pipeline's map; the map of
    API shaders and the map of hardware stages with the records they
    hold) only the entries under known keys are kept; byte offsets,
    values under known keys and the pipelines after the first are left as
    they are. *)
Definition keep_known (keys : list string) (entries : list (string * MsgPack))
  : list (string * MsgPack) :=
  filter (fun kv => is_known keys (fst kv)) entries.

Definition under (key : string) (f : MsgPack -> MsgPack)
           (entries : list (string * MsgPack)) : list (string * MsgPack) :=
  map (fun kv => if String.eqb (fst kv) key then (fst kv, f (snd kv)) else kv) entries.

Definition known_record (keys : list string) (v : MsgPack) : MsgPack :=
  match v with
  | MMap offset fields => MMap offset (keep_known keys fields)
  | _ => v
  end.

Definition known_stages (stageKeys recordKeys : list string) (v : MsgPack) : MsgPack :=
  match v with
  | MMap offset stages =>
      MMap offset (map (fun kv => (fst kv, known_record recordKeys (snd kv)))
                       (keep_known stageKeys stages))
  | _ => v
  end.

Definition known_pipeline (v : MsgPack) : MsgPack :=
  match v with
  | MMap offset fields =>
      MMap offset
        (under PipelineMetadataKey.Shaders
           (known_stages ApiShaderTypeStrings known_shader_keys)
           (under PipelineMetadataKey.HardwareStages
              (known_stages HardwareStageStrings known_hardware_stage_keys)
              (keep_known known_pipeline_keys fields)))
  | _ => v
  end.

Definition known_pipelines (v : MsgPack) : MsgPack :=
  match v with
  | MArray (first :: others) => MArray (known_pipeline first :: others)
  | _ => v
  end.

Definition without_unknown (blob : Blob) : Blob :=
  match blob with
  | Items (MMap offset root) =>
      Items (MMap offset (under PalCodeObjectMetadataKey.Pipelines known_pipelines
                                (keep_known known_root_keys root)))
  | _ => blob
  end.

(** Two decode results that differ at most in the minor version they
    report. *)
Definition same_but_minor (d d' : Decoded PalCodeObjectMetadata.t) : Prop :=
  match d, d' with
  | Ok m, Ok m' =>
      fst (PalCodeObjectMetadata.version m) = fst (PalCodeObjectMetadata.version m')
      /\ PalCodeObjectMetadata.pipeline m = PalCodeObjectMetadata.pipeline m'
      /\ PalCodeObjectMetadata.hasEntry m = PalCodeObjectMetadata.hasEntry m'
  | Err e, Err e' => e = e'
  | _, _ => False
  end.

(** A root map entry holding a version pair. *)
Definition version_entry (major minor : Z) : string * MsgPack :=
  (PalCodeObjectMetadataKey.Version, MArray [MUInt major; MUInt minor]).

(** A root map entry holding a pipelines collection whose first pipeline
    has the given fields. *)
Definition pipelines_entry (offset : MsgPackOffset)
           (fields : list (string * MsgPack)) (others : list MsgPack)
  : string * MsgPack :=
  (PalCodeObjectMetadataKey.Pipelines, MArray (MMap offset fields :: others)).

(** An entry of a pipeline map holding a map of stages in which the
    stage [stageKey] has the given record. *)
Definition stages_entry (key : string) (offset : MsgPackOffset)
           (before : list (string * MsgPack)) (stageKey : string)
           (recordOffset : MsgPackOffset) (record : list (string * MsgPack))
           (after : list (string * MsgPack)) : string * MsgPack :=
  (key, MMap offset (before ++ (stageKey, MMap recordOffset record) :: after)).

(** The two maps of stages of a pipeline: the key the map is stored
    under, the stages the decoder knows and the keys it knows in the
    record of a stage. *)
Inductive StageLevel := OfApiShaders | OfHardwareStages.

Definition stages_key (level : StageLevel) : string :=
  match level with
  | OfApiShaders => PipelineMetadataKey.Shaders
  | OfHardwareStages => PipelineMetadataKey.HardwareStages
  end.
Definition known_stage_keys (level : StageLevel) : list string :=
  match level with
  | OfApiShaders => ApiShaderTypeStrings
  | OfHardwareStages => HardwareStageStrings
  end.
Definition known_record_keys (level : StageLevel) : list string :=
  match level with
  | OfApiShaders => known_shader_keys
  | OfHardwareStages => known_hardware_stage_keys
  end.

End Decode.

(** *** The legacy overload with a registers-offset out-parameter *)

Section LegacyOverload.
(** The plain overload is only declared in the header: the legacy one is
    defined over any implementation of it. *)
Variable MsgPackReader : Type.
Variable plainOverload :
  MsgPackReader -> PalCodeObjectMetadata.t ->
  Result * MsgPackReader * PalCodeObjectMetadata.t.

Definition is_Success (result : Result) : bool :=
  match result with Success => true | Error _ => false end.

(** The overload the header defines inline when
    [PAL_CLIENT_INTERFACE_MAJOR_VERSION < 580].  [pRegistersOffset] is
    [None] for a null pointer, and otherwise holds what the pointed-to word
    contains. *)
Definition DeserializePalCodeObjectMetadata_RegistersOffset
           (pReader : MsgPackReader) (pMetadata : PalCodeObjectMetadata.t)
           (pRegistersOffset : option Z)
  : Result * MsgPackReader * PalCodeObjectMetadata.t * option Z :=
  let '(result, pReader, pMetadata) := plainOverload pReader pMetadata in
  let pRegistersOffset :=
    if is_Success result && present pRegistersOffset then
      Some (if bit_is_set (PipelineMetadata.hasEntry (PalCodeObjectMetadata.pipeline pMetadata))
                          PipelineMetadata.hasEntryBit.registers
            then PipelineMetadata.registers (PalCodeObjectMetadata.pipeline pMetadata)
            else 0xffffffff)
    else pRegistersOffset in
  (result, pReader, pMetadata, pRegistersOffset).

End LegacyOverload.

End Metadata.

End Abi.

(** ** The GFX9 hardware layer, as far as the hull-shader chunk uses it *)

Module Gfx9.
Import Bits Util.

(** *** Collaborators declared outside the two files *)

(** Modelled from the spec: [GfxIpLevel] with [IsGfx9] and [IsGfx10Plus]
    (declared in [palDevice.h] and [gfx9Chip.h], not among the sources).
    A hardware generation is a family of device revisions sharing a
    register layout and defect profile. *)
Inductive GfxIpLevel :=
| GfxIpNone | GfxIp6 | GfxIp7 | GfxIp8 | GfxIp8_1 | GfxIp9 | GfxIp10_1 | GfxIp10_3.

Definition IsGfx9 (gfxLevel : GfxIpLevel) : bool :=
  match gfxLevel with GfxIp9 => true | _ => false end.

Definition IsGfx10Plus (gfxLevel : GfxIpLevel) : bool :=
  match gfxLevel with GfxIp10_1 | GfxIp10_3 => true | _ => false end.

(** Register offsets and bit-field positions come from the generated
    register headers, which are not among the sources: they are taken as
    parameters. *)
Class RegisterLayout := {
  mmSPI_SHADER_PGM_RSRC1_HS : Z;
  mmSPI_SHADER_PGM_RSRC2_HS : Z;
  mmSPI_SHADER_PGM_RSRC3_HS : Z;
  mmSPI_SHADER_PGM_RSRC4_HS : Z;
  mmSPI_SHADER_PGM_CHKSUM_HS : Z;
  mmSPI_SHADER_USER_ACCUM_LSHS_0 : Z;
  mmVGT_HOS_MIN_TESS_LEVEL : Z;
  mmVGT_HOS_MAX_TESS_LEVEL : Z;
  ConstBufTblStartReg : Z;
  UserDataNotMapped : Z;
  (* regSPI_SHADER_PGM_LO_LS.bits.MEM_BASE *)
  PGM_LO_LS_MEM_BASE : BitField;
  (* regSPI_SHADER_PGM_RSRC3_HS.bits.WAVE_LIMIT and .bits.CU_EN *)
  RSRC3_HS_WAVE_LIMIT : BitField;
  RSRC3_HS_CU_EN : BitField;
  (* regSPI_SHADER_PGM_RSRC4_HS.gfx10Plus.CU_EN *)
  RSRC4_HS_CU_EN : BitField
}.

(** The register-value lookup: [At] and the has-entry query, which yields
    the value when the register has one. *)
Record RegisterVector := {
  At : Z -> Z;
  HasEntry : Z -> option Z
}.

Record GpuSymbol := { gpuVirtAddr : Z; size : Z }.

(** [GetPipelineGpuSymbol] returns [Result::Success] and fills the symbol
    exactly when it yields [Some]. *)
Record PipelineUploader := {
  GetPipelineGpuSymbol : Abi.PipelineSymbolType -> option GpuSymbol
}.

Record ElfSymbolTableEntry := { st_size : Z }.

(** [GetPipelineSymbol] returns [nullptr] exactly when it yields [None]. *)
Record AbiReader := {
  GetPipelineSymbol : Abi.PipelineSymbolType -> option ElfSymbolTableEntry
}.

Record GpuChipProperties := {
  gfxLevel : GfxIpLevel;
  gfx9_supportSpp : Z
}.

Record RegisterInfo := {
  mmUserDataStartHsShaderStage : Z;
  mmSpiShaderPgmLoLs : Z
}.

(** What the chunk asks of its [Device]. *)
Record Device := {
  ChipProperties : GpuChipProperties;
  GetRegInfo : RegisterInfo;
  GetCuEnableMask : Z -> Z -> Z;
  GetCuEnableMaskHi : Z -> Z -> Z;
  GetMaxWavesPerSh : GpuChipProperties -> bool -> Z;
  AdjustCuEnHi : Z -> Z -> Z;
  (* the condition checked by [AssertUserAccumRegsDisabled] *)
  UserAccumRegsDisabled : RegisterVector -> Z -> bool
}.

Record PerfDataInfo := { regOffset : Z; perfGpuVirtAddr : Z }.

Record DynamicStageInfo := { wavesPerSh : Z; cuEnableMask : Z }.

(** The hash accumulator: the 32-bit words fed to it so far. *)
Definition MetroHash64 := list Z.

Definition Update (hasher : MetroHash64) (dwords : list Z) : MetroHash64 :=
  hasher ++ dwords.

(** Modelled from the spec: the command-buffer writer ([gfx9CmdStream.h]
    is not among the sources).  It is the primitive that appends
    register-write opcodes to a command buffer; the command space is the
    list of opcodes written so far. *)
Inductive Pm4ShaderType := ShaderGraphics | ShaderCompute.

Inductive PFP_SET_SH_REG_INDEX_index_enum :=
| index__pfp_set_sh_reg_index__default
| index__pfp_set_sh_reg_index__apply_kmd_cu_and_mask.

Inductive Pm4Packet :=
| SetOneShReg (shaderType : Pm4ShaderType) (regAddr regData : Z)
| SetSeqShRegs (startRegAddr endRegAddr : Z) (shaderType : Pm4ShaderType)
               (data : list Z)
| SetOneShRegIndex (regAddr regData : Z) (shaderType : Pm4ShaderType)
                   (index : PFP_SET_SH_REG_INDEX_index_enum)
| SetSeqContextRegs (startRegAddr endRegAddr : Z) (data : list Z).

Definition CmdSpace := list Pm4Packet.

Definition WriteSetOneShReg (shaderType : Pm4ShaderType) (regAddr regData : Z)
           (pCmdSpace : CmdSpace) : CmdSpace :=
  pCmdSpace ++ [SetOneShReg shaderType regAddr regData].

Definition WriteSetSeqShRegs (startRegAddr endRegAddr : Z)
           (shaderType : Pm4ShaderType) (pData : list Z)
           (pCmdSpace : CmdSpace) : CmdSpace :=
  pCmdSpace ++ [SetSeqShRegs startRegAddr endRegAddr shaderType pData].

Definition WriteSetOneShRegIndex (regAddr regData : Z)
           (shaderType : Pm4ShaderType)
           (index : PFP_SET_SH_REG_INDEX_index_enum)
           (pCmdSpace : CmdSpace) : CmdSpace :=
  pCmdSpace ++ [SetOneShRegIndex regAddr regData shaderType index].

Definition WriteSetSeqContextRegs (startRegAddr endRegAddr : Z)
           (pData : list Z) (pCmdSpace : CmdSpace) : CmdSpace :=
  pCmdSpace ++ [SetSeqContextRegs startRegAddr endRegAddr pData].

(** The register a packet writes, as a test on one offset. *)
Definition writes_reg (reg : Z) (p : Pm4Packet) : bool :=
  match p with
  | SetOneShReg _ a _ => a =? reg
  | SetOneShRegIndex a _ _ _ => a =? reg
  | SetSeqShRegs s e _ _ => (s <=? reg) && (reg <=? e)
  | SetSeqContextRegs s e _ => (s <=? reg) && (reg <=? e)
  end.

(** *** The chunk's own state ([gfx9PipelineChunkHs.h]) *)

Record ShRegs := {
  spiShaderPgmLoLs : Z;
  spiShaderPgmRsrc1Hs : Z;
  spiShaderPgmRsrc2Hs : Z;
  spiShaderPgmChksumHs : Z;
  userDataInternalTable : Z
}.

Record ContextRegs := {
  vgtHosMaxTessLevel : Z;
  vgtHosMinTessLevel : Z
}.

Record DynamicRegs := {
  spiShaderPgmRsrc3Hs : Z;
  spiShaderPgmRsrc4Hs : Z
}.

Record Regs := { sh : ShRegs; context : ContextRegs; dynamic : DynamicRegs }.

Record ShaderStageInfo := {
  stageId : Abi.HardwareStage;
  codeLength : Z;
  disassemblyLength : Z
}.

Record PipelineChunkHs := {
  m_device : Device;
  m_regs : Regs;
  m_pHsPerfDataInfo : PerfDataInfo;
  m_stageInfo : ShaderStageInfo
}.

(** Member updates. *)
Definition with_regs (f : Regs -> Regs) (c : PipelineChunkHs) :=
  {| m_device := m_device c; m_regs := f (m_regs c);
     m_pHsPerfDataInfo := m_pHsPerfDataInfo c; m_stageInfo := m_stageInfo c |}.
Definition with_stageInfo (f : ShaderStageInfo -> ShaderStageInfo)
           (c : PipelineChunkHs) :=
  {| m_device := m_device c; m_regs := m_regs c;
     m_pHsPerfDataInfo := m_pHsPerfDataInfo c; m_stageInfo := f (m_stageInfo c) |}.
Definition with_sh (f : ShRegs -> ShRegs) (r : Regs) :=
  {| sh := f (sh r); context := context r; dynamic := dynamic r |}.
Definition with_context (f : ContextRegs -> ContextRegs) (r : Regs) :=
  {| sh := sh r; context := f (context r); dynamic := dynamic r |}.
Definition with_dynamic (f : DynamicRegs -> DynamicRegs) (r : Regs) :=
  {| sh := sh r; context := context r; dynamic := f (dynamic r) |}.

Definition upd_spiShaderPgmLoLs (f : Z -> Z) (s : ShRegs) :=
  {| spiShaderPgmLoLs := f (spiShaderPgmLoLs s);
     spiShaderPgmRsrc1Hs := spiShaderPgmRsrc1Hs s;
     spiShaderPgmRsrc2Hs := spiShaderPgmRsrc2Hs s;
     spiShaderPgmChksumHs := spiShaderPgmChksumHs s;
     userDataInternalTable := userDataInternalTable s |}.
Definition upd_spiShaderPgmRsrc1Hs (f : Z -> Z) (s : ShRegs) :=
  {| spiShaderPgmLoLs := spiShaderPgmLoLs s;
     spiShaderPgmRsrc1Hs := f (spiShaderPgmRsrc1Hs s);
     spiShaderPgmRsrc2Hs := spiShaderPgmRsrc2Hs s;
     spiShaderPgmChksumHs := spiShaderPgmChksumHs s;
     userDataInternalTable := userDataInternalTable s |}.
Definition upd_spiShaderPgmRsrc2Hs (f : Z -> Z) (s : ShRegs) :=
  {| spiShaderPgmLoLs := spiShaderPgmLoLs s;
     spiShaderPgmRsrc1Hs := spiShaderPgmRsrc1Hs s;
     spiShaderPgmRsrc2Hs := f (spiShaderPgmRsrc2Hs s);
     spiShaderPgmChksumHs := spiShaderPgmChksumHs s;
     userDataInternalTable := userDataInternalTable s |}.
Definition upd_spiShaderPgmChksumHs (f : Z -> Z) (s : ShRegs) :=
  {| spiShaderPgmLoLs := spiShaderPgmLoLs s;
     spiShaderPgmRsrc1Hs := spiShaderPgmRsrc1Hs s;
     spiShaderPgmRsrc2Hs := spiShaderPgmRsrc2Hs s;
     spiShaderPgmChksumHs := f (spiShaderPgmChksumHs s);
     userDataInternalTable := userDataInternalTable s |}.
Definition upd_userDataInternalTable (f : Z -> Z) (s : ShRegs) :=
  {| spiShaderPgmLoLs := spiShaderPgmLoLs s;
     spiShaderPgmRsrc1Hs := spiShaderPgmRsrc1Hs s;
     spiShaderPgmRsrc2Hs := spiShaderPgmRsrc2Hs s;
     spiShaderPgmChksumHs := spiShaderPgmChksumHs s;
     userDataInternalTable := f (userDataInternalTable s) |}.
Definition upd_vgtHosMaxTessLevel (f : Z -> Z) (s : ContextRegs) :=
  {| vgtHosMaxTessLevel := f (vgtHosMaxTessLevel s);
     vgtHosMinTessLevel := vgtHosMinTessLevel s |}.
Definition upd_vgtHosMinTessLevel (f : Z -> Z) (s : ContextRegs) :=
  {| vgtHosMaxTessLevel := vgtHosMaxTessLevel s;
     vgtHosMinTessLevel := f (vgtHosMinTessLevel s) |}.
Definition upd_spiShaderPgmRsrc3Hs (f : Z -> Z) (s : DynamicRegs) :=
  {| spiShaderPgmRsrc3Hs := f (spiShaderPgmRsrc3Hs s);
     spiShaderPgmRsrc4Hs := spiShaderPgmRsrc4Hs s |}.
Definition upd_spiShaderPgmRsrc4Hs (f : Z -> Z) (s : DynamicRegs) :=
  {| spiShaderPgmRsrc3Hs := spiShaderPgmRsrc3Hs s;
     spiShaderPgmRsrc4Hs := f (spiShaderPgmRsrc4Hs s) |}.
Definition upd_codeLength (f : Z -> Z) (s : ShaderStageInfo) :=
  {| stageId := stageId s; codeLength := f (codeLength s);
     disassemblyLength := disassemblyLength s |}.
Definition upd_disassemblyLength (f : Z -> Z) (s : ShaderStageInfo) :=
  {| stageId := stageId s; codeLength := codeLength s;
     disassemblyLength := f (disassemblyLength s) |}.
Definition upd_stageId (f : Abi.HardwareStage -> Abi.HardwareStage) (s : ShaderStageInfo) :=
  {| stageId := f (stageId s); codeLength := codeLength s;
     disassemblyLength := disassemblyLength s |}.

(** *** Methods run on the object: state and assertions *)

Inductive Assertion :=
| EntryPointIsPow2Aligned
| EntryPointAddrHiIsZero
| UserAccumRegsAreDisabled.

Inductive Outcome (A : Type) :=
| Done (a : A)
| AssertFailed (which : Assertion).
Arguments Done {A} a.
Arguments AssertFailed {A} which.

(** A method body: it runs on [*this] and either finishes with a value and
    the object's new state or stops at an assertion. *)
Definition Method (A : Type) := PipelineChunkHs -> Outcome (A * PipelineChunkHs).

Definition ret {A} (a : A) : Method A := fun this => Done (a, this).

Definition bind {A B} (m : Method A) (k : A -> Method B) : Method B :=
  fun this =>
    match m this with
    | Done (a, this') => k a this'
    | AssertFailed which => AssertFailed which
    end.

Definition member {A} (proj : PipelineChunkHs -> A) : Method A :=
  fun this => Done (proj this, this).

Definition assign (f : PipelineChunkHs -> PipelineChunkHs) : Method unit :=
  fun this => Done (tt, f this).

Definition when (b : bool) (m : Method unit) : Method unit :=
  if b then m else ret tt.

Declare Scope method_scope.
Delimit Scope method_scope with method.
Notation "x <- m ;; k" := (bind m (fun x => k))
  (at level 61, m at next level, right associativity) : method_scope.
Notation "m ;; k" := (bind m (fun _ => k))
  (at level 61, right associativity) : method_scope.

(** *** [PAL_ASSERT] *)

Section Methods.
Context {cfg : BuildConfig} {L : RegisterLayout}.
Local Open Scope method_scope.

(** Modelled from the spec: the [PAL_ASSERT] macro ([palAssert.h] is not
    among the sources).  A violated assertion is a hard, non-recoverable
    defect: the call stops there.  Whether assertions are compiled in is the
    build's choice, [PAL_ENABLE_PRINTS_ASSERTS], the symbol under which the
    source file compiles its own assertion helper; without it the macro
    expands to nothing. *)
Definition PAL_ASSERT (which : Assertion) (expr : bool) : Method unit :=
  fun this =>
    if PAL_ENABLE_PRINTS_ASSERTS && negb expr
    then AssertFailed which
    else Done (tt, this).

(** [m_device.AssertUserAccumRegsDisabled(registers, firstReg)], which the
    source compiles only under [PAL_ENABLE_PRINTS_ASSERTS]. *)
Definition AssertUserAccumRegsDisabled (registers : RegisterVector)
           (firstRegAddr : Z) : Method unit :=
  device <- member m_device ;;
  PAL_ASSERT UserAccumRegsAreDisabled
             (UserAccumRegsDisabled device registers firstRegAddr).

(** *** [PipelineChunkHs::PipelineChunkHs] *)

(** [m_regs{}] and [m_stageInfo{}] zero-initialise; the body then sets the
    stage id. *)
Definition PipelineChunkHs_ctor (device : Device) (pPerfDataInfo : PerfDataInfo)
  : PipelineChunkHs :=
  let zeroed :=
    {| m_device := device;
       m_regs := {| sh := {| spiShaderPgmLoLs := 0; spiShaderPgmRsrc1Hs := 0;
                             spiShaderPgmRsrc2Hs := 0; spiShaderPgmChksumHs := 0;
                             userDataInternalTable := 0 |};
                    context := {| vgtHosMaxTessLevel := 0; vgtHosMinTessLevel := 0 |};
                    dynamic := {| spiShaderPgmRsrc3Hs := 0; spiShaderPgmRsrc4Hs := 0 |} |};
       m_pHsPerfDataInfo := pPerfDataInfo;
       m_stageInfo := {| stageId := Abi.Ls; codeLength := 0; disassemblyLength := 0 |} |} in
  with_stageInfo (upd_stageId (fun _ => Abi.Hs)) zeroed.

(** *** [PipelineChunkHs::LateInit] *)

(** The hasher is passed by pointer: its contents go in and come out.
    [Update(m_regs.context)] feeds the two context registers in the order
    the structure holds them, the one [WriteContextCommands] relies on:
    maximum tessellation level first. *)
Definition LateInit (abiReader : AbiReader) (registers : RegisterVector)
           (pUploader : PipelineUploader) (pHasher : MetroHash64)
  : Method MetroHash64 :=
  device <- member m_device ;;
  let chipProps := ChipProperties device in
  match GetPipelineGpuSymbol pUploader Abi.HsMainEntry with
  | Some symbol =>
      assign (with_stageInfo (upd_codeLength (fun _ => size symbol))) ;;
      PAL_ASSERT EntryPointIsPow2Aligned (IsPow2Aligned (gpuVirtAddr symbol) 256) ;;
      assign (with_regs (with_sh (upd_spiShaderPgmLoLs
                (set PGM_LO_LS_MEM_BASE (Get256BAddrLo (gpuVirtAddr symbol)))))) ;;
      PAL_ASSERT EntryPointAddrHiIsZero (Get256BAddrHi (gpuVirtAddr symbol) =? 0)
  | None => ret tt
  end ;;
  match GetPipelineGpuSymbol pUploader Abi.HsShdrIntrlTblPtr with
  | Some symbol =>
      assign (with_regs (with_sh (upd_userDataInternalTable
                (fun _ => LowPart (gpuVirtAddr symbol)))))
  | None => ret tt
  end ;;
  match GetPipelineSymbol abiReader Abi.HsDisassembly with
  | Some pElfSymbol =>
      assign (with_stageInfo (upd_disassemblyLength (fun _ => st_size pElfSymbol)))
  | None => ret tt
  end ;;
  assign (with_regs (with_sh (upd_spiShaderPgmRsrc1Hs
            (fun _ => At registers mmSPI_SHADER_PGM_RSRC1_HS)))) ;;
  assign (with_regs (with_sh (upd_spiShaderPgmRsrc2Hs
            (fun _ => At registers mmSPI_SHADER_PGM_RSRC2_HS)))) ;;
  match HasEntry registers mmSPI_SHADER_PGM_RSRC3_HS with
  | Some value =>
      assign (with_regs (with_dynamic (upd_spiShaderPgmRsrc3Hs (fun _ => value))))
  | None => ret tt
  end ;;
  assign (with_regs (with_dynamic (upd_spiShaderPgmRsrc3Hs
            (set RSRC3_HS_CU_EN (GetCuEnableMask device 0 UINT_MAX))))) ;;
  when (IsGfx10Plus (gfxLevel chipProps))
       (assign (with_regs (with_dynamic (upd_spiShaderPgmRsrc4Hs
                  (set RSRC4_HS_CU_EN (GetCuEnableMaskHi device 0 UINT_MAX))))) ;;
        when PAL_ENABLE_PRINTS_ASSERTS
             (AssertUserAccumRegsDisabled registers mmSPI_SHADER_USER_ACCUM_LSHS_0)) ;;
  when (negb (gfx9_supportSpp chipProps =? 0))
       (match HasEntry registers mmSPI_SHADER_PGM_CHKSUM_HS with
        | Some value =>
            assign (with_regs (with_sh (upd_spiShaderPgmChksumHs (fun _ => value))))
        | None => ret tt
        end) ;;
  assign (with_regs (with_context (upd_vgtHosMinTessLevel
            (fun _ => At registers mmVGT_HOS_MIN_TESS_LEVEL)))) ;;
  assign (with_regs (with_context (upd_vgtHosMaxTessLevel
            (fun _ => At registers mmVGT_HOS_MAX_TESS_LEVEL)))) ;;
  regs <- member m_regs ;;
  ret (Update pHasher [vgtHosMaxTessLevel (context regs);
                       vgtHosMinTessLevel (context regs)]).

(** *** [PipelineChunkHs::WriteShCommands] *)

(** The local copy [dynamic] after the wave-limit and compute-unit
    overrides. *)
Definition patch_dynamic (device : Device) (hsStageInfo : DynamicStageInfo)
           (dynamic : DynamicRegs) : DynamicRegs :=
  let chipProps := ChipProperties device in
  let dynamic :=
    if 0 <? wavesPerSh hsStageInfo then
      upd_spiShaderPgmRsrc3Hs (set RSRC3_HS_WAVE_LIMIT (wavesPerSh hsStageInfo)) dynamic
    else if PAL_AMDGPU_BUILD
            && (IsGfx9 (gfxLevel chipProps)
                && (get RSRC3_HS_WAVE_LIMIT (spiShaderPgmRsrc3Hs dynamic) =? 0)) then
      upd_spiShaderPgmRsrc3Hs
        (set RSRC3_HS_WAVE_LIMIT (GetMaxWavesPerSh device chipProps false)) dynamic
    else dynamic in
  if negb (cuEnableMask hsStageInfo =? 0) then
    let dynamic :=
      upd_spiShaderPgmRsrc3Hs
        (fun u32All => set RSRC3_HS_CU_EN
           (Z.land (get RSRC3_HS_CU_EN u32All) (cuEnableMask hsStageInfo)) u32All)
        dynamic in
    upd_spiShaderPgmRsrc4Hs
      (fun u32All => set RSRC4_HS_CU_EN
         (AdjustCuEnHi device (get RSRC4_HS_CU_EN u32All) (cuEnableMask hsStageInfo))
         u32All)
      dynamic
  else dynamic.

(** The command space is passed in and the advanced one returned, as in
    the source. *)
Definition WriteShCommands (pCmdSpace : CmdSpace) (hsStageInfo : DynamicStageInfo)
  : Method CmdSpace :=
  device <- member m_device ;;
  let chipProps := ChipProperties device in
  let registerInfo := GetRegInfo device in
  let mmSpiShaderUserDataHs0 := mmUserDataStartHsShaderStage registerInfo in
  let mmSpiShaderPgmLoLs := mmSpiShaderPgmLoLs registerInfo in
  regs <- member m_regs ;;
  let pCmdSpace :=
    WriteSetOneShReg ShaderGraphics mmSpiShaderPgmLoLs
                     (spiShaderPgmLoLs (sh regs)) pCmdSpace in
  regs <- member m_regs ;;
  let pCmdSpace :=
    WriteSetSeqShRegs mmSPI_SHADER_PGM_RSRC1_HS mmSPI_SHADER_PGM_RSRC2_HS
                      ShaderGraphics
                      [spiShaderPgmRsrc1Hs (sh regs); spiShaderPgmRsrc2Hs (sh regs)]
                      pCmdSpace in
  regs <- member m_regs ;;
  let pCmdSpace :=
    WriteSetOneShReg ShaderGraphics (mmSpiShaderUserDataHs0 + ConstBufTblStartReg)
                     (userDataInternalTable (sh regs)) pCmdSpace in
  regs <- member m_regs ;;
  let pCmdSpace :=
    if negb (gfx9_supportSpp chipProps =? 0) then
      WriteSetOneShReg ShaderGraphics mmSPI_SHADER_PGM_CHKSUM_HS
                       (spiShaderPgmChksumHs (sh regs)) pCmdSpace
    else pCmdSpace in
  regs <- member m_regs ;;
  let dynamic := patch_dynamic device hsStageInfo (dynamic regs) in
  let pCmdSpace :=
    WriteSetOneShRegIndex mmSPI_SHADER_PGM_RSRC3_HS (spiShaderPgmRsrc3Hs dynamic)
                          ShaderGraphics
                          index__pfp_set_sh_reg_index__apply_kmd_cu_and_mask
                          pCmdSpace in
  let pCmdSpace :=
    if IsGfx10Plus (gfxLevel chipProps) then
      WriteSetOneShRegIndex mmSPI_SHADER_PGM_RSRC4_HS (spiShaderPgmRsrc4Hs dynamic)
                            ShaderGraphics
                            index__pfp_set_sh_reg_index__apply_kmd_cu_and_mask
                            pCmdSpace
    else pCmdSpace in
  pHsPerfDataInfo <- member m_pHsPerfDataInfo ;;
  let pCmdSpace :=
    if negb (regOffset pHsPerfDataInfo =? UserDataNotMapped) then
      WriteSetOneShReg ShaderGraphics (regOffset pHsPerfDataInfo)
                       (perfGpuVirtAddr pHsPerfDataInfo) pCmdSpace
    else pCmdSpace in
  ret pCmdSpace.

(** *** [PipelineChunkHs::WriteContextCommands] *)

Definition WriteContextCommands (pCmdSpace : CmdSpace) : Method CmdSpace :=
  regs <- member m_regs ;;
  ret (WriteSetSeqContextRegs mmVGT_HOS_MAX_TESS_LEVEL mmVGT_HOS_MIN_TESS_LEVEL
         [vgtHosMaxTessLevel (context regs); vgtHosMinTessLevel (context regs)]
         pCmdSpace).

(** *** The ready phase: any sequence of command-writing calls *)

Inductive ReadyCall :=
| CallWriteShCommands (hsStageInfo : DynamicStageInfo)
| CallWriteContextCommands.

Fixpoint replay (calls : list ReadyCall) (pCmdSpace : CmdSpace) : Method CmdSpace :=
  match calls with
  | [] => ret pCmdSpace
  | CallWriteShCommands hsStageInfo :: rest =>
      pCmdSpace <- WriteShCommands pCmdSpace hsStageInfo ;;
      replay rest pCmdSpace
  | CallWriteContextCommands :: rest =>
      pCmdSpace <- WriteContextCommands pCmdSpace ;;
      replay rest pCmdSpace
  end.

End Methods.

(** *** Observations on command streams and outcomes *)

Section Observations.
Context {cfg : BuildConfig} {L : RegisterLayout}.

(** The values written to [reg] by indexed register-set packets, in
    order. *)
Definition index_writes (reg : Z) (cmds : CmdSpace) : list Z :=
  flat_map (fun p =>
              match p with
              | SetOneShRegIndex regAddr regData _ _ =>
                  if regAddr =? reg then [regData] else []
              | _ => []
              end) cmds.

(** No packet of [cmds] writes [reg]. *)
Definition never_writes (reg : Z) (cmds : CmdSpace) : bool :=
  forallb (fun p => negb (writes_reg reg p)) cmds.

(** Two packets are the same, or set the same override-bearing register to
    values that agree outside the fields the overrides patch. *)
Inductive differ_only_in_overrides : Pm4Packet -> Pm4Packet -> Prop :=
| same_packet p : differ_only_in_overrides p p
| rsrc3_packets v1 v2 shaderType index :
    same_outside [RSRC3_HS_WAVE_LIMIT; RSRC3_HS_CU_EN] v1 v2 ->
    differ_only_in_overrides
      (SetOneShRegIndex mmSPI_SHADER_PGM_RSRC3_HS v1 shaderType index)
      (SetOneShRegIndex mmSPI_SHADER_PGM_RSRC3_HS v2 shaderType index)
| rsrc4_packets v1 v2 shaderType index :
    same_outside [RSRC4_HS_CU_EN] v1 v2 ->
    differ_only_in_overrides
      (SetOneShRegIndex mmSPI_SHADER_PGM_RSRC4_HS v1 shaderType index)
      (SetOneShRegIndex mmSPI_SHADER_PGM_RSRC4_HS v2 shaderType index).

(** The checksum register's offset is not also the offset of another
    register the chunk writes. *)
Definition chksum_unaliased (this : PipelineChunkHs) : bool :=
  let reg := mmSPI_SHADER_PGM_CHKSUM_HS in
  let registerInfo := GetRegInfo (m_device this) in
  negb (mmSpiShaderPgmLoLs registerInfo =? reg)
  && negb ((mmSPI_SHADER_PGM_RSRC1_HS <=? reg) && (reg <=? mmSPI_SHADER_PGM_RSRC2_HS))
  && negb (mmUserDataStartHsShaderStage registerInfo + ConstBufTblStartReg =? reg)
  && negb (mmSPI_SHADER_PGM_RSRC3_HS =? reg)
  && negb (mmSPI_SHADER_PGM_RSRC4_HS =? reg)
  && negb (regOffset (m_pHsPerfDataInfo this) =? reg).

(** The condition under which the user-accumulator diagnostic of
    [LateInit] stops the call. *)
Definition user_accum_assert_fires (device : Device) (registers : RegisterVector)
  : bool :=
  PAL_ENABLE_PRINTS_ASSERTS
  && IsGfx10Plus (gfxLevel (ChipProperties device))
  && negb (UserAccumRegsDisabled device registers mmSPI_SHADER_USER_ACCUM_LSHS_0).

(** The chunk in its ready state: constructed, then late-initialised. *)
Definition ready (device : Device) (pPerfDataInfo : PerfDataInfo)
           (abiReader : AbiReader) (registers : RegisterVector)
           (pUploader : PipelineUploader) : option PipelineChunkHs :=
  match LateInit abiReader registers pUploader []
                 (PipelineChunkHs_ctor device pPerfDataInfo) with
  | Done (_, this) => Some this
  | AssertFailed _ => None
  end.

End Observations.

(** *** What a call appends *)

Section Appended.
Context {cfg : BuildConfig} {L : RegisterLayout}.

(** The command space a method returns, when it finishes. *)
Definition returned_space (m : Method CmdSpace) (this : PipelineChunkHs) : CmdSpace :=
  match m this with
  | Done (pCmdSpace, _) => pCmdSpace
  | AssertFailed _ => []
  end.

(** The packets one call of the ready phase writes into an empty command
    space. *)
Definition call_packets (this : PipelineChunkHs) (call : ReadyCall) : CmdSpace :=
  returned_space (replay [call] []) this.

(** Two register lookups that agree on every register [LateInit] asks
    for on the given device. *)
Definition agree_for_LateInit (device : Device) (r1 r2 : RegisterVector) : Prop :=
  At r1 mmSPI_SHADER_PGM_RSRC1_HS = At r2 mmSPI_SHADER_PGM_RSRC1_HS
  /\ At r1 mmSPI_SHADER_PGM_RSRC2_HS = At r2 mmSPI_SHADER_PGM_RSRC2_HS
  /\ HasEntry r1 mmSPI_SHADER_PGM_RSRC3_HS = HasEntry r2 mmSPI_SHADER_PGM_RSRC3_HS
  /\ At r1 mmVGT_HOS_MIN_TESS_LEVEL = At r2 mmVGT_HOS_MIN_TESS_LEVEL
  /\ At r1 mmVGT_HOS_MAX_TESS_LEVEL = At r2 mmVGT_HOS_MAX_TESS_LEVEL
  /\ (gfx9_supportSpp (ChipProperties device) <> 0 ->
      HasEntry r1 mmSPI_SHADER_PGM_CHKSUM_HS = HasEntry r2 mmSPI_SHADER_PGM_CHKSUM_HS)
  /\ (PAL_ENABLE_PRINTS_ASSERTS = true ->
      IsGfx10Plus (gfxLevel (ChipProperties device)) = true ->
      UserAccumRegsDisabled device r1 mmSPI_SHADER_USER_ACCUM_LSHS_0
      = UserAccumRegsDisabled device r2 mmSPI_SHADER_USER_ACCUM_LSHS_0).

End Appended.

End Gfx9.

(** ** The event client's provider description ([ddEventClient.h]) *)

Module DevDriver.

(** The two headers the iterators read are declared in
    [ddEventProtocol.h], outside these sources: their fields are the ones
    the iterators use, and the offsets and sizes their methods compute are
    parameters. *)
Record ProviderDescriptionHeader := {
  providerId : Z;
  numEvents : Z;
  eventDescriptionDataSize : Z;
  isEnabled : bool
}.

Record QueryProvidersResponseHeader := { numProviders : Z }.

Class EventProtocol := {
  GetEventDataOffset : ProviderDescriptionHeader -> Z;
  GetEventDataSize : ProviderDescriptionHeader -> Z;
  GetEventDescriptionOffset : ProviderDescriptionHeader -> Z;
  GetNextProviderDescriptionOffset : ProviderDescriptionHeader -> Z;
  sizeof_QueryProvidersResponseHeader : Z
}.

(** What a [reinterpret_cast] of an address to either header type reads. *)
Record ResponseMemory := {
  providerHeaderAt : Z -> ProviderDescriptionHeader;
  responseHeaderAt : Z -> QueryProvidersResponseHeader
}.

(** A [const void*]: null, or an address.  Adding a byte offset to an
    address gives an address. *)
Inductive pointer :=
| nullptr
| at_address (address : Z).

Definition is_nullptr (p : pointer) : bool :=
  match p with nullptr => true | at_address _ => false end.

(** *** [class EventProviderIterator] *)
Module EventProviderIterator.

Record t := {
  m_providerIndex : Z;
  m_numProviders : Z;
  m_pProviderData : pointer
}.

(** The private default constructor. *)
Definition ctor_default : t :=
  {| m_providerIndex := 0; m_numProviders := 0; m_pProviderData := nullptr |}.

(** The private three-argument constructor. *)
Definition ctor (providerIndex numProviders : Z) (pProviderData : pointer) : t :=
  {| m_providerIndex := providerIndex; m_numProviders := numProviders;
     m_pProviderData := pProviderData |}.

Section Methods.
Context {protocol : EventProtocol}.
Variable memory : ResponseMemory.

(** [GetHeader] dereferences the data pointer: there is no header behind a
    null pointer. *)
Definition GetHeader (this : t) : option ProviderDescriptionHeader :=
  match m_pProviderData this with
  | at_address a => Some (providerHeaderAt memory a)
  | nullptr => None
  end.

(** [IsValid] returns whether the index is in range. *)
Definition IsValid (this : t) : bool :=
  m_providerIndex this <? m_numProviders this.

(** The expression [IsValid] hands to [DD_ASSERT] (a macro defined outside
    these sources) before returning. *)
Definition IsValid_asserted (this : t) : bool :=
  is_nullptr (m_pProviderData this) || (m_providerIndex this <? m_numProviders this).

Definition GetId (this : t) : option Z :=
  option_map providerId (GetHeader this).

Definition IsEnabled (this : t) : option bool :=
  option_map isEnabled (GetHeader this).

Definition GetNumEvents (this : t) : option Z :=
  option_map numEvents (GetHeader this).

Definition GetEventData (this : t) : option pointer :=
  match m_pProviderData this with
  | at_address a =>
      Some (at_address (a + GetEventDataOffset (providerHeaderAt memory a)))
  | nullptr => None
  end.

(** The header's size is narrowed to [uint32]. *)
Definition GetEventDataSize (this : t) : option Z :=
  option_map (fun header => GetEventDataSize header mod 2 ^ 32) (GetHeader this).

Definition GetEventDescriptionData (this : t) : option pointer :=
  match m_pProviderData this with
  | at_address a =>
      Some (at_address (a + GetEventDescriptionOffset (providerHeaderAt memory a)))
  | nullptr => None
  end.

Definition GetEventDescriptionDataSize (this : t) : option Z :=
  option_map (fun header => eventDescriptionDataSize header mod 2 ^ 32)
             (GetHeader this).

(** [Next]: the default iterator unless the next index (a [uint32]) is in
    range; then the iterator of the next description, which needs the
    current header. *)
Definition Next (this : t) : option t :=
  let nextIterator := ctor_default in
  let nextProviderIndex := (m_providerIndex this + 1) mod 2 ^ 32 in
  if nextProviderIndex <? m_numProviders this then
    match m_pProviderData this with
    | at_address a =>
        let pNextProviderData :=
          at_address (a + GetNextProviderDescriptionOffset (providerHeaderAt memory a)) in
        Some (ctor nextProviderIndex (m_numProviders this) pNextProviderData)
    | nullptr => None
    end
  else Some nextIterator.

(** [steps] applications of [Next]. *)
Fixpoint advance (steps : nat) (this : t) : option t :=
  match steps with
  | O => Some this
  | S steps' =>
      match Next this with
      | Some next => advance steps' next
      | None => None
      end
  end.

End Methods.
End EventProviderIterator.

(** *** [class EventProvidersDescription] *)
Module EventProvidersDescription.

Record t := { m_pResponseData : pointer }.

Section Methods.
Context {protocol : EventProtocol}.
Variable memory : ResponseMemory.

Definition GetHeader (this : t) : option QueryProvidersResponseHeader :=
  match m_pResponseData this with
  | at_address a => Some (responseHeaderAt memory a)
  | nullptr => None
  end.

Definition GetNumProviders (this : t) : option Z :=
  option_map numProviders (GetHeader this).

Definition GetFirstProvider (this : t) : option EventProviderIterator.t :=
  match m_pResponseData this with
  | at_address a =>
      Some (EventProviderIterator.ctor
              0 (numProviders (responseHeaderAt memory a))
              (at_address (a + sizeof_QueryProvidersResponseHeader)))
  | nullptr => None
  end.

(** The iterator a client holds after [steps] calls of [Next], starting
    from [GetFirstProvider]. *)
Definition nth_provider (this : t) (steps : nat) : option EventProviderIterator.t :=
  match GetFirstProvider this with
  | Some first => EventProviderIterator.advance memory steps first
  | None => None
  end.

End Methods.
End EventProvidersDescription.

End DevDriver.

(** ** Concrete configurations

    Build configurations, a register layout, devices, lookups and blobs on
    which the model is run. *)

Module Samples.
Import Bits Gfx9.

(** An AMDGPU build without assertions, one with assertions, and a build
    for another platform. *)
Definition release_amdgpu : BuildConfig :=
  {| PAL_ENABLE_PRINTS_ASSERTS := false; PAL_AMDGPU_BUILD := true;
     PAL_CLIENT_INTERFACE_MAJOR_VERSION := 570 |}.
Definition debug_amdgpu : BuildConfig :=
  {| PAL_ENABLE_PRINTS_ASSERTS := true; PAL_AMDGPU_BUILD := true;
     PAL_CLIENT_INTERFACE_MAJOR_VERSION := 570 |}.
Definition release_other : BuildConfig :=
  {| PAL_ENABLE_PRINTS_ASSERTS := false; PAL_AMDGPU_BUILD := false;
     PAL_CLIENT_INTERFACE_MAJOR_VERSION := 650 |}.

Definition layout : RegisterLayout :=
  {| mmSPI_SHADER_PGM_RSRC1_HS := 0x2d0a;
     mmSPI_SHADER_PGM_RSRC2_HS := 0x2d0b;
     mmSPI_SHADER_PGM_RSRC3_HS := 0x2d07;
     mmSPI_SHADER_PGM_RSRC4_HS := 0x2d05;
     mmSPI_SHADER_PGM_CHKSUM_HS := 0x2d06;
     mmSPI_SHADER_USER_ACCUM_LSHS_0 := 0x2d52;
     mmVGT_HOS_MIN_TESS_LEVEL := 0xa287;
     mmVGT_HOS_MAX_TESS_LEVEL := 0xa286;
     ConstBufTblStartReg := 1;
     UserDataNotMapped := 0;
     PGM_LO_LS_MEM_BASE := mkBitField 0 32;
     RSRC3_HS_WAVE_LIMIT := mkBitField 0 6;
     RSRC3_HS_CU_EN := mkBitField 16 16;
     RSRC4_HS_CU_EN := mkBitField 0 16 |}.

Definition device (level : GfxIpLevel) (supportSpp : Z) : Device :=
  {| ChipProperties := {| gfxLevel := level; gfx9_supportSpp := supportSpp |};
     GetRegInfo := {| mmUserDataStartHsShaderStage := 0x2d0c;
                      mmSpiShaderPgmLoLs := 0x2d48 |};
     GetCuEnableMask := fun _ _ => 0xffff;
     GetCuEnableMaskHi := fun _ _ => 0x00ff;
     GetMaxWavesPerSh := fun _ _ => 40;
     AdjustCuEnHi := fun val mask => Z.land (Z.land val (Z.shiftr mask 16)) 0xffff;
     UserAccumRegsDisabled := fun registers firstRegAddr =>
       match HasEntry registers firstRegAddr with
       | Some value => value =? 0
       | None => true
       end |}.

Definition vega : Device := device GfxIp9 0.
Definition raven2 : Device := device GfxIp9 1.
Definition navi : Device := device GfxIp10_1 1.

Definition registers_of (entries : list (Z * Z)) : RegisterVector :=
  let find_reg offset :=
    option_map snd (find (fun kv => fst kv =? offset) entries) in
  {| At := fun offset => match find_reg offset with Some v => v | None => 0 end;
     HasEntry := find_reg |}.

Definition registers : RegisterVector :=
  registers_of [(0x2d0a, 0x002c0041); (0x2d0b, 0x00000094); (0x2d07, 0x00000380);
                (0x2d06, 0xcafe1234); (0xa286, 0x42800000); (0xa287, 0x3f800000)].

Definition uploader_of (entries : list (Abi.PipelineSymbolType * GpuSymbol))
  : PipelineUploader :=
  {| GetPipelineGpuSymbol := fun type =>
       option_map snd
         (find (fun kv =>
                  match fst kv, type with
                  | Abi.MainEntry Abi.Hs, Abi.MainEntry Abi.Hs => true
                  | Abi.ShdrIntrlTblPtr Abi.Hs, Abi.ShdrIntrlTblPtr Abi.Hs => true
                  | _, _ => false
                  end) entries) |}.

Definition uploader_aligned : PipelineUploader :=
  uploader_of [(Abi.HsMainEntry, {| gpuVirtAddr := 0x12345600; size := 0x140 |});
               (Abi.HsShdrIntrlTblPtr, {| gpuVirtAddr := 0x800040; size := 64 |})].
Definition uploader_misaligned : PipelineUploader :=
  uploader_of [(Abi.HsMainEntry, {| gpuVirtAddr := 0x12345680; size := 0x140 |})].
Definition uploader_empty : PipelineUploader := uploader_of [].

Definition abiReader : AbiReader :=
  {| GetPipelineSymbol := fun _ => None |}.

Definition no_perf_data : PerfDataInfo := {| regOffset := 0; perfGpuVirtAddr := 0 |}.
Definition perf_data : PerfDataInfo :=
  {| regOffset := 0x2d1b; perfGpuVirtAddr := 0x00a00000 |}.

Definition no_override : DynamicStageInfo := {| wavesPerSh := 0; cuEnableMask := 0 |}.

(** Chunks in the ready state, late-initialised in a build without
    assertions. *)
Definition ready_chunk (cfg : BuildConfig) (device : Device)
           (pPerfDataInfo : PerfDataInfo) (pUploader : PipelineUploader)
  : PipelineChunkHs :=
  match ready (cfg := cfg) (L := layout) device pPerfDataInfo abiReader registers
              pUploader with
  | Some this => this
  | None => PipelineChunkHs_ctor device pPerfDataInfo
  end.

Definition vega_ready : PipelineChunkHs :=
  ready_chunk release_amdgpu vega perf_data uploader_aligned.
Definition raven2_ready : PipelineChunkHs :=
  ready_chunk release_amdgpu raven2 perf_data uploader_aligned.
Definition navi_ready : PipelineChunkHs :=
  ready_chunk release_amdgpu navi no_perf_data uploader_aligned.

(** A schema and blobs for the codec. *)
Import Abi Abi.Metadata.

Definition schema : AbiSchema :=
  {| PipelineMetadataMajorVersion := 2;
     ApiShaderTypeStrings :=
       [".compute"; ".task"; ".vertex"; ".hull"; ".domain"; ".geometry"; ".mesh";
        ".pixel"]%string;
     HardwareStageStrings := [".ls"; ".hs"; ".es"; ".gs"; ".vs"; ".ps"; ".cs"]%string;
     DeserializeEnum_PipelineType := fun v =>
       match v with
       | MStr s => if String.eqb s "VsPs" then Some 0
                   else if String.eqb s "Tess" then Some 4 else None
       | _ => None
       end;
     DeserializeEnum_PipelineSymbolType := fun v =>
       match v with
       | MStr s => if String.eqb s "_amdgpu_hs_main" then Some HsMainEntry
                   else if String.eqb s "_amdgpu_vs_main" then Some (MainEntry Vs)
                   else None
       | _ => None
       end;
     DeserializeEnumBitflags_HardwareStage := fun v =>
       match v with MUInt n => Some n | _ => None end |}.

Definition tess_fields : list (string * MsgPack) :=
  [(".name", MStr "tess"); (".type", MStr "Tess");
   (".registers", MMap 512 []);
   (".hardware_stages",
     MMap 100 [(".hs", MMap 120 [(".entry_point", MStr "_amdgpu_hs_main");
                                 (".vgpr_count", MUInt 24)])]);
   (".user_data_limit", MUInt 12)]%string.

(** The same pipeline with entries a later producer might add: a field
    of the pipeline, a counter in the record of the hull stage, and a stage
    under a new name. *)
Definition tess_fields_stage_future : list (string * MsgPack) :=
  [(".name", MStr "tess"); (".type", MStr "Tess");
   (".registers", MMap 512 []);
   (".hardware_stages",
     MMap 100 [(".hs", MMap 120 [(".entry_point", MStr "_amdgpu_hs_main");
                                 (".future_counter", MUInt 9);
                                 (".vgpr_count", MUInt 24)])]);
   (".user_data_limit", MUInt 12)]%string.

Definition tess_fields_future : list (string * MsgPack) :=
  [(".name", MStr "tess"); (".type", MStr "Tess");
   (".future_field", MArray [MNil]);
   (".registers", MMap 512 []);
   (".hardware_stages",
     MMap 100 [(".future_stage", MMap 110 [(".vgpr_count", MStr "many")]);
               (".hs", MMap 120 [(".entry_point", MStr "_amdgpu_hs_main");
                                 (".future_counter", MUInt 9);
                                 (".vgpr_count", MUInt 24)])]);
   (".user_data_limit", MUInt 12)]%string.

Definition blob_with (major minor : Z) (fields : list (string * MsgPack)) : Blob :=
  Items (MMap 0 [version_entry major minor; pipelines_entry 40 fields []]).

Definition tess_blob : Blob := blob_with 2 6 tess_fields.
Definition future_blob : Blob := blob_with 3 0 tess_fields.
Definition no_registers_blob : Blob :=
  blob_with 2 6 [(".name", MStr "plain")]%string.

Definition zero_metadata : PalCodeObjectMetadata.t :=
  {| PalCodeObjectMetadata.version := (0, 0);
     PalCodeObjectMetadata.pipeline :=
       {| PipelineMetadata.name := EmptyString; PipelineMetadata.type := 0;
          PipelineMetadata.internalPipelineHash := (0, 0);
          PipelineMetadata.shader := []; PipelineMetadata.hardwareStage := [];
          PipelineMetadata.shaderFunctions := 0; PipelineMetadata.registers := 0;
          PipelineMetadata.userDataLimit := 0; PipelineMetadata.spillThreshold := 0;
          PipelineMetadata.esGsLdsSize := 0;
          PipelineMetadata.streamOutTableAddress := 0;
          PipelineMetadata.indirectUserDataTableAddresses := [0; 0; 0];
          PipelineMetadata.nggSubgroupSize := 0; PipelineMetadata.numInterpolants := 0;
          PipelineMetadata.meshScratchMemorySize := 0;
          PipelineMetadata.api := EmptyString;
          PipelineMetadata.apiCreateInfo := {| pBuffer := []; sizeInBytes := 0 |};
          PipelineMetadata.flags := 0; PipelineMetadata.hasEntry := 0 |};
     PalCodeObjectMetadata.hasEntry := 0 |}.

(** A lookup in which the first user-accumulator register is set. *)
Definition registers_user_accum : RegisterVector :=
  registers_of [(0x2d52, 1); (0x2d0a, 0x002c0041); (0x2d0b, 0x00000094);
                (0x2d07, 0x00000380); (0x2d06, 0xcafe1234);
                (0xa286, 0x42800000); (0xa287, 0x3f800000)].

(** A lookup that holds one more register than [registers]. *)
Definition registers_with_extra : RegisterVector :=
  registers_of [(0x2d20, 5); (0x2d0a, 0x002c0041); (0x2d0b, 0x00000094);
                (0x2d07, 0x00000380); (0x2d06, 0xcafe1234);
                (0xa286, 0x42800000); (0xa287, 0x3f800000)].

(** A chunk late-initialised in a build with assertions. *)
Definition vega_ready_checked : PipelineChunkHs :=
  ready_chunk debug_amdgpu vega perf_data uploader_aligned.

(** Provider descriptions for the event client: one with two providers at
    address 0x1000, one without providers at address 0x2000. *)
Import DevDriver.

Definition event_protocol : EventProtocol :=
  {| GetEventDataOffset := fun _ => 16;
     GetEventDataSize := fun header => (Z.max (numEvents header) 1 + 7) / 8;
     GetEventDescriptionOffset := fun header =>
       16 + (Z.max (numEvents header) 1 + 7) / 8;
     GetNextProviderDescriptionOffset := fun header =>
       16 + (Z.max (numEvents header) 1 + 7) / 8 + eventDescriptionDataSize header;
     sizeof_QueryProvidersResponseHeader := 8 |}.

Definition response_memory : ResponseMemory :=
  {| providerHeaderAt := fun address =>
       if address =? 0x1008
       then {| providerId := 7; numEvents := 3; eventDescriptionDataSize := 20;
               isEnabled := true |}
       else {| providerId := 9; numEvents := 12; eventDescriptionDataSize := 0;
               isEnabled := false |};
     responseHeaderAt := fun address =>
       {| numProviders := if address =? 0x1000 then 2 else 0 |} |}.

Definition two_providers : EventProvidersDescription.t :=
  {| EventProvidersDescription.m_pResponseData := at_address 0x1000 |}.
Definition no_providers : EventProvidersDescription.t :=
  {| EventProvidersDescription.m_pResponseData := at_address 0x2000 |}.

End Samples.

(** * Properties *)

(** ** Bit-fields *)

Section BitFieldFacts.
Import Bits.

Lemma testbit_get (f : BitField) (x i : Z) :
  0 <= i ->
  Z.testbit (get f x) i
  = Z.testbit x (i + Z.of_N (bf_shift f)) && (i <? Z.of_N (bf_width f)).
Proof.
  intros Hi. unfold get.
  rewrite Z.land_spec, Z.shiftr_spec by assumption.
  rewrite Z.testbit_ones_nonneg by lia.
  reflexivity.
Qed.

Lemma testbit_mask (f : BitField) (i : Z) :
  0 <= i -> Z.testbit (bf_mask f) i = in_field f i.
Proof.
  intros Hi. unfold bf_mask, in_field.
  rewrite Z.shiftl_spec by assumption.
  destruct (Z.leb_spec (Z.of_N (bf_shift f)) i) as [Hle | Hlt]; simpl.
  - rewrite Z.testbit_ones_nonneg by lia.
    destruct (Z.ltb_spec (i - Z.of_N (bf_shift f)) (Z.of_N (bf_width f)));
      destruct (Z.ltb_spec i (Z.of_N (bf_shift f) + Z.of_N (bf_width f)));
      try reflexivity; lia.
  - apply Z.testbit_neg_r. lia.
Qed.

Lemma testbit_set (f : BitField) (v x i : Z) :
  0 <= i ->
  Z.testbit (set f v x) i
  = if in_field f i then Z.testbit v (i - Z.of_N (bf_shift f)) else Z.testbit x i.
Proof.
  intros Hi. unfold set.
  rewrite Z.lor_spec, Z.ldiff_spec, testbit_mask, Z.shiftl_spec by assumption.
  unfold in_field.
  destruct (Z.leb_spec (Z.of_N (bf_shift f)) i) as [Hle | Hlt]; simpl.
  - rewrite Z.land_spec, Z.testbit_ones_nonneg by lia.
    destruct (Z.ltb_spec i (Z.of_N (bf_shift f) + Z.of_N (bf_width f)));
      destruct (Z.ltb_spec (i - Z.of_N (bf_shift f)) (Z.of_N (bf_width f)));
      try lia.
    + rewrite Bool.andb_false_r, Bool.andb_true_r. reflexivity.
    + rewrite !Bool.andb_true_r, Bool.andb_false_r, Bool.orb_false_r. reflexivity.
  - rewrite Bool.andb_true_r, (Z.testbit_neg_r _ (i - Z.of_N (bf_shift f))) by lia.
    apply Bool.orb_false_r.
Qed.

(** Reading a field after storing into it yields the stored value truncated
    to the field's width. *)
Lemma get_set_same (f : BitField) (v x : Z) :
  get f (set f v x) = v mod 2 ^ Z.of_N (bf_width f).
Proof.
  rewrite <- Z.land_ones by lia.
  apply Z.bits_inj'. intros i Hi.
  rewrite testbit_get, testbit_set by lia.
  rewrite Z.land_spec, Z.testbit_ones_nonneg by lia.
  unfold in_field.
  destruct (Z.ltb_spec i (Z.of_N (bf_width f))).
  - replace (Z.of_N (bf_shift f) <=? i + Z.of_N (bf_shift f)) with true
      by (symmetry; apply Z.leb_le; lia).
    replace (i + Z.of_N (bf_shift f) <? Z.of_N (bf_shift f) + Z.of_N (bf_width f))
      with true by (symmetry; apply Z.ltb_lt; lia).
    simpl. do 2 f_equal. lia.
  - rewrite !Bool.andb_false_r. reflexivity.
Qed.

(** Storing into one field leaves a disjoint field as it was. *)
Lemma get_set_disjoint (f g : BitField) (v x : Z) :
  disjoint f g = true -> get g (set f v x) = get g x.
Proof.
  intros Hd. apply Z.bits_inj'. intros i Hi.
  rewrite !testbit_get, testbit_set by lia.
  destruct (Z.ltb_spec i (Z.of_N (bf_width g))); [| rewrite !Bool.andb_false_r; reflexivity].
  replace (in_field f (i + Z.of_N (bf_shift g))) with false; [reflexivity |].
  symmetry. unfold in_field. unfold disjoint in Hd.
  apply Bool.orb_true_iff in Hd.
  apply Bool.andb_false_iff.
  destruct Hd as [Hd | Hd]; apply Z.leb_le in Hd.
  - right. apply Z.ltb_ge. lia.
  - left. apply Z.leb_gt. lia.
Qed.

(** A store into a field changes no bit outside it. *)
Lemma set_same_outside (f : BitField) (fields : list BitField) (v x : Z) :
  In f fields -> same_outside fields (set f v x) x.
Proof.
  intros Hin i Hi Hout.
  rewrite testbit_set by assumption.
  rewrite forallb_forall in Hout. specialize (Hout f Hin).
  apply Bool.negb_true_iff in Hout. rewrite Hout. reflexivity.
Qed.

Lemma same_outside_refl (fields : list BitField) (x : Z) :
  same_outside fields x x.
Proof. intros i _ _. reflexivity. Qed.

Lemma same_outside_sym (fields : list BitField) (x y : Z) :
  same_outside fields x y -> same_outside fields y x.
Proof. intros H i Hi Ho. symmetry. apply H; assumption. Qed.

Lemma same_outside_trans (fields : list BitField) (x y z : Z) :
  same_outside fields x y -> same_outside fields y z -> same_outside fields x z.
Proof. intros H1 H2 i Hi Ho. rewrite H1, H2 by assumption. reflexivity. Qed.

Lemma get_zero (f : BitField) : get f 0 = 0.
Proof. unfold get. rewrite Z.shiftr_0_l. apply Z.land_0_l. Qed.

(** A field never holds more than its width allows. *)
Lemma get_range (f : BitField) (x : Z) :
  0 <= get f x < 2 ^ Z.of_N (bf_width f).
Proof.
  unfold get. rewrite Z.land_ones by lia.
  apply Z.mod_pos_bound. apply Z.pow_pos_nonneg; lia.
Qed.

End BitFieldFacts.

(** ** The hull-shader chunk: writing commands *)

Section WriteCommandsFacts.
Import Bits Util Gfx9.
Context {cfg : BuildConfig} {L : RegisterLayout}.

Ltac run_method :=
  unfold WriteShCommands, WriteContextCommands, bind, member, ret, assign, when,
    WriteSetOneShReg, WriteSetSeqShRegs, WriteSetOneShRegIndex,
    WriteSetSeqContextRegs; cbn beta iota.

(** One call appends, to whatever the command space holds, packets that
    depend on the object and the overrides only, and leaves the object as it
    was. *)
Lemma WriteShCommands_run (pCmdSpace : CmdSpace) (hsStageInfo : DynamicStageInfo)
      (this : PipelineChunkHs) :
  let device := m_device this in
  let chipProps := ChipProperties device in
  let regs := m_regs this in
  let dyn := patch_dynamic device hsStageInfo (dynamic regs) in
  WriteShCommands pCmdSpace hsStageInfo this
  = Done (pCmdSpace
          ++ [SetOneShReg ShaderGraphics (mmSpiShaderPgmLoLs (GetRegInfo device))
                          (spiShaderPgmLoLs (sh regs));
              SetSeqShRegs mmSPI_SHADER_PGM_RSRC1_HS mmSPI_SHADER_PGM_RSRC2_HS
                           ShaderGraphics
                           [spiShaderPgmRsrc1Hs (sh regs); spiShaderPgmRsrc2Hs (sh regs)];
              SetOneShReg ShaderGraphics
                          (mmUserDataStartHsShaderStage (GetRegInfo device)
                           + ConstBufTblStartReg)
                          (userDataInternalTable (sh regs))]
          ++ (if negb (gfx9_supportSpp chipProps =? 0)
              then [SetOneShReg ShaderGraphics mmSPI_SHADER_PGM_CHKSUM_HS
                                (spiShaderPgmChksumHs (sh regs))]
              else [])
          ++ [SetOneShRegIndex mmSPI_SHADER_PGM_RSRC3_HS (spiShaderPgmRsrc3Hs dyn)
                               ShaderGraphics
                               index__pfp_set_sh_reg_index__apply_kmd_cu_and_mask]
          ++ (if IsGfx10Plus (gfxLevel chipProps)
              then [SetOneShRegIndex mmSPI_SHADER_PGM_RSRC4_HS (spiShaderPgmRsrc4Hs dyn)
                                     ShaderGraphics
                                     index__pfp_set_sh_reg_index__apply_kmd_cu_and_mask]
              else [])
          ++ (if negb (regOffset (m_pHsPerfDataInfo this) =? UserDataNotMapped)
              then [SetOneShReg ShaderGraphics (regOffset (m_pHsPerfDataInfo this))
                                (perfGpuVirtAddr (m_pHsPerfDataInfo this))]
              else []),
          this).
Proof.
  run_method.
  destruct (negb (gfx9_supportSpp (ChipProperties (m_device this)) =? 0));
    destruct (IsGfx10Plus (gfxLevel (ChipProperties (m_device this))));
    destruct (negb (regOffset (m_pHsPerfDataInfo this) =? UserDataNotMapped));
    cbn [app]; rewrite <- ?app_assoc; cbn [app]; rewrite ?app_nil_r; reflexivity.
Qed.

Lemma WriteContextCommands_run (pCmdSpace : CmdSpace) (this : PipelineChunkHs) :
  WriteContextCommands pCmdSpace this
  = Done (pCmdSpace
          ++ [SetSeqContextRegs mmVGT_HOS_MAX_TESS_LEVEL mmVGT_HOS_MIN_TESS_LEVEL
                [vgtHosMaxTessLevel (context (m_regs this));
                 vgtHosMinTessLevel (context (m_regs this))]],
          this).
Proof. reflexivity. Qed.

(** Any sequence of calls made in the ready state finishes and leaves the
    object as it was. *)
Lemma replay_frame (calls : list ReadyCall) :
  forall (pCmdSpace : CmdSpace) (this : PipelineChunkHs),
    exists appended, replay calls pCmdSpace this = Done (pCmdSpace ++ appended, this).
Proof.
  induction calls as [| call rest IH]; intros pCmdSpace this.
  - exists []. cbn. unfold ret. rewrite app_nil_r. reflexivity.
  - destruct call as [hsStageInfo |]; cbn [replay]; unfold bind at 1.
    + rewrite WriteShCommands_run. cbv zeta.
      match goal with |- context [replay rest (pCmdSpace ++ ?new) this] =>
        destruct (IH (pCmdSpace ++ new) this) as [more Hmore]; exists (new ++ more)
      end.
      rewrite Hmore, <- app_assoc. reflexivity.
    + rewrite WriteContextCommands_run.
      match goal with |- context [replay rest (pCmdSpace ++ ?new) this] =>
        destruct (IH (pCmdSpace ++ new) this) as [more Hmore]; exists (new ++ more)
      end.
      rewrite Hmore, <- app_assoc. reflexivity.
Qed.

(** The patched copy differs from the snapshot only inside the fields the
    overrides bear. *)
Lemma patch_dynamic_rsrc3_outside (device : Device) (hsStageInfo : DynamicStageInfo)
      (dyn : DynamicRegs) :
  same_outside [RSRC3_HS_WAVE_LIMIT; RSRC3_HS_CU_EN]
               (spiShaderPgmRsrc3Hs (patch_dynamic device hsStageInfo dyn))
               (spiShaderPgmRsrc3Hs dyn).
Proof.
  unfold patch_dynamic.
  destruct (0 <? wavesPerSh hsStageInfo);
    [| destruct (PAL_AMDGPU_BUILD
                 && (IsGfx9 (gfxLevel (ChipProperties device))
                     && (get RSRC3_HS_WAVE_LIMIT (spiShaderPgmRsrc3Hs dyn) =? 0)))];
    destruct (negb (cuEnableMask hsStageInfo =? 0)); cbn;
    repeat first
      [ apply same_outside_refl
      | apply set_same_outside; cbn; tauto
      | eapply same_outside_trans; [apply set_same_outside; cbn; tauto |] ].
Qed.

Lemma patch_dynamic_rsrc4_outside (device : Device) (hsStageInfo : DynamicStageInfo)
      (dyn : DynamicRegs) :
  same_outside [RSRC4_HS_CU_EN]
               (spiShaderPgmRsrc4Hs (patch_dynamic device hsStageInfo dyn))
               (spiShaderPgmRsrc4Hs dyn).
Proof.
  unfold patch_dynamic.
  destruct (0 <? wavesPerSh hsStageInfo);
    [| destruct (PAL_AMDGPU_BUILD
                 && (IsGfx9 (gfxLevel (ChipProperties device))
                     && (get RSRC3_HS_WAVE_LIMIT (spiShaderPgmRsrc3Hs dyn) =? 0)))];
    destruct (negb (cuEnableMask hsStageInfo =? 0)); cbn;
    first [ apply same_outside_refl | apply set_same_outside; cbn; tauto ].
Qed.

Lemma disjoint_sym (f g : BitField) : disjoint f g = disjoint g f.
Proof. unfold disjoint. apply Bool.orb_comm. Qed.

(** Masking a field's value keeps it within the field. *)
Lemma land_get_fits (f : BitField) (x mask : Z) :
  Z.land (get f x) mask mod 2 ^ Z.of_N (bf_width f) = Z.land (get f x) mask.
Proof.
  rewrite <- Z.land_ones by lia. unfold get.
  apply Z.bits_inj'. intros i Hi.
  rewrite !Z.land_spec.
  destruct (Z.testbit (Z.ones (Z.of_N (bf_width f))) i);
    rewrite ?Bool.andb_false_r, ?Bool.andb_true_r; reflexivity.
Qed.

(** The wave-limit field of the patched copy. *)
Lemma patch_dynamic_wave_limit (device : Device) (hsStageInfo : DynamicStageInfo)
      (dyn : DynamicRegs) :
  disjoint RSRC3_HS_WAVE_LIMIT RSRC3_HS_CU_EN = true ->
  get RSRC3_HS_WAVE_LIMIT (spiShaderPgmRsrc3Hs (patch_dynamic device hsStageInfo dyn))
  = if 0 <? wavesPerSh hsStageInfo then
      wavesPerSh hsStageInfo mod 2 ^ Z.of_N (bf_width RSRC3_HS_WAVE_LIMIT)
    else if PAL_AMDGPU_BUILD
            && (IsGfx9 (gfxLevel (ChipProperties device))
                && (get RSRC3_HS_WAVE_LIMIT (spiShaderPgmRsrc3Hs dyn) =? 0)) then
      GetMaxWavesPerSh device (ChipProperties device) false
      mod 2 ^ Z.of_N (bf_width RSRC3_HS_WAVE_LIMIT)
    else get RSRC3_HS_WAVE_LIMIT (spiShaderPgmRsrc3Hs dyn).
Proof.
  intros Hd. assert (Hd' := Hd). rewrite disjoint_sym in Hd'.
  unfold patch_dynamic.
  destruct (0 <? wavesPerSh hsStageInfo);
    [| destruct (PAL_AMDGPU_BUILD
                 && (IsGfx9 (gfxLevel (ChipProperties device))
                     && (get RSRC3_HS_WAVE_LIMIT (spiShaderPgmRsrc3Hs dyn) =? 0)))];
    destruct (negb (cuEnableMask hsStageInfo =? 0)); cbn;
    rewrite ?(get_set_disjoint _ _ _ _ Hd'), ?get_set_same; reflexivity.
Qed.

(** The compute-unit enable field of the patched copy. *)
Lemma patch_dynamic_cu_en (device : Device) (hsStageInfo : DynamicStageInfo)
      (dyn : DynamicRegs) :
  disjoint RSRC3_HS_WAVE_LIMIT RSRC3_HS_CU_EN = true ->
  get RSRC3_HS_CU_EN (spiShaderPgmRsrc3Hs (patch_dynamic device hsStageInfo dyn))
  = if cuEnableMask hsStageInfo =? 0
    then get RSRC3_HS_CU_EN (spiShaderPgmRsrc3Hs dyn)
    else Z.land (get RSRC3_HS_CU_EN (spiShaderPgmRsrc3Hs dyn)) (cuEnableMask hsStageInfo).
Proof.
  intros Hd.
  unfold patch_dynamic.
  destruct (0 <? wavesPerSh hsStageInfo);
    [| destruct (PAL_AMDGPU_BUILD
                 && (IsGfx9 (gfxLevel (ChipProperties device))
                     && (get RSRC3_HS_WAVE_LIMIT (spiShaderPgmRsrc3Hs dyn) =? 0)))];
    destruct (cuEnableMask hsStageInfo =? 0); cbn;
    rewrite ?get_set_same, ?land_get_fits, ?(get_set_disjoint _ _ _ _ Hd); reflexivity.
Qed.

(** The upper compute-unit enable field of the patched copy. *)
Lemma patch_dynamic_cu_en_hi (device : Device) (hsStageInfo : DynamicStageInfo)
      (dyn : DynamicRegs) :
  get RSRC4_HS_CU_EN (spiShaderPgmRsrc4Hs (patch_dynamic device hsStageInfo dyn))
  = if cuEnableMask hsStageInfo =? 0
    then get RSRC4_HS_CU_EN (spiShaderPgmRsrc4Hs dyn)
    else AdjustCuEnHi device (get RSRC4_HS_CU_EN (spiShaderPgmRsrc4Hs dyn))
                      (cuEnableMask hsStageInfo)
         mod 2 ^ Z.of_N (bf_width RSRC4_HS_CU_EN).
Proof.
  unfold patch_dynamic.
  destruct (0 <? wavesPerSh hsStageInfo);
    [| destruct (PAL_AMDGPU_BUILD
                 && (IsGfx9 (gfxLevel (ChipProperties device))
                     && (get RSRC3_HS_WAVE_LIMIT (spiShaderPgmRsrc3Hs dyn) =? 0)))];
    destruct (cuEnableMask hsStageInfo =? 0); cbn;
    rewrite ?get_set_same; reflexivity.
Qed.

(** The indexed writes to the two dynamic registers in what one call
    appends. *)
Lemma index_writes_dynamic (pCmdSpace : CmdSpace) (hsStageInfo : DynamicStageInfo)
      (this : PipelineChunkHs) :
  (mmSPI_SHADER_PGM_RSRC3_HS =? mmSPI_SHADER_PGM_RSRC4_HS) = false ->
  let dyn := patch_dynamic (m_device this) hsStageInfo (dynamic (m_regs this)) in
  exists appended,
    WriteShCommands pCmdSpace hsStageInfo this = Done (pCmdSpace ++ appended, this)
    /\ index_writes mmSPI_SHADER_PGM_RSRC3_HS appended = [spiShaderPgmRsrc3Hs dyn]
    /\ index_writes mmSPI_SHADER_PGM_RSRC4_HS appended
       = if IsGfx10Plus (gfxLevel (ChipProperties (m_device this)))
         then [spiShaderPgmRsrc4Hs dyn] else [].
Proof.
  intros Hne dyn. assert (Hne' := Hne). rewrite Z.eqb_sym in Hne'.
  eexists. split; [apply WriteShCommands_run |].
  destruct (negb (gfx9_supportSpp (ChipProperties (m_device this)) =? 0));
    destruct (IsGfx10Plus (gfxLevel (ChipProperties (m_device this))));
    destruct (negb (regOffset (m_pHsPerfDataInfo this) =? UserDataNotMapped));
    cbn; rewrite ?Z.eqb_refl, ?Hne, ?Hne'; split; reflexivity.
Qed.

(** C3: [WriteShCommands] never mutates the stored register snapshot.  Any
    sequence of command-writing calls on an instance finishes and leaves the
    instance exactly as it was, and two successive [WriteShCommands] calls
    with different overrides append packet lists that agree packet by
    packet, except that the packets setting the two override-bearing
    registers may carry different values, and those values agree on every
    bit outside the wave-limit and compute-unit-enable fields. *)
Theorem WriteShCommands_never_mutates_snapshot (this : PipelineChunkHs) :
  (forall (calls : list ReadyCall) (pCmdSpace : CmdSpace),
      exists appended,
        replay calls pCmdSpace this = Done (pCmdSpace ++ appended, this))
  /\ (forall (pCmdSpace : CmdSpace) (first second : DynamicStageInfo),
         exists out1 out2,
           WriteShCommands pCmdSpace first this = Done (pCmdSpace ++ out1, this)
           /\ WriteShCommands (pCmdSpace ++ out1) second this
              = Done ((pCmdSpace ++ out1) ++ out2, this)
           /\ Forall2 differ_only_in_overrides out1 out2).
Proof.
  split.
  - intros calls pCmdSpace. apply replay_frame.
  - intros pCmdSpace first second.
    do 2 eexists. split; [apply WriteShCommands_run |].
    split; [apply WriteShCommands_run |].
    cbv zeta.
    assert (H3 : same_outside [RSRC3_HS_WAVE_LIMIT; RSRC3_HS_CU_EN]
                   (spiShaderPgmRsrc3Hs
                      (patch_dynamic (m_device this) first (dynamic (m_regs this))))
                   (spiShaderPgmRsrc3Hs
                      (patch_dynamic (m_device this) second (dynamic (m_regs this))))).
    { eapply same_outside_trans; [apply patch_dynamic_rsrc3_outside |].
      apply same_outside_sym, patch_dynamic_rsrc3_outside. }
    assert (H4 : same_outside [RSRC4_HS_CU_EN]
                   (spiShaderPgmRsrc4Hs
                      (patch_dynamic (m_device this) first (dynamic (m_regs this))))
                   (spiShaderPgmRsrc4Hs
                      (patch_dynamic (m_device this) second (dynamic (m_regs this))))).
    { eapply same_outside_trans; [apply patch_dynamic_rsrc4_outside |].
      apply same_outside_sym, patch_dynamic_rsrc4_outside. }
    destruct (negb (gfx9_supportSpp (ChipProperties (m_device this)) =? 0));
      destruct (IsGfx10Plus (gfxLevel (ChipProperties (m_device this))));
      destruct (negb (regOffset (m_pHsPerfDataInfo this) =? UserDataNotMapped));
      cbn [app];
      repeat first
        [ apply Forall2_nil
        | apply Forall2_cons;
          [ first [ apply same_packet
                  | apply rsrc3_packets; exact H3
                  | apply rsrc4_packets; exact H4 ] | ] ].
Qed.

(** C6: [WriteShCommands] appends its register-set packets in one fixed
    order: the program-address register; the resource registers (the pair
    RSRC1/RSRC2 and the internal resource-table pointer); the checksum
    register when the device supports it; the dynamic registers (RSRC3,
    and RSRC4 from GFX10 on); the performance-data pointer when one is
    mapped. *)
Theorem WriteShCommands_fixed_order (pCmdSpace : CmdSpace)
        (hsStageInfo : DynamicStageInfo) (this : PipelineChunkHs) :
  let device := m_device this in
  let regs := m_regs this in
  let perf := m_pHsPerfDataInfo this in
  exists programAddress resources checksum dynamicRegs perfData rsrc3 rsrc4,
    WriteShCommands pCmdSpace hsStageInfo this
    = Done (pCmdSpace ++ programAddress ++ resources ++ checksum ++ dynamicRegs
                      ++ perfData, this)
    /\ programAddress
       = [SetOneShReg ShaderGraphics (mmSpiShaderPgmLoLs (GetRegInfo device))
                      (spiShaderPgmLoLs (sh regs))]
    /\ resources
       = [SetSeqShRegs mmSPI_SHADER_PGM_RSRC1_HS mmSPI_SHADER_PGM_RSRC2_HS
                       ShaderGraphics
                       [spiShaderPgmRsrc1Hs (sh regs); spiShaderPgmRsrc2Hs (sh regs)];
          SetOneShReg ShaderGraphics
                      (mmUserDataStartHsShaderStage (GetRegInfo device)
                       + ConstBufTblStartReg)
                      (userDataInternalTable (sh regs))]
    /\ checksum
       = (if gfx9_supportSpp (ChipProperties device) =? 0 then []
          else [SetOneShReg ShaderGraphics mmSPI_SHADER_PGM_CHKSUM_HS
                            (spiShaderPgmChksumHs (sh regs))])
    /\ dynamicRegs
       = SetOneShRegIndex mmSPI_SHADER_PGM_RSRC3_HS rsrc3 ShaderGraphics
                          index__pfp_set_sh_reg_index__apply_kmd_cu_and_mask
         :: (if IsGfx10Plus (gfxLevel (ChipProperties device))
             then [SetOneShRegIndex mmSPI_SHADER_PGM_RSRC4_HS rsrc4 ShaderGraphics
                                    index__pfp_set_sh_reg_index__apply_kmd_cu_and_mask]
             else [])
    /\ perfData
       = (if regOffset perf =? UserDataNotMapped then []
          else [SetOneShReg ShaderGraphics (regOffset perf) (perfGpuVirtAddr perf)]).
Proof.
  cbv zeta. do 7 eexists.
  split; [| repeat split; reflexivity].
  rewrite WriteShCommands_run. cbv zeta.
  destruct (gfx9_supportSpp (ChipProperties (m_device this)) =? 0);
    destruct (regOffset (m_pHsPerfDataInfo this) =? UserDataNotMapped);
    reflexivity.
Qed.

(** C1 (amended): in a build with [PAL_AMDGPU_BUILD], on GFX9, with no
    wave-limit override and a snapshot wave limit of 0, the value
    [WriteShCommands] emits for the third resource register has its
    wave-limit field equal to the device's maximum number of waves (which
    fits the field and is not 0); on every other generation, and on GFX9 in
    a build without [PAL_AMDGPU_BUILD], the 0 of the snapshot is emitted
    unchanged. *)
Theorem wave_limit_zero_compensated_in_amdgpu_build
        (pCmdSpace : CmdSpace) (hsStageInfo : DynamicStageInfo)
        (this : PipelineChunkHs) :
  let device := m_device this in
  let maxWaves := GetMaxWavesPerSh device (ChipProperties device) false in
  wavesPerSh hsStageInfo = 0 ->
  get RSRC3_HS_WAVE_LIMIT (spiShaderPgmRsrc3Hs (dynamic (m_regs this))) = 0 ->
  0 < maxWaves < 2 ^ Z.of_N (bf_width RSRC3_HS_WAVE_LIMIT) ->
  disjoint RSRC3_HS_WAVE_LIMIT RSRC3_HS_CU_EN = true ->
  (mmSPI_SHADER_PGM_RSRC3_HS =? mmSPI_SHADER_PGM_RSRC4_HS) = false ->
  exists appended emitted,
    WriteShCommands pCmdSpace hsStageInfo this = Done (pCmdSpace ++ appended, this)
    /\ index_writes mmSPI_SHADER_PGM_RSRC3_HS appended = [emitted]
    /\ if PAL_AMDGPU_BUILD && IsGfx9 (gfxLevel (ChipProperties device))
       then get RSRC3_HS_WAVE_LIMIT emitted = maxWaves
            /\ get RSRC3_HS_WAVE_LIMIT emitted <> 0
       else get RSRC3_HS_WAVE_LIMIT emitted = 0.
Proof.
  cbv zeta. intros Hwaves Hzero Hmax Hdisj Hne.
  destruct (index_writes_dynamic pCmdSpace hsStageInfo this Hne)
    as [appended [Hrun [Hidx Hidx4]]].
  exists appended. eexists. split; [exact Hrun |]. split; [exact Hidx |].
  rewrite (patch_dynamic_wave_limit _ _ _ Hdisj), Hwaves, Hzero.
  cbn [Z.ltb Z.compare Z.eqb].
  rewrite !Bool.andb_true_r.
  destruct (PAL_AMDGPU_BUILD && IsGfx9 (gfxLevel (ChipProperties (m_device this)))).
  - rewrite Z.mod_small by lia. split; [reflexivity | lia].
  - reflexivity.
Qed.

(** C10: a compute-unit enable mask of 0 leaves the snapshot's enable
    field unchanged in the emitted value; a non-zero mask is applied by
    bitwise AND with the snapshot's field, so the emitted field enables no
    compute unit that the snapshot has disabled.  (From GFX10 on the upper
    enable field, in the fourth resource register, is likewise unchanged
    for a mask of 0 and is otherwise what [AdjustCuEnHi] returns.) *)
Theorem cu_enable_mask_only_narrows
        (pCmdSpace : CmdSpace) (hsStageInfo : DynamicStageInfo)
        (this : PipelineChunkHs) :
  let device := m_device this in
  let snapshot := get RSRC3_HS_CU_EN (spiShaderPgmRsrc3Hs (dynamic (m_regs this))) in
  let snapshotHi := get RSRC4_HS_CU_EN (spiShaderPgmRsrc4Hs (dynamic (m_regs this))) in
  disjoint RSRC3_HS_WAVE_LIMIT RSRC3_HS_CU_EN = true ->
  (mmSPI_SHADER_PGM_RSRC3_HS =? mmSPI_SHADER_PGM_RSRC4_HS) = false ->
  exists appended emitted,
    WriteShCommands pCmdSpace hsStageInfo this = Done (pCmdSpace ++ appended, this)
    /\ index_writes mmSPI_SHADER_PGM_RSRC3_HS appended = [emitted]
    /\ get RSRC3_HS_CU_EN emitted
       = (if cuEnableMask hsStageInfo =? 0 then snapshot
          else Z.land snapshot (cuEnableMask hsStageInfo))
    /\ (forall unit, Z.testbit (get RSRC3_HS_CU_EN emitted) unit = true ->
                     Z.testbit snapshot unit = true)
    /\ (IsGfx10Plus (gfxLevel (ChipProperties device)) = true ->
        exists emittedHi,
          index_writes mmSPI_SHADER_PGM_RSRC4_HS appended = [emittedHi]
          /\ get RSRC4_HS_CU_EN emittedHi
             = (if cuEnableMask hsStageInfo =? 0 then snapshotHi
                else AdjustCuEnHi device snapshotHi (cuEnableMask hsStageInfo)
                     mod 2 ^ Z.of_N (bf_width RSRC4_HS_CU_EN))).
Proof.
  cbv zeta. intros Hdisj Hne.
  destruct (index_writes_dynamic pCmdSpace hsStageInfo this Hne)
    as [appended [Hrun [Hidx Hidx4]]].
  exists appended. eexists. split; [exact Hrun |]. split; [exact Hidx |].
  rewrite (patch_dynamic_cu_en _ _ _ Hdisj).
  split; [reflexivity |]. split.
  - intros unit. destruct (cuEnableMask hsStageInfo =? 0); [tauto |].
    rewrite Z.land_spec. intros H. apply Bool.andb_true_iff in H. tauto.
  - intros Hgfx10. rewrite Hgfx10 in Hidx4.
    eexists. split; [exact Hidx4 |]. apply patch_dynamic_cu_en_hi.
Qed.

End WriteCommandsFacts.

(** ** The hull-shader chunk: late initialisation *)

Section LateInitFacts.
Import Bits Util Gfx9.
Context {cfg : BuildConfig} {L : RegisterLayout}.

Ltac unfold_method :=
  cbv beta iota zeta
      delta [LateInit AssertUserAccumRegsDisabled PAL_ASSERT bind member ret
             assign when Update].

Ltac case_split :=
  repeat match goal with
         | |- context [match ?x with _ => _ end] =>
             lazymatch x with
             | context [match _ with _ => _ end] => fail
             | _ => destruct x eqn:?; cbn beta iota
             end
         end.

(** Every call either finishes, having fed the two tessellation-level
    registers of the lookup to the hasher and kept the device and the
    performance-data descriptor, or stops at an assertion, which only a
    build with assertions can do. *)
Lemma LateInit_outcome (abiReader : AbiReader) (registers : RegisterVector)
      (pUploader : PipelineUploader) (pHasher : MetroHash64)
      (this : PipelineChunkHs) :
  (exists this',
      LateInit abiReader registers pUploader pHasher this
      = Done (pHasher ++ [At registers mmVGT_HOS_MAX_TESS_LEVEL;
                          At registers mmVGT_HOS_MIN_TESS_LEVEL], this')
      /\ m_device this' = m_device this
      /\ m_pHsPerfDataInfo this' = m_pHsPerfDataInfo this)
  \/ (PAL_ENABLE_PRINTS_ASSERTS = true
      /\ exists which,
           LateInit abiReader registers pUploader pHasher this = AssertFailed which).
Proof.
  unfold_method.
  destruct PAL_ENABLE_PRINTS_ASSERTS eqn:Hasserts; cbn [andb];
    case_split;
    try (left; eexists; repeat split; reflexivity);
    right; split; try reflexivity; eexists; reflexivity.
Qed.

(** A build without assertions never stops in [LateInit]. *)
Lemma LateInit_completes_without_assertions
      (abiReader : AbiReader) (registers : RegisterVector)
      (pUploader : PipelineUploader) (pHasher : MetroHash64)
      (this : PipelineChunkHs) :
  PAL_ENABLE_PRINTS_ASSERTS = false ->
  exists pHasher' this',
    LateInit abiReader registers pUploader pHasher this = Done (pHasher', this').
Proof.
  intros Hoff.
  destruct (LateInit_outcome abiReader registers pUploader pHasher this)
    as [[this' [Hrun _]] | [Hon _]].
  - eauto.
  - congruence.
Qed.

(** C5: what [LateInit] feeds to the hash accumulator is a function of the
    register lookup alone.  For a given lookup there is one sequence of
    words such that every run, whatever its reader, symbol resolver, object
    state and prior accumulator contents, appends exactly that sequence to
    the accumulator; the only other outcome is a stop at an assertion, which
    needs a build with assertions. *)
Theorem LateInit_hash_contribution_deterministic (registers : RegisterVector) :
  exists fed,
    fed = [At registers mmVGT_HOS_MAX_TESS_LEVEL; At registers mmVGT_HOS_MIN_TESS_LEVEL]
    /\ forall (abiReader : AbiReader) (pUploader : PipelineUploader)
              (pHasher : MetroHash64) (this : PipelineChunkHs),
         (exists this',
             LateInit abiReader registers pUploader pHasher this
             = Done (pHasher ++ fed, this'))
         \/ (PAL_ENABLE_PRINTS_ASSERTS = true
             /\ exists which,
                  LateInit abiReader registers pUploader pHasher this
                  = AssertFailed which).
Proof.
  eexists. split; [reflexivity |].
  intros abiReader pUploader pHasher this.
  destruct (LateInit_outcome abiReader registers pUploader pHasher this)
    as [[this' [Hrun _]] | Hstop].
  - left. exists this'. exact Hrun.
  - right. exact Hstop.
Qed.

(** C2 (amended): when the entry-point symbol is found and its address is
    not aligned to 256 bytes, [LateInit] stops at the alignment assertion in
    a build with assertions; in a build without them it finishes, having
    recorded the symbol's size as the code length and, as the program
    address, the address shifted right by eight bits (truncated to the
    field), its low eight bits dropped. *)
Theorem LateInit_misaligned_entry_point
        (abiReader : AbiReader) (registers : RegisterVector)
        (pUploader : PipelineUploader) (pHasher : MetroHash64)
        (this : PipelineChunkHs) (symbol : GpuSymbol) :
  GetPipelineGpuSymbol pUploader Abi.HsMainEntry = Some symbol ->
  IsPow2Aligned (gpuVirtAddr symbol) 256 = false ->
  if PAL_ENABLE_PRINTS_ASSERTS
  then LateInit abiReader registers pUploader pHasher this
       = AssertFailed EntryPointIsPow2Aligned
  else exists pHasher' this',
      LateInit abiReader registers pUploader pHasher this = Done (pHasher', this')
      /\ codeLength (m_stageInfo this') = size symbol
      /\ get PGM_LO_LS_MEM_BASE (spiShaderPgmLoLs (sh (m_regs this')))
         = Get256BAddrLo (gpuVirtAddr symbol)
           mod 2 ^ Z.of_N (bf_width PGM_LO_LS_MEM_BASE).
Proof.
  intros Hfound Hmis.
  unfold_method. rewrite Hfound, Hmis.
  destruct PAL_ENABLE_PRINTS_ASSERTS; cbn [andb negb]; [reflexivity |].
  case_split; do 2 eexists; (split; [reflexivity |]); cbn;
    (split; [reflexivity | apply get_set_same]).
Qed.

(** C4: when the symbol resolver does not find the stage's main entry
    point, [LateInit] on a freshly constructed chunk cannot stop at either
    entry-point assertion.  It stops in one case only: in a build with
    assertions, on GFX10+, when the user-accumulator registers are not
    disabled, it stops at the user-accumulator diagnostic.  In every other
    case it finishes with the code length 0 and the program-address
    register 0, as the constructor left them. *)
Theorem LateInit_entry_point_not_found
        (device : Device) (pPerfDataInfo : PerfDataInfo)
        (abiReader : AbiReader) (registers : RegisterVector)
        (pUploader : PipelineUploader) (pHasher : MetroHash64) :
  GetPipelineGpuSymbol pUploader Abi.HsMainEntry = None ->
  let this := PipelineChunkHs_ctor device pPerfDataInfo in
  (forall which,
      LateInit abiReader registers pUploader pHasher this = AssertFailed which ->
      which = UserAccumRegsAreDisabled
      /\ user_accum_assert_fires device registers = true)
  /\ (user_accum_assert_fires device registers = false ->
      exists pHasher' this',
        LateInit abiReader registers pUploader pHasher this = Done (pHasher', this')
        /\ codeLength (m_stageInfo this') = 0
        /\ spiShaderPgmLoLs (sh (m_regs this')) = 0)
  /\ (user_accum_assert_fires device registers = true ->
      LateInit abiReader registers pUploader pHasher this
      = AssertFailed UserAccumRegsAreDisabled).
Proof.
  intros Hnone this. subst this.
  unfold user_accum_assert_fires.
  unfold_method. rewrite Hnone.
  cbn [m_device PipelineChunkHs_ctor with_stageInfo with_regs].
  destruct PAL_ENABLE_PRINTS_ASSERTS; cbn [andb];
    case_split; cbn [andb negb];
    cbn [m_device PipelineChunkHs_ctor with_stageInfo with_regs] in *;
    (split; [| split];
     [ intros which Hstop;
       first [discriminate Hstop | inversion Hstop; split; [reflexivity | assumption]]
     | intros Hfires;
       first [congruence | do 2 eexists; repeat split; reflexivity]
     | intros Hfires; first [reflexivity | congruence] ]).
Qed.

(** C8: the checksum register is read from the lookup during [LateInit]
    exactly when the device reports checksum support, and written by
    [WriteShCommands] under the same condition: with support the snapshot
    holds the lookup's value (its default when the lookup has no entry) and
    a packet setting the checksum register to it is appended; without
    support the snapshot field stays at its default and no appended packet
    writes the checksum register. *)
Theorem checksum_register_follows_support
        (device : Device) (pPerfDataInfo : PerfDataInfo)
        (abiReader : AbiReader) (registers : RegisterVector)
        (pUploader : PipelineUploader) (pHasher pHasher' : MetroHash64)
        (this' : PipelineChunkHs)
        (pCmdSpace : CmdSpace) (hsStageInfo : DynamicStageInfo) :
  LateInit abiReader registers pUploader pHasher
           (PipelineChunkHs_ctor device pPerfDataInfo) = Done (pHasher', this') ->
  chksum_unaliased this' = true ->
  let supported := negb (gfx9_supportSpp (ChipProperties device) =? 0) in
  let chksum := spiShaderPgmChksumHs (sh (m_regs this')) in
  chksum = (if supported
            then match HasEntry registers mmSPI_SHADER_PGM_CHKSUM_HS with
                 | Some value => value
                 | None => 0
                 end
            else 0)
  /\ exists appended,
       WriteShCommands pCmdSpace hsStageInfo this' = Done (pCmdSpace ++ appended, this')
       /\ if supported
          then In (SetOneShReg ShaderGraphics mmSPI_SHADER_PGM_CHKSUM_HS chksum) appended
          else never_writes mmSPI_SHADER_PGM_CHKSUM_HS appended = true.
Proof.
  intros Hinit Hdistinct supported chksum.
  assert (Hdev : m_device this' = device).
  { destruct (LateInit_outcome abiReader registers pUploader pHasher
                (PipelineChunkHs_ctor device pPerfDataInfo))
      as [[this'' [Hrun [Hd _]]] | [_ [which Hstop]]]; [| congruence].
    rewrite Hrun in Hinit. inversion Hinit; subst. exact Hd. }
  split.
  - subst supported chksum. revert Hinit. clear.
    unfold_method. cbn [m_device PipelineChunkHs_ctor with_stageInfo with_regs].
    case_split; intros Hinit; try discriminate Hinit;
      inversion Hinit; subst; reflexivity.
  - eexists. split; [apply WriteShCommands_run |].
    cbv zeta. rewrite Hdev. fold supported. fold chksum.
    unfold chksum_unaliased in Hdistinct. rewrite Hdev in Hdistinct.
    destruct supported.
    + cbn. tauto.
    + repeat (apply Bool.andb_true_iff in Hdistinct;
              destruct Hdistinct as [Hdistinct ?]).
      unfold never_writes.
      destruct (IsGfx10Plus (gfxLevel (ChipProperties device)));
        destruct (negb (regOffset (m_pHsPerfDataInfo this') =? UserDataNotMapped));
        cbn; repeat (apply Bool.andb_true_iff; split); auto.
Qed.

End LateInitFacts.

(** ** The metadata codec *)

Section CodecFacts.
Import Abi Abi.Metadata.
Context {cfg : BuildConfig} {schema : AbiSchema}.

Lemma lookup_app (key k : string) (v : MsgPack)
      (before after : list (string * MsgPack)) :
  lookup key (before ++ (k, v) :: after)
  = match lookup key before with
    | Some x => Some x
    | None => if String.eqb k key then Some v else lookup key after
    end.
Proof.
  unfold lookup. induction before as [| [k0 v0] rest IH]; cbn.
  - destruct (String.eqb k key); reflexivity.
  - destruct (String.eqb k0 key); [reflexivity | exact IH].
Qed.

Lemma lookup_app_plain (key : string) (before after : list (string * MsgPack)) :
  lookup key (before ++ after)
  = match lookup key before with
    | Some x => Some x
    | None => lookup key after
    end.
Proof.
  unfold lookup. induction before as [| [k0 v0] rest IH]; cbn.
  - reflexivity.
  - destruct (String.eqb k0 key); [reflexivity | exact IH].
Qed.

(** An entry under another key does not change what a key finds. *)
Lemma lookup_skip (key k : string) (v : MsgPack)
      (before after : list (string * MsgPack)) :
  String.eqb k key = false ->
  lookup key (before ++ (k, v) :: after) = lookup key (before ++ after).
Proof.
  intros Hne. rewrite lookup_app, lookup_app_plain, Hne. reflexivity.
Qed.

Lemma field_skip {A} (key k : string) (v : MsgPack) (dec : MsgPack -> Decoded A)
      (before after : list (string * MsgPack)) :
  String.eqb k key = false ->
  field key dec (before ++ (k, v) :: after) = field key dec (before ++ after).
Proof. intros Hne. unfold field. rewrite lookup_skip by exact Hne. reflexivity. Qed.

Lemma field_if_skip {A} (enabled : bool) (key k : string) (v : MsgPack)
      (dec : MsgPack -> Decoded A) (before after : list (string * MsgPack)) :
  (enabled = true -> String.eqb k key = false) ->
  field_if enabled key dec (before ++ (k, v) :: after)
  = field_if enabled key dec (before ++ after).
Proof.
  intros Hne. unfold field_if. destruct enabled; [| reflexivity].
  apply field_skip. auto.
Qed.

Lemma per_stage_skip {A} (key k : string) (v : MsgPack) (keys : list string)
      (zero : A) (dec : list (string * MsgPack) -> Decoded A)
      (before after : list (string * MsgPack)) :
  String.eqb k key = false ->
  per_stage key keys zero dec (before ++ (k, v) :: after)
  = per_stage key keys zero dec (before ++ after).
Proof. intros Hne. unfold per_stage. rewrite lookup_skip by exact Hne. reflexivity. Qed.

Lemma required_skip {A} (key k : string) (v : MsgPack) (dec : MsgPack -> Decoded A)
      (before after : list (string * MsgPack)) :
  String.eqb k key = false ->
  required key dec (before ++ (k, v) :: after) = required key dec (before ++ after).
Proof. intros Hne. unfold required. rewrite lookup_skip by exact Hne. reflexivity. Qed.

(** From "the key is not a known one" to one disequation per known key. *)
Ltac split_unknown H :=
  unfold is_known in H;
  repeat match type of H with
         | existsb _ (_ ++ _) = false =>
             rewrite existsb_app in H
         | (_ || _) = false =>
             let H1 := fresh "Hkey" in
             apply Bool.orb_false_iff in H; destruct H as [H1 H];
             try split_unknown H1
         | existsb _ (_ :: _) = false => cbn [existsb] in H
         end.

Ltac skip_fields :=
  repeat first
    [ rewrite field_skip by assumption
    | rewrite per_stage_skip by assumption
    | rewrite required_skip by assumption
    | rewrite field_if_skip by (intros Hon; first [discriminate Hon | assumption]) ].

(** Unknown keys of a shader record are skipped. *)
Lemma DeserializeShaderMetadata_skips_unknown (key : string) (value : MsgPack)
      (before after : list (string * MsgPack)) :
  is_known known_shader_keys key = false ->
  DeserializeShaderMetadata (before ++ (key, value) :: after)
  = DeserializeShaderMetadata (before ++ after).
Proof.
  intros Hunknown. unfold known_shader_keys in Hunknown. split_unknown Hunknown.
  unfold DeserializeShaderMetadata. skip_fields. reflexivity.
Qed.

(** Unknown keys of a hardware-stage record are skipped. *)
Lemma DeserializeHardwareStageMetadata_skips_unknown (key : string) (value : MsgPack)
      (before after : list (string * MsgPack)) :
  is_known known_hardware_stage_keys key = false ->
  DeserializeHardwareStageMetadata (before ++ (key, value) :: after)
  = DeserializeHardwareStageMetadata (before ++ after).
Proof.
  intros Hunknown. unfold known_hardware_stage_keys in Hunknown.
  unfold DeserializeHardwareStageMetadata.
  destruct before_619; split_unknown Hunknown; skip_fields; reflexivity.
Qed.

(** Unknown keys of a pipeline record are skipped. *)
Lemma DeserializePipelineMetadata_skips_unknown (key : string) (value : MsgPack)
      (before after : list (string * MsgPack)) :
  is_known known_pipeline_keys key = false ->
  DeserializePipelineMetadata (before ++ (key, value) :: after)
  = DeserializePipelineMetadata (before ++ after).
Proof.
  intros Hunknown. unfold known_pipeline_keys in Hunknown.
  unfold DeserializePipelineMetadata.
  destruct before_619; split_unknown Hunknown; skip_fields; reflexivity.
Qed.

(** *** No record decoder reports a version error *)

Lemma and_then_no_version_error {A B} (d : Decoded A) (k : A -> Decoded B) :
  d <> Err VersionUnsupported ->
  (forall a, k a <> Err VersionUnsupported) ->
  and_then d k <> Err VersionUnsupported.
Proof.
  intros Hd Hk. destruct d as [a | e]; cbn; [apply Hk |].
  intros Heq. apply Hd. congruence.
Qed.

Lemma for_each_no_version_error {A B} (f : A -> Decoded B) (l : list A) :
  (forall a, f a <> Err VersionUnsupported) ->
  for_each f l <> Err VersionUnsupported.
Proof.
  intros Hf. induction l as [| a rest IH]; cbn; [discriminate |].
  apply and_then_no_version_error; [apply Hf |].
  intros b. apply and_then_no_version_error; [exact IH | discriminate].
Qed.

Lemma as_uint_no_version_error v : as_uint v <> Err VersionUnsupported.
Proof. destruct v; discriminate. Qed.
Lemma as_bool_no_version_error v : as_bool v <> Err VersionUnsupported.
Proof. destruct v; discriminate. Qed.
Lemma as_str_no_version_error v : as_str v <> Err VersionUnsupported.
Proof. destruct v; discriminate. Qed.
Lemma as_bin_no_version_error v : as_bin v <> Err VersionUnsupported.
Proof. destruct v; discriminate. Qed.
Lemma as_map_no_version_error v : as_map v <> Err VersionUnsupported.
Proof. destruct v; discriminate. Qed.
Lemma as_map_offset_no_version_error v : as_map_offset v <> Err VersionUnsupported.
Proof. destruct v; discriminate. Qed.
Lemma as_array_no_version_error v : as_array v <> Err VersionUnsupported.
Proof. destruct v; discriminate. Qed.
Lemma as_enum_no_version_error {A} (parse : MsgPack -> option A) v :
  as_enum parse v <> Err VersionUnsupported.
Proof. unfold as_enum. destruct (parse v); discriminate. Qed.
Lemma as_uint_array_no_version_error count v :
  as_uint_array count v <> Err VersionUnsupported.
Proof.
  destruct v; try discriminate. cbn.
  destruct (Nat.eqb (List.length items) count); [| discriminate].
  apply for_each_no_version_error, as_uint_no_version_error.
Qed.
Lemma as_uint_pair_no_version_error v : as_uint_pair v <> Err VersionUnsupported.
Proof.
  destruct v as [| | | | | items |]; try discriminate.
  destruct items as [| a [| b [| c rest]]]; try discriminate. cbn.
  apply and_then_no_version_error; [apply as_uint_no_version_error |].
  intros x. apply and_then_no_version_error; [apply as_uint_no_version_error |].
  discriminate.
Qed.

Lemma field_no_version_error {A} key (dec : MsgPack -> Decoded A) entries :
  (forall v, dec v <> Err VersionUnsupported) ->
  field key dec entries <> Err VersionUnsupported.
Proof.
  intros Hdec. unfold field. destruct (lookup key entries); [| discriminate].
  apply and_then_no_version_error; [apply Hdec | discriminate].
Qed.

Lemma field_if_no_version_error {A} enabled key (dec : MsgPack -> Decoded A) entries :
  (forall v, dec v <> Err VersionUnsupported) ->
  field_if enabled key dec entries <> Err VersionUnsupported.
Proof.
  intros Hdec. unfold field_if. destruct enabled; [| discriminate].
  apply field_no_version_error, Hdec.
Qed.

Lemma per_stage_no_version_error {A} key keys (zero : A)
      (dec : list (string * MsgPack) -> Decoded A) entries :
  (forall fields, dec fields <> Err VersionUnsupported) ->
  per_stage key keys zero dec entries <> Err VersionUnsupported.
Proof.
  intros Hdec. unfold per_stage. destruct (lookup key entries); [| discriminate].
  apply and_then_no_version_error; [apply as_map_no_version_error |].
  intros stages. apply for_each_no_version_error. intros stageKey.
  destruct (lookup stageKey stages); [| discriminate].
  apply and_then_no_version_error; [apply as_map_no_version_error | exact Hdec].
Qed.

Create HintDb no_version_error.
#[local] Hint Resolve as_uint_no_version_error as_bool_no_version_error
  as_str_no_version_error as_bin_no_version_error as_map_no_version_error
  as_map_offset_no_version_error as_array_no_version_error
  as_enum_no_version_error as_uint_array_no_version_error
  as_uint_pair_no_version_error : no_version_error.

Ltac no_version_error :=
  repeat first
    [ discriminate
    | apply and_then_no_version_error; [| intros ?]
    | apply field_no_version_error; intros ?; auto with no_version_error
    | apply field_if_no_version_error; intros ?; auto with no_version_error
    | progress auto with no_version_error ].

Lemma DeserializeShaderMetadata_no_version_error fields :
  DeserializeShaderMetadata fields <> Err VersionUnsupported.
Proof. unfold DeserializeShaderMetadata. no_version_error. Qed.

Lemma DeserializeHardwareStageMetadata_no_version_error fields :
  DeserializeHardwareStageMetadata fields <> Err VersionUnsupported.
Proof. unfold DeserializeHardwareStageMetadata. no_version_error. Qed.

Lemma DeserializePipelineMetadata_no_version_error fields :
  DeserializePipelineMetadata fields <> Err VersionUnsupported.
Proof.
  unfold DeserializePipelineMetadata.
  repeat first
    [ apply per_stage_no_version_error;
      first [ apply DeserializeShaderMetadata_no_version_error
            | apply DeserializeHardwareStageMetadata_no_version_error ]
    | discriminate
    | apply and_then_no_version_error; [| intros ?]
    | apply field_no_version_error; intros ?; auto with no_version_error
    | apply field_if_no_version_error; intros ?; auto with no_version_error ].
Qed.

(** What [Decode] does once the root map's entries are at hand. *)
Lemma Decode_root (offset : MsgPackOffset) (entries : list (string * MsgPack)) :
  Decode (Items (MMap offset entries))
  = and_then (required PalCodeObjectMetadataKey.Version as_uint_pair entries)
      (fun version =>
         if PipelineMetadataMajorVersion <? fst version then Err VersionUnsupported
         else
           and_then (required PalCodeObjectMetadataKey.Pipelines as_array entries)
             (fun pipelines =>
                and_then
                  match pipelines with
                  | [] => DeserializePipelineMetadata []
                  | first :: _ =>
                      and_then (as_map first) DeserializePipelineMetadata
                  end
                  (fun pipeline =>
                     Ok {| PalCodeObjectMetadata.version := version;
                           PalCodeObjectMetadata.pipeline := pipeline;
                           PalCodeObjectMetadata.hasEntry :=
                             bit_of true PalCodeObjectMetadata.hasEntryBit.version |}))).
Proof. reflexivity. Qed.

(** *** Entries under unknown keys, at every level *)

(** A known key finds in the kept entries what it finds in all of them. *)
Lemma lookup_keep_known (keys : list string) (key : string)
      (entries : list (string * MsgPack)) :
  is_known keys key = true ->
  lookup key (keep_known keys entries) = lookup key entries.
Proof.
  intros Hknown. unfold lookup, keep_known.
  induction entries as [| [k v] rest IH]; cbn; [reflexivity |].
  destruct (is_known keys k) eqn:Hk; cbn.
  - destruct (String.eqb k key); [reflexivity | exact IH].
  - destruct (String.eqb k key) eqn:Heq; [| exact IH].
    apply String.eqb_eq in Heq. subst k. congruence.
Qed.

Lemma lookup_under (key k : string) (f : MsgPack -> MsgPack)
      (entries : list (string * MsgPack)) :
  lookup key (under k f entries)
  = if String.eqb k key then option_map f (lookup key entries)
    else lookup key entries.
Proof.
  unfold lookup, under.
  induction entries as [| [k0 v0] rest IH]; cbn.
  - destruct (String.eqb k key); reflexivity.
  - destruct (String.eqb k0 k) eqn:Hk; cbn; destruct (String.eqb k0 key) eqn:Hkey; cbn.
    + apply String.eqb_eq in Hk, Hkey. subst. rewrite String.eqb_refl. reflexivity.
    + exact IH.
    + apply String.eqb_eq in Hkey. subst k0.
      rewrite String.eqb_sym, Hk. reflexivity.
    + exact IH.
Qed.

Lemma lookup_map_values (key : string) (g : MsgPack -> MsgPack)
      (entries : list (string * MsgPack)) :
  lookup key (map (fun kv => (fst kv, g (snd kv))) entries)
  = option_map g (lookup key entries).
Proof.
  unfold lookup. induction entries as [| [k v] rest IH]; cbn; [reflexivity |].
  destruct (String.eqb k key); [reflexivity | exact IH].
Qed.

Lemma is_known_In (keys : list string) (key : string) :
  In key keys -> is_known keys key = true.
Proof.
  intros Hin. unfold is_known. apply existsb_exists.
  exists key. split; [exact Hin | apply String.eqb_refl].
Qed.

Lemma for_each_ext {A B} (f g : A -> Decoded B) (l : list A) :
  (forall a, In a l -> f a = g a) -> for_each f l = for_each g l.
Proof.
  induction l as [| a rest IH]; intros Hext; cbn; [reflexivity |].
  rewrite (Hext a (or_introl eq_refl)), IH; [reflexivity |].
  intros b Hin. apply Hext. right. exact Hin.
Qed.

Lemma field_keep_known {A} (keys : list string) (key : string)
      (dec : MsgPack -> Decoded A) (entries : list (string * MsgPack)) :
  is_known keys key = true ->
  field key dec (keep_known keys entries) = field key dec entries.
Proof. intros Hk. unfold field. rewrite lookup_keep_known by exact Hk. reflexivity. Qed.

Lemma field_if_keep_known {A} (enabled : bool) (keys : list string) (key : string)
      (dec : MsgPack -> Decoded A) (entries : list (string * MsgPack)) :
  (enabled = true -> is_known keys key = true) ->
  field_if enabled key dec (keep_known keys entries) = field_if enabled key dec entries.
Proof.
  intros Hk. unfold field_if. destruct enabled; [| reflexivity].
  apply field_keep_known. auto.
Qed.

(** A shader record is decoded from its known entries alone. *)
Lemma DeserializeShaderMetadata_keep_known (fields : list (string * MsgPack)) :
  DeserializeShaderMetadata (keep_known known_shader_keys fields)
  = DeserializeShaderMetadata fields.
Proof.
  unfold DeserializeShaderMetadata.
  rewrite !field_keep_known by reflexivity. reflexivity.
Qed.

(** A hardware-stage record is decoded from its known entries alone. *)
Lemma DeserializeHardwareStageMetadata_keep_known (fields : list (string * MsgPack)) :
  DeserializeHardwareStageMetadata (keep_known known_hardware_stage_keys fields)
  = DeserializeHardwareStageMetadata fields.
Proof.
  unfold DeserializeHardwareStageMetadata.
  rewrite !field_keep_known by reflexivity.
  rewrite field_if_keep_known; [reflexivity |].
  intros Hon. unfold known_hardware_stage_keys. rewrite Hon. reflexivity.
Qed.

(** The records of a map of stages are decoded from the known stages
    and, in each, from the known entries alone. *)
Lemma per_stage_known {A} (key : string) (keys recordKeys : list string) (zero : A)
      (dec : list (string * MsgPack) -> Decoded A)
      (entries entries' : list (string * MsgPack)) :
  (forall fields, dec (keep_known recordKeys fields) = dec fields) ->
  lookup key entries' = option_map (known_stages keys recordKeys) (lookup key entries) ->
  per_stage key keys zero dec entries' = per_stage key keys zero dec entries.
Proof.
  intros Hdec Hlookup. unfold per_stage. rewrite Hlookup.
  destruct (lookup key entries) as [v |]; [| reflexivity].
  destruct v as [| | | | | | offset stages]; try reflexivity.
  cbn [option_map known_stages as_map and_then].
  apply for_each_ext. intros stageKey Hin.
  rewrite lookup_map_values, lookup_keep_known by (apply is_known_In; exact Hin).
  destruct (lookup stageKey stages) as [s |]; [| reflexivity].
  destruct s; try reflexivity.
  cbn [option_map known_record as_map and_then]. apply Hdec.
Qed.

(** What a key finds in the pipeline map without its unknown entries. *)
Lemma lookup_known_pipeline (key : string) (fields : list (string * MsgPack)) :
  is_known known_pipeline_keys key = true ->
  lookup key
    (under PipelineMetadataKey.Shaders
       (known_stages ApiShaderTypeStrings known_shader_keys)
       (under PipelineMetadataKey.HardwareStages
          (known_stages HardwareStageStrings known_hardware_stage_keys)
          (keep_known known_pipeline_keys fields)))
  = if String.eqb PipelineMetadataKey.Shaders key
    then option_map (known_stages ApiShaderTypeStrings known_shader_keys)
                    (lookup key fields)
    else if String.eqb PipelineMetadataKey.HardwareStages key
         then option_map (known_stages HardwareStageStrings known_hardware_stage_keys)
                         (lookup key fields)
         else lookup key fields.
Proof.
  intros Hknown. rewrite !lookup_under, lookup_keep_known by exact Hknown.
  destruct (String.eqb PipelineMetadataKey.Shaders key) eqn:Hshaders; [| reflexivity].
  apply String.eqb_eq in Hshaders. subst key. reflexivity.
Qed.

Lemma field_known_pipeline {A} (key : string) (dec : MsgPack -> Decoded A)
      (fields : list (string * MsgPack)) :
  is_known known_pipeline_keys key = true ->
  String.eqb PipelineMetadataKey.Shaders key = false ->
  String.eqb PipelineMetadataKey.HardwareStages key = false ->
  field key dec
    (under PipelineMetadataKey.Shaders
       (known_stages ApiShaderTypeStrings known_shader_keys)
       (under PipelineMetadataKey.HardwareStages
          (known_stages HardwareStageStrings known_hardware_stage_keys)
          (keep_known known_pipeline_keys fields)))
  = field key dec fields.
Proof.
  intros Hknown Hshaders Hstages. unfold field.
  rewrite lookup_known_pipeline, Hshaders, Hstages by exact Hknown. reflexivity.
Qed.

Lemma field_if_known_pipeline {A} (enabled : bool) (key : string)
      (dec : MsgPack -> Decoded A) (fields : list (string * MsgPack)) :
  (enabled = true -> is_known known_pipeline_keys key = true) ->
  String.eqb PipelineMetadataKey.Shaders key = false ->
  String.eqb PipelineMetadataKey.HardwareStages key = false ->
  field_if enabled key dec
    (under PipelineMetadataKey.Shaders
       (known_stages ApiShaderTypeStrings known_shader_keys)
       (under PipelineMetadataKey.HardwareStages
          (known_stages HardwareStageStrings known_hardware_stage_keys)
          (keep_known known_pipeline_keys fields)))
  = field_if enabled key dec fields.
Proof.
  intros Hknown Hshaders Hstages. unfold field_if. destruct enabled; [| reflexivity].
  apply field_known_pipeline; auto.
Qed.

(** A pipeline record is decoded from the known entries alone, at its own
    level and in the records below it. *)
Lemma DeserializePipelineMetadata_known (first : MsgPack) :
  and_then (as_map (known_pipeline first)) DeserializePipelineMetadata
  = and_then (as_map first) DeserializePipelineMetadata.
Proof.
  destruct first as [| | | | | | offset fields]; try reflexivity.
  cbn [known_pipeline as_map and_then].
  unfold DeserializePipelineMetadata.
  rewrite !field_known_pipeline by reflexivity.
  rewrite !field_if_known_pipeline
    by first [ reflexivity
             | intros Hon; unfold known_pipeline_keys; rewrite Hon; reflexivity ].
  rewrite (per_stage_known PipelineMetadataKey.Shaders ApiShaderTypeStrings
             known_shader_keys ShaderMetadata.zero DeserializeShaderMetadata fields);
    [| exact DeserializeShaderMetadata_keep_known
     | apply lookup_known_pipeline; reflexivity ].
  rewrite (per_stage_known PipelineMetadataKey.HardwareStages HardwareStageStrings
             known_hardware_stage_keys HardwareStageMetadata.zero
             DeserializeHardwareStageMetadata fields);
    [| exact DeserializeHardwareStageMetadata_keep_known
     | apply lookup_known_pipeline; reflexivity ].
  reflexivity.
Qed.

(** Entries under unknown keys are skipped at every level: a blob and the
    blob without them decode to the same outcome. *)
Lemma Decode_without_unknown (blob : Blob) :
  Decode (without_unknown blob) = Decode blob.
Proof.
  destruct blob as [| root]; [reflexivity |].
  destruct root as [| | | | | | offset entries]; try reflexivity.
  cbn [without_unknown]. rewrite !Decode_root. unfold required.
  rewrite !lookup_under, !lookup_keep_known by reflexivity.
  cbn [String.eqb Ascii.eqb Bool.eqb PalCodeObjectMetadataKey.Pipelines
       PalCodeObjectMetadataKey.Version].
  destruct (lookup PalCodeObjectMetadataKey.Version entries) as [v |];
    [| reflexivity].
  destruct (as_uint_pair v) as [version | e]; [| reflexivity].
  cbn [and_then].
  destruct (PipelineMetadataMajorVersion <? fst version); [reflexivity |].
  destruct (lookup PalCodeObjectMetadataKey.Pipelines entries) as [pipelines |];
    [| reflexivity].
  destruct pipelines as [| | | | | items |]; try reflexivity.
  destruct items as [| first others]; [reflexivity |].
  cbn [option_map known_pipelines as_array and_then].
  rewrite DeserializePipelineMetadata_known. reflexivity.
Qed.

(** *** Blobs that differ in an entry under an unknown key *)

Lemma keep_known_skip (keys : list string) (key : string) (value : MsgPack)
      (before after : list (string * MsgPack)) :
  is_known keys key = false ->
  keep_known keys (before ++ (key, value) :: after) = keep_known keys (before ++ after).
Proof.
  intros Hunknown. unfold keep_known. rewrite !filter_app. cbn [filter fst].
  rewrite Hunknown. reflexivity.
Qed.

(** Two values under the same key of a map: what is kept of the map
    depends on what is kept of the value. *)
Lemma under_keep_known_entry (keys : list string) (k key : string)
      (f : MsgPack -> MsgPack) (v v' : MsgPack)
      (before after : list (string * MsgPack)) :
  (String.eqb key k = true -> f v = f v') ->
  (String.eqb key k = false -> is_known keys key = true -> v = v') ->
  under k f (keep_known keys (before ++ (key, v) :: after))
  = under k f (keep_known keys (before ++ (key, v') :: after)).
Proof.
  intros Hsame Hother. unfold under, keep_known.
  rewrite !filter_app, !map_app. cbn [filter fst].
  destruct (is_known keys key) eqn:Hknown; [| reflexivity].
  cbn [map fst snd]. destruct (String.eqb key k) eqn:Hkey.
  - rewrite (Hsame eq_refl). reflexivity.
  - rewrite (Hother eq_refl eq_refl). reflexivity.
Qed.

Lemma under_entry (k key : string) (f : MsgPack -> MsgPack) (v v' : MsgPack)
      (before after : list (string * MsgPack)) :
  (String.eqb key k = true -> f v = f v') ->
  (String.eqb key k = false -> v = v') ->
  under k f (before ++ (key, v) :: after) = under k f (before ++ (key, v') :: after).
Proof.
  intros Hsame Hother. unfold under. rewrite !map_app. cbn [map fst snd].
  destruct (String.eqb key k) eqn:Hkey.
  - rewrite (Hsame eq_refl). reflexivity.
  - rewrite (Hother eq_refl). reflexivity.
Qed.

(** The blobs of two first pipelines of which the same is kept. *)
Lemma without_unknown_pipelines_entry
      (offset : MsgPackOffset) (rootBefore rootAfter : list (string * MsgPack))
      (fieldsOffset : MsgPackOffset) (fields fields' : list (string * MsgPack))
      (others : list MsgPack) :
  known_pipeline (MMap fieldsOffset fields) = known_pipeline (MMap fieldsOffset fields') ->
  without_unknown
    (Items (MMap offset (rootBefore ++ pipelines_entry fieldsOffset fields others
                                    :: rootAfter)))
  = without_unknown
      (Items (MMap offset (rootBefore ++ pipelines_entry fieldsOffset fields' others
                                      :: rootAfter))).
Proof.
  intros Hsame. cbn [without_unknown]. unfold pipelines_entry.
  do 2 f_equal. apply under_keep_known_entry.
  - intros _. cbn [known_pipelines]. rewrite Hsame. reflexivity.
  - intros Hne. discriminate Hne.
Qed.

(** The pipeline maps of two maps of stages of which the same is kept. *)
Lemma known_pipeline_stages (level : StageLevel) (fieldsOffset : MsgPackOffset)
      (before after : list (string * MsgPack)) (v v' : MsgPack) :
  known_stages (known_stage_keys level) (known_record_keys level) v
  = known_stages (known_stage_keys level) (known_record_keys level) v' ->
  known_pipeline (MMap fieldsOffset (before ++ (stages_key level, v) :: after))
  = known_pipeline (MMap fieldsOffset (before ++ (stages_key level, v') :: after)).
Proof.
  intros Hsame. cbn [known_pipeline]. f_equal.
  unfold keep_known. rewrite !filter_app. cbn [filter fst].
  replace (is_known known_pipeline_keys (stages_key level)) with true
    by (destruct level; reflexivity).
  unfold under. rewrite !map_app. cbn [map fst snd].
  do 2 f_equal. destruct level; cbn in *; rewrite Hsame; reflexivity.
Qed.

(** A record with an entry under an unknown key, in a map of stages. *)
Lemma known_stages_record (keys recordKeys : list string)
      (offset : MsgPackOffset) (before after : list (string * MsgPack))
      (stageKey : string) (recordOffset : MsgPackOffset)
      (recordBefore recordAfter : list (string * MsgPack))
      (key : string) (value : MsgPack) :
  is_known recordKeys key = false ->
  known_stages keys recordKeys
    (MMap offset (before ++ (stageKey, MMap recordOffset
                                         (recordBefore ++ (key, value) :: recordAfter))
                         :: after))
  = known_stages keys recordKeys
      (MMap offset (before ++ (stageKey, MMap recordOffset (recordBefore ++ recordAfter))
                           :: after)).
Proof.
  intros Hunknown. cbn [known_stages]. f_equal.
  unfold keep_known at 1 2. rewrite !filter_app, !map_app. cbn [filter fst].
  destruct (is_known keys stageKey); [| reflexivity].
  cbn [map fst snd known_record].
  rewrite keep_known_skip by exact Hunknown. reflexivity.
Qed.

(** A stage under an unknown key, in a map of stages. *)
Lemma known_stages_stage (keys recordKeys : list string)
      (offset : MsgPackOffset) (before after : list (string * MsgPack))
      (stageKey : string) (value : MsgPack) :
  is_known keys stageKey = false ->
  known_stages keys recordKeys (MMap offset (before ++ (stageKey, value) :: after))
  = known_stages keys recordKeys (MMap offset (before ++ after)).
Proof.
  intros Hunknown. cbn [known_stages].
  rewrite keep_known_skip by exact Hunknown. reflexivity.
Qed.

(** Two blobs of which the same is kept decode to the same outcome. *)
Lemma Decode_same_known (blob blob' : Blob) :
  without_unknown blob = without_unknown blob' -> Decode blob = Decode blob'.
Proof.
  intros Hsame.
  rewrite <- (Decode_without_unknown blob), <- (Decode_without_unknown blob'), Hsame.
  reflexivity.
Qed.

(** C7: [Decode] rejects a blob with [VersionUnsupported] exactly when the
    blob declares a major version greater than the supported one.  For a
    blob whose major version is supported, the minor version has no
    influence on the outcome beyond the minor version reported.  Entries
    under keys the decoder does not know are skipped at every level it
    reads: a blob decodes to the same outcome as the blob without them, so
    an unknown entry changes nothing, be it in the root map, in the
    pipeline map, in the record of an API shader or of a hardware stage, or
    a whole stage under an unknown name. *)
Theorem Decode_version_gate :
  (forall blob,
      Decode blob = Err VersionUnsupported
      <-> exists major minor,
            blob_version blob = Some (major, minor)
            /\ PipelineMetadataMajorVersion < major)
  /\ (forall offset before after major minor minor',
         lookup PalCodeObjectMetadataKey.Version before = None ->
         major <= PipelineMetadataMajorVersion ->
         Decode (Items (MMap offset (before ++ version_entry major minor :: after)))
         <> Err VersionUnsupported
         /\ same_but_minor
              (Decode (Items (MMap offset (before ++ version_entry major minor :: after))))
              (Decode (Items (MMap offset (before ++ version_entry major minor' :: after)))))
  /\ (forall offset before after key value,
         is_known known_root_keys key = false ->
         Decode (Items (MMap offset (before ++ (key, value) :: after)))
         = Decode (Items (MMap offset (before ++ after))))
  /\ (forall offset rootBefore rootAfter fieldsOffset before after others key value,
         is_known known_pipeline_keys key = false ->
         Decode (Items (MMap offset
                   (rootBefore
                    ++ pipelines_entry fieldsOffset (before ++ (key, value) :: after) others
                    :: rootAfter)))
         = Decode (Items (MMap offset
                     (rootBefore
                      ++ pipelines_entry fieldsOffset (before ++ after) others
                      :: rootAfter))))
  /\ (forall level offset rootBefore rootAfter fieldsOffset before after others
             stagesOffset stagesBefore stagesAfter stageKey recordOffset
             recordBefore recordAfter key value,
         is_known (known_record_keys level) key = false ->
         Decode (Items (MMap offset
                   (rootBefore
                    ++ pipelines_entry fieldsOffset
                         (before
                          ++ stages_entry (stages_key level) stagesOffset stagesBefore
                               stageKey recordOffset
                               (recordBefore ++ (key, value) :: recordAfter) stagesAfter
                          :: after) others
                    :: rootAfter)))
         = Decode (Items (MMap offset
                     (rootBefore
                      ++ pipelines_entry fieldsOffset
                           (before
                            ++ stages_entry (stages_key level) stagesOffset stagesBefore
                                 stageKey recordOffset
                                 (recordBefore ++ recordAfter) stagesAfter
                            :: after) others
                      :: rootAfter))))
  /\ (forall level offset rootBefore rootAfter fieldsOffset before after others
             stagesOffset stagesBefore stagesAfter stageKey value,
         is_known (known_stage_keys level) stageKey = false ->
         Decode (Items (MMap offset
                   (rootBefore
                    ++ pipelines_entry fieldsOffset
                         (before
                          ++ (stages_key level,
                              MMap stagesOffset
                                   (stagesBefore ++ (stageKey, value) :: stagesAfter))
                          :: after) others
                    :: rootAfter)))
         = Decode (Items (MMap offset
                     (rootBefore
                      ++ pipelines_entry fieldsOffset
                           (before
                            ++ (stages_key level, MMap stagesOffset
                                                       (stagesBefore ++ stagesAfter))
                            :: after) others
                      :: rootAfter))))
  /\ (forall blob, Decode (without_unknown blob) = Decode blob)
  /\ (forall blob blob',
         without_unknown blob = without_unknown blob' -> Decode blob = Decode blob').
Proof.
  assert (Hrest : forall version entries,
             and_then (required PalCodeObjectMetadataKey.Pipelines as_array entries)
               (fun pipelines =>
                  and_then
                    match pipelines with
                    | [] => DeserializePipelineMetadata []
                    | first :: _ => and_then (as_map first) DeserializePipelineMetadata
                    end
                    (fun pipeline =>
                       Ok {| PalCodeObjectMetadata.version := version;
                             PalCodeObjectMetadata.pipeline := pipeline;
                             PalCodeObjectMetadata.hasEntry :=
                               bit_of true PalCodeObjectMetadata.hasEntryBit.version |}))
             <> Err VersionUnsupported).
  { intros version entries.
    apply and_then_no_version_error.
    - unfold required. destruct (lookup _ entries); [| discriminate].
      apply as_array_no_version_error.
    - intros pipelines. apply and_then_no_version_error; [| discriminate].
      destruct pipelines as [| first rest].
      + apply DeserializePipelineMetadata_no_version_error.
      + apply and_then_no_version_error; [apply as_map_no_version_error |].
        apply DeserializePipelineMetadata_no_version_error. }
  split; [| split; [| split; [| split; [| split; [| split; [| split]]]]]].
  - (* the version check *)
    intros blob. split.
    + destruct blob as [| root]; [discriminate |].
      destruct root as [| | | | | | offset entries]; try discriminate.
      rewrite Decode_root. unfold required, blob_version.
      destruct (lookup PalCodeObjectMetadataKey.Version entries) as [v |];
        [| discriminate].
      pose proof (as_uint_pair_no_version_error v) as Hpair.
      destruct (as_uint_pair v) as [[major minor] | e]; cbn [and_then fst].
      * destruct (Z.ltb_spec PipelineMetadataMajorVersion major) as [Hlt | Hge].
        -- intros _. exists major, minor. split; [reflexivity | exact Hlt].
        -- intros Hbad. exfalso. exact (Hrest _ _ Hbad).
      * intros Hbad. exfalso. apply Hpair. congruence.
    + intros [major [minor [Hversion Hlt]]].
      destruct blob as [| root]; [discriminate |].
      destruct root as [| | | | | | offset entries]; try discriminate.
      rewrite Decode_root. unfold required. unfold blob_version in Hversion.
      destruct (lookup PalCodeObjectMetadataKey.Version entries) as [v |];
        [| discriminate].
      destruct (as_uint_pair v) as [[major' minor'] | e]; [| discriminate].
      inversion Hversion; subst. cbn [and_then fst].
      apply Z.ltb_lt in Hlt. rewrite Hlt. reflexivity.
  - (* the minor version *)
    intros offset before after major minor minor' Hfirst Hle.
    rewrite !Decode_root. unfold required, version_entry.
    rewrite !(lookup_skip PalCodeObjectMetadataKey.Pipelines) by reflexivity.
    rewrite !lookup_app, Hfirst, String.eqb_refl.
    cbn [as_uint_pair as_uint and_then fst].
    apply Z.ltb_ge in Hle. rewrite Hle.
    split; [apply Hrest |].
    destruct (lookup PalCodeObjectMetadataKey.Pipelines (before ++ after)) as [v |];
      [| reflexivity].
    destruct (as_array v) as [pipelines | e]; [| reflexivity].
    cbn [and_then].
    destruct (match pipelines with
              | [] => DeserializePipelineMetadata []
              | first :: _ => and_then (as_map first) DeserializePipelineMetadata
              end) as [pipeline | e]; cbn; auto.
  - (* an unknown key in the root map *)
    intros offset before after key value Hunknown.
    unfold known_root_keys in Hunknown. split_unknown Hunknown.
    rewrite !Decode_root. skip_fields. reflexivity.
  - (* an unknown key in the pipeline map *)
    intros offset rootBefore rootAfter fieldsOffset before after others key value
           Hunknown.
    rewrite !Decode_root. unfold pipelines_entry.
    rewrite !(required_skip PalCodeObjectMetadataKey.Version) by reflexivity.
    destruct (required PalCodeObjectMetadataKey.Version as_uint_pair
                (rootBefore ++ rootAfter)) as [version | e]; [| reflexivity].
    cbn [and_then].
    destruct (PipelineMetadataMajorVersion <? fst version); [reflexivity |].
    unfold required. rewrite !lookup_app.
    destruct (lookup PalCodeObjectMetadataKey.Pipelines rootBefore); [reflexivity |].
    rewrite String.eqb_refl. cbn [as_array as_map and_then].
    rewrite DeserializePipelineMetadata_skips_unknown by exact Hunknown.
    reflexivity.
  - (* an unknown key in the record of a stage *)
    intros level offset rootBefore rootAfter fieldsOffset before after others
           stagesOffset stagesBefore stagesAfter stageKey recordOffset
           recordBefore recordAfter key value Hunknown.
    unfold stages_entry.
    apply Decode_same_known, without_unknown_pipelines_entry, known_pipeline_stages,
      known_stages_record, Hunknown.
  - (* a stage under an unknown name *)
    intros level offset rootBefore rootAfter fieldsOffset before after others
           stagesOffset stagesBefore stagesAfter stageKey value Hunknown.
    apply Decode_same_known, without_unknown_pipelines_entry, known_pipeline_stages,
      known_stages_stage, Hunknown.
  - exact Decode_without_unknown.
  - exact Decode_same_known.
Qed.

End CodecFacts.

(** ** The legacy deserialize overload *)

Section LegacyOverloadFacts.
Import Abi Abi.Metadata.
Variable MsgPackReader : Type.
Variable plainOverload :
  MsgPackReader -> PalCodeObjectMetadata.t ->
  Result * MsgPackReader * PalCodeObjectMetadata.t.

(** C9: the overload with a registers-offset out-parameter returns what the
    plain overload returns on the same inputs.  On [Success] with a non-null
    out-pointer, the word pointed to becomes the pipeline's registers offset
    when the registers presence bit is set and 0xffffffff when it is clear;
    on any other result, and for a null pointer, nothing is written. *)
Theorem legacy_overload_registers_offset
        (pReader : MsgPackReader) (pMetadata : PalCodeObjectMetadata.t)
        (pRegistersOffset : option Z)
        (result : Result) (pReader' : MsgPackReader)
        (pMetadata' : PalCodeObjectMetadata.t) :
  plainOverload pReader pMetadata = (result, pReader', pMetadata') ->
  exists out,
    DeserializePalCodeObjectMetadata_RegistersOffset
      MsgPackReader plainOverload pReader pMetadata pRegistersOffset
    = (result, pReader', pMetadata', out)
    /\ (forall old,
           result = Success -> pRegistersOffset = Some old ->
           out = Some (if bit_is_set
                            (PipelineMetadata.hasEntry
                               (PalCodeObjectMetadata.pipeline pMetadata'))
                            PipelineMetadata.hasEntryBit.registers
                       then PipelineMetadata.registers
                              (PalCodeObjectMetadata.pipeline pMetadata')
                       else 0xffffffff))
    /\ (result <> Success -> out = pRegistersOffset)
    /\ (pRegistersOffset = None -> out = None).
Proof.
  intros Hplain.
  unfold DeserializePalCodeObjectMetadata_RegistersOffset. rewrite Hplain.
  eexists. split; [reflexivity |].
  split; [| split].
  - intros old Hok Hptr. subst. reflexivity.
  - intros Hfail. destruct result; [congruence | reflexivity].
  - intros Hnull. subst. rewrite Bool.andb_false_r. reflexivity.
Qed.

End LegacyOverloadFacts.

(** ** Concrete runs *)

Section ConcreteRuns.
Import Bits Util Gfx9 Abi Abi.Metadata Samples.

(** On GFX9, in a build without [PAL_AMDGPU_BUILD], a snapshot wave limit
    of 0 with no override is emitted as 0, although the device's maximum
    is 40. *)
Lemma wave_limit_zero_emitted_without_amdgpu_build :
  IsGfx9 (gfxLevel (ChipProperties (m_device vega_ready))) = true
  /\ wavesPerSh no_override = 0
  /\ spiShaderPgmRsrc3Hs (dynamic (m_regs vega_ready)) = 0xffff0380
  /\ get (RSRC3_HS_WAVE_LIMIT (RegisterLayout := layout)) 0xffff0380 = 0
  /\ GetMaxWavesPerSh vega (ChipProperties vega) false = 40
  /\ WriteShCommands (cfg := release_other) (L := layout) [] no_override vega_ready
     = Done ([SetOneShReg ShaderGraphics 0x2d48 0x123456;
              SetSeqShRegs 0x2d0a 0x2d0b ShaderGraphics [0x002c0041; 0x94];
              SetOneShReg ShaderGraphics 0x2d0d 0x800040;
              SetOneShRegIndex 0x2d07 0xffff0380 ShaderGraphics
                               index__pfp_set_sh_reg_index__apply_kmd_cu_and_mask;
              SetOneShReg ShaderGraphics 0x2d1b 0xa00000],
             vega_ready).
Proof. repeat split; vm_compute; reflexivity. Qed.

Lemma wave_limit_compensation_witness :
  (get (RSRC3_HS_WAVE_LIMIT (RegisterLayout := layout))
       (spiShaderPgmRsrc3Hs (dynamic (m_regs vega_ready))) = 0
   /\ exists appended emitted,
        WriteShCommands (cfg := release_amdgpu) (L := layout) [] no_override vega_ready
        = Done ([] ++ appended, vega_ready)
        /\ index_writes 0x2d07 appended = [emitted]
        /\ get (RSRC3_HS_WAVE_LIMIT (RegisterLayout := layout)) emitted = 40
        /\ get (RSRC3_HS_WAVE_LIMIT (RegisterLayout := layout)) emitted <> 0)
  /\ (exists appended emitted,
        WriteShCommands (cfg := release_amdgpu) (L := layout) [] no_override navi_ready
        = Done ([] ++ appended, navi_ready)
        /\ index_writes 0x2d07 appended = [emitted]
        /\ get (RSRC3_HS_WAVE_LIMIT (RegisterLayout := layout)) emitted = 0).
Proof.
  split; [split; [reflexivity |] |].
  - exact (@wave_limit_zero_compensated_in_amdgpu_build release_amdgpu layout
             [] no_override vega_ready
             eq_refl eq_refl (conj eq_refl eq_refl) eq_refl eq_refl).
  - exact (@wave_limit_zero_compensated_in_amdgpu_build release_amdgpu layout
             [] no_override navi_ready
             eq_refl eq_refl (conj eq_refl eq_refl) eq_refl eq_refl).
Defined.

(** In a build without assertions, an entry point at 0x12345680 (not a
    multiple of 256) is accepted: [LateInit] finishes and records the code
    length and the program address 0x123456. *)
Lemma misaligned_entry_point_recorded_without_assertions :
  GetPipelineGpuSymbol uploader_misaligned Abi.HsMainEntry
  = Some {| gpuVirtAddr := 0x12345680; size := 0x140 |}
  /\ IsPow2Aligned 0x12345680 256 = false
  /\ match LateInit (cfg := release_amdgpu) (L := layout) abiReader registers
                    uploader_misaligned []
                    (PipelineChunkHs_ctor vega perf_data) with
     | Done (_, this') =>
         spiShaderPgmLoLs (sh (m_regs this')) = 0x123456
         /\ codeLength (m_stageInfo this') = 0x140
     | AssertFailed _ => False
     end.
Proof. repeat split; vm_compute; reflexivity. Qed.

Lemma LateInit_misaligned_witness :
  IsPow2Aligned 0x12345680 256 = false
  /\ LateInit (cfg := debug_amdgpu) (L := layout) abiReader registers
              uploader_misaligned [] (PipelineChunkHs_ctor vega perf_data)
     = AssertFailed EntryPointIsPow2Aligned
  /\ exists pHasher' this',
       LateInit (cfg := release_amdgpu) (L := layout) abiReader registers
                uploader_misaligned [] (PipelineChunkHs_ctor vega perf_data)
       = Done (pHasher', this')
       /\ codeLength (m_stageInfo this') = 0x140
       /\ get (PGM_LO_LS_MEM_BASE (RegisterLayout := layout))
              (spiShaderPgmLoLs (sh (m_regs this'))) = 0x123456.
Proof.
  split; [reflexivity | split].
  - exact (@LateInit_misaligned_entry_point debug_amdgpu layout abiReader registers
             uploader_misaligned [] (PipelineChunkHs_ctor vega perf_data)
             {| gpuVirtAddr := 0x12345680; size := 0x140 |} eq_refl eq_refl).
  - exact (@LateInit_misaligned_entry_point release_amdgpu layout abiReader registers
             uploader_misaligned [] (PipelineChunkHs_ctor vega perf_data)
             {| gpuVirtAddr := 0x12345680; size := 0x140 |} eq_refl eq_refl).
Defined.

(** In a build with assertions, on a GFX10 device, with the first
    user-accumulator register set to 1 in the pipeline binary and no entry
    point among the symbols, [LateInit] does not finish: it stops at the
    user-accumulator diagnostic. *)
Lemma entry_point_not_found_stops_at_user_accum_assertion :
  GetPipelineGpuSymbol uploader_empty Abi.HsMainEntry = None
  /\ IsGfx10Plus (gfxLevel (ChipProperties navi)) = true
  /\ HasEntry registers_user_accum 0x2d52 = Some 1
  /\ LateInit (cfg := debug_amdgpu) (L := layout) abiReader registers_user_accum
              uploader_empty [] (PipelineChunkHs_ctor navi perf_data)
     = AssertFailed UserAccumRegsAreDisabled.
Proof. repeat split; vm_compute; reflexivity. Qed.

Lemma LateInit_entry_point_not_found_witness :
  GetPipelineGpuSymbol uploader_empty Abi.HsMainEntry = None
  /\ (exists pHasher' this',
         LateInit (cfg := debug_amdgpu) (L := layout) abiReader registers
                  uploader_empty [] (PipelineChunkHs_ctor navi perf_data)
         = Done (pHasher', this')
         /\ codeLength (m_stageInfo this') = 0
         /\ spiShaderPgmLoLs (sh (m_regs this')) = 0)
  /\ LateInit (cfg := debug_amdgpu) (L := layout) abiReader registers_user_accum
              uploader_empty [] (PipelineChunkHs_ctor navi perf_data)
     = AssertFailed UserAccumRegsAreDisabled.
Proof.
  split; [reflexivity | split].
  - exact (proj1 (proj2 (@LateInit_entry_point_not_found debug_amdgpu layout navi
                           perf_data abiReader registers uploader_empty [] eq_refl))
                 eq_refl).
  - exact (proj2 (proj2 (@LateInit_entry_point_not_found debug_amdgpu layout navi
                           perf_data abiReader registers_user_accum uploader_empty []
                           eq_refl))
                 eq_refl).
Defined.

Lemma checksum_register_witness :
  (spiShaderPgmChksumHs (sh (m_regs raven2_ready)) = 0xcafe1234
   /\ exists appended,
        WriteShCommands (cfg := release_amdgpu) (L := layout) [] no_override raven2_ready
        = Done ([] ++ appended, raven2_ready)
        /\ In (SetOneShReg ShaderGraphics 0x2d06 0xcafe1234) appended)
  /\ (spiShaderPgmChksumHs (sh (m_regs vega_ready)) = 0
      /\ exists appended,
           WriteShCommands (cfg := release_amdgpu) (L := layout) [] no_override vega_ready
           = Done ([] ++ appended, vega_ready)
           /\ never_writes 0x2d06 appended = true).
Proof.
  split.
  - exact (@checksum_register_follows_support release_amdgpu layout raven2 perf_data
             abiReader registers uploader_aligned []
             [0x42800000; 0x3f800000] raven2_ready [] no_override eq_refl eq_refl).
  - exact (@checksum_register_follows_support release_amdgpu layout vega perf_data
             abiReader registers uploader_aligned []
             [0x42800000; 0x3f800000] vega_ready [] no_override eq_refl eq_refl).
Defined.

Lemma cu_enable_mask_witness :
  get (RSRC3_HS_CU_EN (RegisterLayout := layout))
      (spiShaderPgmRsrc3Hs (dynamic (m_regs navi_ready))) = 0xffff
  /\ exists appended emitted,
       WriteShCommands (cfg := release_amdgpu) (L := layout) []
                       {| wavesPerSh := 5; cuEnableMask := 0x30003 |} navi_ready
       = Done ([] ++ appended, navi_ready)
       /\ index_writes 0x2d07 appended = [emitted]
       /\ get (RSRC3_HS_CU_EN (RegisterLayout := layout)) emitted = 3
       /\ (forall unit,
              Z.testbit (get (RSRC3_HS_CU_EN (RegisterLayout := layout)) emitted) unit
              = true ->
              Z.testbit 0xffff unit = true)
       /\ (true = true ->
           exists emittedHi,
             index_writes 0x2d05 appended = [emittedHi]
             /\ get (RSRC4_HS_CU_EN (RegisterLayout := layout)) emittedHi = 3).
Proof.
  split; [reflexivity |].
  exact (@cu_enable_mask_only_narrows release_amdgpu layout []
           {| wavesPerSh := 5; cuEnableMask := 0x30003 |} navi_ready eq_refl eq_refl).
Defined.

Lemma Decode_version_gate_witness :
  Decode (cfg := release_amdgpu) (schema := schema) future_blob = Err VersionUnsupported
  /\ same_but_minor
       (Decode (cfg := release_amdgpu) (schema := schema) (blob_with 2 6 tess_fields))
       (Decode (cfg := release_amdgpu) (schema := schema) (blob_with 2 9 tess_fields))
  /\ Decode (cfg := release_amdgpu) (schema := schema)
            (blob_with 2 6 (tess_fields ++ [(".future_field"%string, MUInt 1)]))
     = Decode (cfg := release_amdgpu) (schema := schema) tess_blob
  /\ Decode (cfg := release_amdgpu) (schema := schema)
            (blob_with 2 6 tess_fields_stage_future)
     = Decode (cfg := release_amdgpu) (schema := schema) tess_blob
  /\ Decode (cfg := release_amdgpu) (schema := schema)
            (blob_with 2 6 tess_fields_future)
     = Decode (cfg := release_amdgpu) (schema := schema) tess_blob.
Proof.
  pose proof (@Decode_version_gate release_amdgpu schema)
    as [Hgate [Hminor [_ [Hfield [Hrecord [_ [_ Hsame]]]]]]].
  split; [| split; [| split; [| split]]].
  - apply Hgate. exists 3, 0. split; [reflexivity | reflexivity].
  - apply (Hminor 0 [] [pipelines_entry 40 tess_fields []] 2 6 9 eq_refl).
    discriminate.
  - exact (Hfield 0 [version_entry 2 6] [] 40 tess_fields [] []
                  ".future_field"%string (MUInt 1) eq_refl).
  - exact (Hrecord OfHardwareStages 0 [version_entry 2 6] [] 40
                   [(".name", MStr "tess"); (".type", MStr "Tess");
                    (".registers", MMap 512 [])]%string
                   [(".user_data_limit", MUInt 12)]%string [] 100 [] []
                   ".hs"%string 120
                   [(".entry_point", MStr "_amdgpu_hs_main")]%string
                   [(".vgpr_count", MUInt 24)]%string
                   ".future_counter"%string (MUInt 9) eq_refl).
  - exact (Hsame (blob_with 2 6 tess_fields_future) tess_blob eq_refl).
Defined.

Lemma legacy_overload_witness :
  snd (DeserializePalCodeObjectMetadata_RegistersOffset
         Blob (DeserializePalCodeObjectMetadata (cfg := release_amdgpu) (schema := schema))
         tess_blob zero_metadata (Some 7)) = Some 512
  /\ snd (DeserializePalCodeObjectMetadata_RegistersOffset
            Blob (DeserializePalCodeObjectMetadata (cfg := release_amdgpu) (schema := schema))
            no_registers_blob zero_metadata (Some 7)) = Some 0xffffffff
  /\ DeserializePalCodeObjectMetadata_RegistersOffset
       Blob (DeserializePalCodeObjectMetadata (cfg := release_amdgpu) (schema := schema))
       future_blob zero_metadata (Some 7)
     = (Error VersionUnsupported, future_blob, zero_metadata, Some 7).
Proof.
  split; [| split].
  - destruct (legacy_overload_registers_offset Blob
                (DeserializePalCodeObjectMetadata (cfg := release_amdgpu) (schema := schema))
                tess_blob zero_metadata (Some 7) _ _ _ eq_refl)
      as [out [Hrun [Hok _]]].
    rewrite Hrun. cbn [snd]. rewrite (Hok 7 eq_refl eq_refl). reflexivity.
  - destruct (legacy_overload_registers_offset Blob
                (DeserializePalCodeObjectMetadata (cfg := release_amdgpu) (schema := schema))
                no_registers_blob zero_metadata (Some 7) _ _ _ eq_refl)
      as [out [Hrun [Hok _]]].
    rewrite Hrun. cbn [snd]. rewrite (Hok 7 eq_refl eq_refl). reflexivity.
  - destruct (legacy_overload_registers_offset Blob
                (DeserializePalCodeObjectMetadata (cfg := release_amdgpu) (schema := schema))
                future_blob zero_metadata (Some 7) _ _ _ eq_refl)
      as [out [Hrun [_ [Hfail _]]]].
    rewrite Hrun, Hfail by discriminate. reflexivity.
Defined.

(** A blob with only the two required root keys and no pipeline field:
    the version is set, every pipeline presence bit is clear. *)
Example Decode_required_keys_only :
  match Decode (cfg := release_amdgpu) (schema := schema) (blob_with 2 0 []) with
  | Ok metadata =>
      PalCodeObjectMetadata.version metadata = (2, 0)
      /\ bit_is_set (PalCodeObjectMetadata.hasEntry metadata)
                    PalCodeObjectMetadata.hasEntryBit.version = true
      /\ PipelineMetadata.hasEntry (PalCodeObjectMetadata.pipeline metadata) = 0
  | Err _ => False
  end.
Proof. vm_compute. repeat split; reflexivity. Qed.

(** A blob without the pipelines key is malformed. *)
Example Decode_missing_pipelines :
  Decode (cfg := release_amdgpu) (schema := schema)
         (Items (MMap 0 [version_entry 2 0]))
  = Err MalformedStructure.
Proof. reflexivity. Qed.

(** A field of the wrong wire type is reported, and a truncated blob too. *)
Example Decode_type_mismatch :
  Decode (cfg := release_amdgpu) (schema := schema)
         (blob_with 2 0 [(".user_data_limit"%string, MStr "twelve")])
  = Err TypeMismatch.
Proof. reflexivity. Qed.

Example Decode_truncated :
  Decode (cfg := release_amdgpu) (schema := schema) TruncatedBlob = Err Truncated.
Proof. reflexivity. Qed.

(** The two context registers reach the command stream in one packet. *)
Example WriteContextCommands_vega :
  WriteContextCommands (L := layout) [] vega_ready
  = Done ([SetSeqContextRegs 0xa286 0xa287 [0x42800000; 0x3f800000]], vega_ready).
Proof. reflexivity. Qed.

(** An override of 64 waves does not fit the six-bit field and an enable
    mask with no low bit set masks every compute unit off. *)
Example overrides_are_truncated_to_their_fields :
  index_writes 0x2d07
    match WriteShCommands (cfg := release_amdgpu) (L := layout) []
                          {| wavesPerSh := 64; cuEnableMask := 0x10000 |} navi_ready with
    | Done (appended, _) => appended
    | AssertFailed _ => []
    end
  = [0x380].
Proof. vm_compute. reflexivity. Qed.

End ConcreteRuns.

(** ** Further properties of the hull-shader chunk *)

Section MoreBitFieldFacts.
Import Bits Util.

(** A second store into a field replaces the first. *)
Lemma set_set (f : BitField) (v v' x : Z) :
  set f v (set f v' x) = set f v x.
Proof.
  apply Z.bits_inj'. intros i Hi.
  rewrite !testbit_set by assumption.
  destruct (in_field f i); reflexivity.
Qed.

Lemma testbit_above_64 (a i : Z) :
  0 <= a < 2 ^ 64 -> 64 <= i -> Z.testbit a i = false.
Proof.
  intros Ha Hi.
  rewrite <- (Z.mod_small a (2 ^ 64)) by exact Ha.
  apply Z.mod_pow2_bits_high. lia.
Qed.

(** For a 64-bit address on a 256-byte boundary whose upper part is zero,
    the low part of the 256-byte address gives the address back. *)
Lemma aligned_address_round_trip (a : Z) :
  0 <= a < 2 ^ 64 ->
  IsPow2Aligned a 256 = true ->
  Get256BAddrHi a = 0 ->
  Z.shiftl (Get256BAddrLo a) 8 = a.
Proof.
  intros Ha Halign Hhi.
  unfold IsPow2Aligned in Halign. apply Z.eqb_eq in Halign.
  change (256 - 1) with (Z.ones 8) in Halign.
  unfold Get256BAddrHi, HighPart in Hhi.
  unfold Get256BAddrLo, LowPart.
  change 0xffffffff with (Z.ones 32) in *.
  apply Z.bits_inj'. intros i Hi.
  destruct (Z.lt_ge_cases i 8) as [Hlow | Hhigh].
  - rewrite Z.shiftl_spec_low by exact Hlow.
    assert (Hbit : Z.testbit (Z.land a (Z.ones 8)) i = false)
      by (rewrite Halign; apply Z.bits_0).
    rewrite Z.land_spec, Z.testbit_ones_nonneg in Hbit by lia.
    destruct (Z.ltb_spec i 8); [| lia].
    rewrite Bool.andb_true_r in Hbit. symmetry. exact Hbit.
  - rewrite Z.shiftl_spec, Z.land_spec, Z.shiftr_spec, Z.testbit_ones_nonneg by lia.
    replace (i - 8 + 8) with i by lia.
    destruct (Z.ltb_spec (i - 8) 32) as [Hin | Hout].
    + apply Bool.andb_true_r.
    + rewrite Bool.andb_false_r. symmetry.
      destruct (Z.lt_ge_cases i 64) as [Hmid | Htop].
      * assert (Hbit : Z.testbit
                         (Z.land (Z.shiftr (Z.shiftr a 8) 32) (Z.ones 32)) (i - 40)
                       = false)
          by (rewrite Hhi; apply Z.bits_0).
        rewrite Z.land_spec, !Z.shiftr_spec, Z.testbit_ones_nonneg in Hbit by lia.
        replace (i - 40 + 32 + 8) with i in Hbit by lia.
        destruct (Z.ltb_spec (i - 40) 32); [| lia].
        rewrite Bool.andb_true_r in Hbit. exact Hbit.
      * apply testbit_above_64; assumption.
Qed.

Lemma LowPart_fits (x : Z) : LowPart x mod 2 ^ 32 = LowPart x.
Proof.
  unfold LowPart. change 0xffffffff with (Z.ones 32).
  rewrite Z.land_ones by lia. apply Z.mod_mod. lia.
Qed.

End MoreBitFieldFacts.

Section MoreLateInitFacts.
Import Bits Util Gfx9.
Context {cfg : BuildConfig} {L : RegisterLayout}.

Ltac unfold_method :=
  cbv beta iota zeta
      delta [LateInit AssertUserAccumRegsDisabled PAL_ASSERT bind member ret
             assign when Update].

Ltac case_split :=
  repeat match goal with
         | |- context [match ?x with _ => _ end] =>
             lazymatch x with
             | context [match _ with _ => _ end] => fail
             | _ => destruct x eqn:?; cbn beta iota
             end
         end.

Ltac project_state :=
  cbn [m_device m_regs m_stageInfo m_pHsPerfDataInfo sh context dynamic
       with_regs with_stageInfo with_sh with_context with_dynamic
       upd_spiShaderPgmLoLs upd_spiShaderPgmRsrc1Hs upd_spiShaderPgmRsrc2Hs
       upd_spiShaderPgmChksumHs upd_userDataInternalTable
       upd_vgtHosMaxTessLevel upd_vgtHosMinTessLevel
       upd_spiShaderPgmRsrc3Hs upd_spiShaderPgmRsrc4Hs
       upd_codeLength upd_disassemblyLength upd_stageId
       spiShaderPgmLoLs spiShaderPgmRsrc1Hs spiShaderPgmRsrc2Hs
       spiShaderPgmChksumHs userDataInternalTable vgtHosMaxTessLevel
       vgtHosMinTessLevel spiShaderPgmRsrc3Hs spiShaderPgmRsrc4Hs
       stageId codeLength disassemblyLength PipelineChunkHs_ctor] in *.

Ltac normalize_state :=
  cbv beta iota
      delta [m_device m_regs m_stageInfo m_pHsPerfDataInfo sh context dynamic
             with_regs with_stageInfo with_sh with_context with_dynamic
             upd_spiShaderPgmLoLs upd_spiShaderPgmRsrc1Hs upd_spiShaderPgmRsrc2Hs
             upd_spiShaderPgmChksumHs upd_userDataInternalTable
             upd_vgtHosMaxTessLevel upd_vgtHosMinTessLevel
             upd_spiShaderPgmRsrc3Hs upd_spiShaderPgmRsrc4Hs
             upd_codeLength upd_disassemblyLength upd_stageId
             spiShaderPgmLoLs spiShaderPgmRsrc1Hs spiShaderPgmRsrc2Hs
             spiShaderPgmChksumHs userDataInternalTable vgtHosMaxTessLevel
             vgtHosMinTessLevel spiShaderPgmRsrc3Hs spiShaderPgmRsrc4Hs
             stageId codeLength disassemblyLength].

(** X1: when the entry point is found and [LateInit] finishes, the
    program-address register gives the resolved address back: shifted left
    by eight bits it is the symbol's address, and the code length is the
    symbol's size.  This needs the two conditions the source asserts, which
    a finished call guarantees in a build with assertions and the caller
    has to guarantee otherwise. *)
Theorem LateInit_program_address_round_trip
        (abiReader : AbiReader) (registers : RegisterVector)
        (pUploader : PipelineUploader) (pHasher pHasher' : MetroHash64)
        (this this' : PipelineChunkHs) (symbol : GpuSymbol) :
  GetPipelineGpuSymbol pUploader Abi.HsMainEntry = Some symbol ->
  0 <= gpuVirtAddr symbol < 2 ^ 64 ->
  bf_width PGM_LO_LS_MEM_BASE = 32%N ->
  PAL_ENABLE_PRINTS_ASSERTS
  || (IsPow2Aligned (gpuVirtAddr symbol) 256
      && (Get256BAddrHi (gpuVirtAddr symbol) =? 0)) = true ->
  LateInit abiReader registers pUploader pHasher this = Done (pHasher', this') ->
  Z.shiftl (get PGM_LO_LS_MEM_BASE (spiShaderPgmLoLs (sh (m_regs this')))) 8
  = gpuVirtAddr symbol
  /\ codeLength (m_stageInfo this') = size symbol.
Proof.
  intros Hfound Hrange Hwidth Hcond Hrun.
  assert (Hok : IsPow2Aligned (gpuVirtAddr symbol) 256 = true
                /\ Get256BAddrHi (gpuVirtAddr symbol) = 0
                /\ get PGM_LO_LS_MEM_BASE (spiShaderPgmLoLs (sh (m_regs this')))
                   = Get256BAddrLo (gpuVirtAddr symbol)
                     mod 2 ^ Z.of_N (bf_width PGM_LO_LS_MEM_BASE)
                /\ codeLength (m_stageInfo this') = size symbol).
  { revert Hrun Hcond. unfold_method. rewrite Hfound.
    destruct PAL_ENABLE_PRINTS_ASSERTS;
      destruct (IsPow2Aligned (gpuVirtAddr symbol) 256);
      destruct (Z.eqb_spec (Get256BAddrHi (gpuVirtAddr symbol)) 0);
      cbn [andb negb orb]; try discriminate;
      case_split; intros Hrun Hcond; try discriminate;
      inversion Hrun; subst; project_state;
      repeat split; first [assumption | reflexivity | apply get_set_same]. }
  destruct Hok as [Halign [Hhi [Hbase Hlen]]].
  split; [| exact Hlen].
  rewrite Hbase, Hwidth. unfold Get256BAddrLo at 1.
  change (Z.of_N 32) with 32. rewrite LowPart_fits.
  apply aligned_address_round_trip; assumption.
Qed.

(** X2: the compute-unit enable masks of the snapshot are always the
    device's, whatever the pipeline binary's registers say: after
    [LateInit] the enable field of the third resource register is the
    device's mask (truncated to the field) and every other bit is the
    lookup's (or what the object held, when the lookup has no entry); from
    GFX10 on the same holds for the upper mask in the fourth register, which
    older generations leave untouched. *)
Theorem LateInit_cu_enable_from_device
        (abiReader : AbiReader) (registers : RegisterVector)
        (pUploader : PipelineUploader) (pHasher pHasher' : MetroHash64)
        (this this' : PipelineChunkHs) :
  LateInit abiReader registers pUploader pHasher this = Done (pHasher', this') ->
  let device := m_device this in
  let rsrc3 := spiShaderPgmRsrc3Hs (dynamic (m_regs this')) in
  let rsrc4 := spiShaderPgmRsrc4Hs (dynamic (m_regs this')) in
  get RSRC3_HS_CU_EN rsrc3
  = GetCuEnableMask device 0 UINT_MAX mod 2 ^ Z.of_N (bf_width RSRC3_HS_CU_EN)
  /\ same_outside [RSRC3_HS_CU_EN] rsrc3
       match HasEntry registers mmSPI_SHADER_PGM_RSRC3_HS with
       | Some value => value
       | None => spiShaderPgmRsrc3Hs (dynamic (m_regs this))
       end
  /\ if IsGfx10Plus (gfxLevel (ChipProperties device))
     then get RSRC4_HS_CU_EN rsrc4
          = GetCuEnableMaskHi device 0 UINT_MAX
            mod 2 ^ Z.of_N (bf_width RSRC4_HS_CU_EN)
          /\ same_outside [RSRC4_HS_CU_EN] rsrc4
                          (spiShaderPgmRsrc4Hs (dynamic (m_regs this)))
     else rsrc4 = spiShaderPgmRsrc4Hs (dynamic (m_regs this)).
Proof.
  cbv zeta. intros Hrun. revert Hrun. unfold_method.
  case_split; intros Hrun; try discriminate; inversion Hrun; subst;
    project_state;
    repeat split;
    first [ apply get_set_same
          | apply set_same_outside; cbn; tauto
          | reflexivity ].
Qed.

(** X3: the words [LateInit] feeds to the hasher are the data of the
    packet [WriteContextCommands] writes afterwards: the hash covers exactly
    the context-register state the chunk emits. *)
Theorem LateInit_hashes_what_WriteContextCommands_writes
        (abiReader : AbiReader) (registers : RegisterVector)
        (pUploader : PipelineUploader) (pHasher pHasher' : MetroHash64)
        (this this' : PipelineChunkHs) (pCmdSpace : CmdSpace) :
  LateInit abiReader registers pUploader pHasher this = Done (pHasher', this') ->
  exists data,
    pHasher' = pHasher ++ data
    /\ WriteContextCommands pCmdSpace this'
       = Done (pCmdSpace
               ++ [SetSeqContextRegs mmVGT_HOS_MAX_TESS_LEVEL
                                     mmVGT_HOS_MIN_TESS_LEVEL data], this').
Proof.
  intros Hrun. revert Hrun. unfold_method.
  case_split; intros Hrun; try discriminate; inversion Hrun; subst;
    eexists; split; reflexivity.
Qed.

(** X4: the values resolved at late initialisation reach the command
    stream unchanged.  After constructing a chunk and late-initialising
    it, every [WriteShCommands] call begins with the program-address
    register holding the entry point's 256-byte address (0 when the entry
    point is absent), then the first two resource registers as the lookup
    has them, then the internal-table register holding the low 32 bits of
    the table's address (0 when the table symbol is absent). *)
Theorem LateInit_then_WriteShCommands_static_registers
        (device : Device) (pPerfDataInfo : PerfDataInfo)
        (abiReader : AbiReader) (registers : RegisterVector)
        (pUploader : PipelineUploader) (pHasher pHasher' : MetroHash64)
        (this' : PipelineChunkHs)
        (pCmdSpace : CmdSpace) (hsStageInfo : DynamicStageInfo) :
  LateInit abiReader registers pUploader pHasher
           (PipelineChunkHs_ctor device pPerfDataInfo) = Done (pHasher', this') ->
  exists rest,
    WriteShCommands pCmdSpace hsStageInfo this'
    = Done (pCmdSpace
            ++ [SetOneShReg ShaderGraphics (mmSpiShaderPgmLoLs (GetRegInfo device))
                  match GetPipelineGpuSymbol pUploader Abi.HsMainEntry with
                  | Some symbol =>
                      set PGM_LO_LS_MEM_BASE (Get256BAddrLo (gpuVirtAddr symbol)) 0
                  | None => 0
                  end;
                SetSeqShRegs mmSPI_SHADER_PGM_RSRC1_HS mmSPI_SHADER_PGM_RSRC2_HS
                             ShaderGraphics
                             [At registers mmSPI_SHADER_PGM_RSRC1_HS;
                              At registers mmSPI_SHADER_PGM_RSRC2_HS];
                SetOneShReg ShaderGraphics
                  (mmUserDataStartHsShaderStage (GetRegInfo device)
                   + ConstBufTblStartReg)
                  match GetPipelineGpuSymbol pUploader Abi.HsShdrIntrlTblPtr with
                  | Some symbol => LowPart (gpuVirtAddr symbol)
                  | None => 0
                  end]
            ++ rest, this').
Proof.
  intros Hrun. revert Hrun. unfold_method.
  cbn [m_device PipelineChunkHs_ctor with_stageInfo with_regs].
  case_split; intros Hrun; try discriminate; inversion Hrun; subst;
    rewrite WriteShCommands_run; cbv zeta; project_state;
    eexists; reflexivity.
Qed.

(** X5: [LateInit] consults the lookup for six registers only (the
    checksum register among them only on a device with checksum support):
    two lookups that agree on those, and on the user-accumulator diagnostic
    where it is compiled in, give the same outcome, whatever else they
    hold. *)
Theorem LateInit_reads_only_its_registers
        (abiReader : AbiReader) (r1 r2 : RegisterVector)
        (pUploader : PipelineUploader) (pHasher : MetroHash64)
        (this : PipelineChunkHs) :
  agree_for_LateInit (m_device this) r1 r2 ->
  LateInit abiReader r1 pUploader pHasher this
  = LateInit abiReader r2 pUploader pHasher this.
Proof.
  intros [H1 [H2 [H3 [Hmin [Hmax [Hchk Hacc]]]]]].
  unfold_method. rewrite H1, H2, H3, Hmin, Hmax.
  destruct (Z.eqb_spec (gfx9_supportSpp (ChipProperties (m_device this))) 0)
    as [Hnone | Hsome]; cbn [negb];
    [| rewrite (Hchk Hsome)];
    (destruct (IsGfx10Plus (gfxLevel (ChipProperties (m_device this)))) eqn:Hgfx;
     [| case_split; reflexivity]);
    (destruct PAL_ENABLE_PRINTS_ASSERTS eqn:Hasserts;
     [| case_split; reflexivity]);
    specialize (Hacc eq_refl eq_refl);
    destruct (GetPipelineGpuSymbol pUploader Abi.HsMainEntry);
    destruct (GetPipelineGpuSymbol pUploader Abi.HsShdrIntrlTblPtr);
    destruct (GetPipelineSymbol abiReader Abi.HsDisassembly);
    destruct (HasEntry r2 mmSPI_SHADER_PGM_RSRC3_HS);
    cbn [andb negb];
    repeat match goal with
           | |- context [IsPow2Aligned ?a ?b] => destruct (IsPow2Aligned a b)
           | |- context [Get256BAddrHi ?a =? 0] => destruct (Get256BAddrHi a =? 0)
           end;
    cbn [andb negb]; project_state; rewrite ?Hacc; reflexivity.
Qed.

(** X6: [LateInit] is idempotent on the object: repeating a finished call
    with the same arguments finishes again and leaves the snapshot and the
    stage description as the first call left them (only the hasher is fed
    a second time). *)
Theorem LateInit_idempotent
        (abiReader : AbiReader) (registers : RegisterVector)
        (pUploader : PipelineUploader) (pHasher pHasher' : MetroHash64)
        (this this' : PipelineChunkHs) :
  LateInit abiReader registers pUploader pHasher this = Done (pHasher', this') ->
  exists pHasher'',
    LateInit abiReader registers pUploader pHasher' this' = Done (pHasher'', this').
Proof.
  intros Hrun.
  remember (LateInit abiReader registers pUploader pHasher') as again eqn:Hagain.
  destruct this as [device [[pgmLo rsrc1 rsrc2 chksum table] [maxTess minTess]
                            [rsrc3 rsrc4]] perf [stage len disasm]].
  revert Hrun. unfold_method. normalize_state.
  case_split; intros Hrun; try discriminate; inversion Hrun; subst; clear Hrun;
    unfold_method; normalize_state;
    repeat match goal with
           | H : ?x = _ |- context [?x] => rewrite H; cbn beta iota
           end;
    eexists; rewrite ?set_set; reflexivity.
Qed.

End MoreLateInitFacts.

Section MoreWriteCommandsFacts.
Import Bits Util Gfx9.
Context {cfg : BuildConfig} {L : RegisterLayout}.

(** X7: a wave-limit override greater than 0 always wins: on every
    generation and in every build the emitted wave-limit field is the
    override truncated to the field's width, and no compensation is applied
    to it.  An override that is a multiple of the field's range is
    therefore emitted as 0. *)
Theorem wave_limit_override_is_emitted_truncated
        (pCmdSpace : CmdSpace) (hsStageInfo : DynamicStageInfo)
        (this : PipelineChunkHs) :
  0 < wavesPerSh hsStageInfo ->
  disjoint RSRC3_HS_WAVE_LIMIT RSRC3_HS_CU_EN = true ->
  (mmSPI_SHADER_PGM_RSRC3_HS =? mmSPI_SHADER_PGM_RSRC4_HS) = false ->
  exists appended emitted,
    WriteShCommands pCmdSpace hsStageInfo this = Done (pCmdSpace ++ appended, this)
    /\ index_writes mmSPI_SHADER_PGM_RSRC3_HS appended = [emitted]
    /\ get RSRC3_HS_WAVE_LIMIT emitted
       = wavesPerSh hsStageInfo mod 2 ^ Z.of_N (bf_width RSRC3_HS_WAVE_LIMIT).
Proof.
  intros Hover Hdisj Hne.
  destruct (index_writes_dynamic pCmdSpace hsStageInfo this Hne)
    as [appended [Hrun [Hidx _]]].
  exists appended. eexists. split; [exact Hrun |]. split; [exact Hidx |].
  rewrite (patch_dynamic_wave_limit _ _ _ Hdisj).
  apply Z.ltb_lt in Hover. rewrite Hover. reflexivity.
Qed.

(** X8: without overrides the snapshot is replayed as it is.  With no
    wave-limit override and no enable mask, and unless the GFX9
    compensation applies, the two dynamic registers are emitted with
    exactly the values of the snapshot. *)
Theorem no_override_replays_snapshot
        (pCmdSpace : CmdSpace) (hsStageInfo : DynamicStageInfo)
        (this : PipelineChunkHs) :
  wavesPerSh hsStageInfo = 0 ->
  cuEnableMask hsStageInfo = 0 ->
  PAL_AMDGPU_BUILD
  && (IsGfx9 (gfxLevel (ChipProperties (m_device this)))
      && (get RSRC3_HS_WAVE_LIMIT (spiShaderPgmRsrc3Hs (dynamic (m_regs this))) =? 0))
  = false ->
  (mmSPI_SHADER_PGM_RSRC3_HS =? mmSPI_SHADER_PGM_RSRC4_HS) = false ->
  exists appended,
    WriteShCommands pCmdSpace hsStageInfo this = Done (pCmdSpace ++ appended, this)
    /\ index_writes mmSPI_SHADER_PGM_RSRC3_HS appended
       = [spiShaderPgmRsrc3Hs (dynamic (m_regs this))]
    /\ index_writes mmSPI_SHADER_PGM_RSRC4_HS appended
       = if IsGfx10Plus (gfxLevel (ChipProperties (m_device this)))
         then [spiShaderPgmRsrc4Hs (dynamic (m_regs this))] else [].
Proof.
  intros Hwaves Hmask Hnocomp Hne.
  destruct (index_writes_dynamic pCmdSpace hsStageInfo this Hne)
    as [appended [Hrun [Hidx3 Hidx4]]].
  exists appended. split; [exact Hrun |].
  assert (Hsame : patch_dynamic (m_device this) hsStageInfo (dynamic (m_regs this))
                  = dynamic (m_regs this)).
  { unfold patch_dynamic. rewrite Hwaves, Hmask, Hnocomp. reflexivity. }
  rewrite Hsame in Hidx3, Hidx4. split; assumption.
Qed.

(** Running a sequence is running its first call and then the rest. *)
Lemma replay_cons (call : ReadyCall) (rest : list ReadyCall)
      (pCmdSpace : CmdSpace) (this : PipelineChunkHs) :
  replay (call :: rest) pCmdSpace this
  = bind (replay [call] pCmdSpace) (fun pCmdSpace' => replay rest pCmdSpace') this.
Proof.
  destruct call as [hsStageInfo |]; cbn [replay]; unfold bind, ret.
  - destruct (WriteShCommands pCmdSpace hsStageInfo this) as [[p t] | which];
      reflexivity.
  - destruct (WriteContextCommands pCmdSpace this) as [[p t] | which]; reflexivity.
Qed.

(** One call appends its packets after what the command space holds. *)
Lemma replay_one (call : ReadyCall) (pCmdSpace : CmdSpace) (this : PipelineChunkHs) :
  replay [call] pCmdSpace this = Done (pCmdSpace ++ call_packets this call, this).
Proof.
  unfold call_packets, returned_space.
  destruct call as [hsStageInfo |]; cbn [replay]; unfold bind, ret.
  - rewrite !WriteShCommands_run. cbv zeta. cbn [app]. reflexivity.
  - rewrite !WriteContextCommands_run. cbn [app]. reflexivity.
Qed.

(** X9: the stream a sequence of calls produces is the concatenation of
    what each call writes into an empty command space, after whatever the
    command space held before; and running two sequences one after the
    other is running their concatenation. *)
Theorem replay_concatenates (this : PipelineChunkHs) :
  (forall calls pCmdSpace,
      replay calls pCmdSpace this
      = Done (pCmdSpace ++ flat_map (call_packets this) calls, this))
  /\ (forall calls1 calls2 pCmdSpace,
         bind (replay calls1 pCmdSpace) (fun pCmdSpace' => replay calls2 pCmdSpace') this
         = replay (calls1 ++ calls2) pCmdSpace this).
Proof.
  assert (Hflat : forall calls pCmdSpace,
             replay calls pCmdSpace this
             = Done (pCmdSpace ++ flat_map (call_packets this) calls, this)).
  { induction calls as [| call rest IH]; intros pCmdSpace.
    - cbn. unfold ret. rewrite app_nil_r. reflexivity.
    - rewrite replay_cons. unfold bind. rewrite replay_one, IH.
      cbn [flat_map]. rewrite <- app_assoc. reflexivity. }
  split; [exact Hflat |].
  intros calls1 calls2 pCmdSpace. unfold bind.
  rewrite !Hflat, flat_map_app, app_assoc. reflexivity.
Qed.

(** X10: one [WriteShCommands] call appends four packets, plus one for
    each of: checksum support, GFX10 or later, a mapped performance-data
    register; so never fewer than four nor more than seven. *)
Theorem WriteShCommands_packet_count
        (pCmdSpace : CmdSpace) (hsStageInfo : DynamicStageInfo)
        (this : PipelineChunkHs) :
  exists appended,
    WriteShCommands pCmdSpace hsStageInfo this = Done (pCmdSpace ++ appended, this)
    /\ Z.of_nat (List.length appended)
       = 4
         + Z.b2z (negb (gfx9_supportSpp (ChipProperties (m_device this)) =? 0))
         + Z.b2z (IsGfx10Plus (gfxLevel (ChipProperties (m_device this))))
         + Z.b2z (negb (regOffset (m_pHsPerfDataInfo this) =? UserDataNotMapped))
    /\ 4 <= Z.of_nat (List.length appended) <= 7.
Proof.
  eexists. split; [apply WriteShCommands_run |].
  cbv zeta.
  destruct (negb (gfx9_supportSpp (ChipProperties (m_device this)) =? 0));
    destruct (IsGfx10Plus (gfxLevel (ChipProperties (m_device this))));
    destruct (negb (regOffset (m_pHsPerfDataInfo this) =? UserDataNotMapped));
    cbn; split; lia.
Qed.

End MoreWriteCommandsFacts.

(** ** The event client's provider iterator *)

Section ProviderIteratorFacts.
Import DevDriver.
Context {protocol : EventProtocol}.
Variable memory : ResponseMemory.

(** The default iterator is where iteration stays once it is over. *)
Lemma advance_default (steps : nat) :
  EventProviderIterator.advance memory steps EventProviderIterator.ctor_default
  = Some EventProviderIterator.ctor_default.
Proof.
  induction steps as [| steps IH]; [reflexivity |].
  cbn [EventProviderIterator.advance]. exact IH.
Qed.

(** Iteration from an in-range iterator with a non-null pointer: the
    index grows by one per step while in range, and the step that leaves
    the range yields the default iterator. *)
Lemma advance_in_range (steps : nat) :
  forall (index count address : Z),
    0 <= index < count -> count < 2 ^ 32 ->
    exists it,
      EventProviderIterator.advance memory steps
        (EventProviderIterator.ctor index count (at_address address)) = Some it
      /\ (index + Z.of_nat steps < count ->
          EventProviderIterator.m_providerIndex it = index + Z.of_nat steps
          /\ EventProviderIterator.m_numProviders it = count
          /\ is_nullptr (EventProviderIterator.m_pProviderData it) = false)
      /\ (count <= index + Z.of_nat steps -> it = EventProviderIterator.ctor_default).
Proof.
  induction steps as [| steps IH]; intros index count address Hindex Hcount.
  - eexists. split; [reflexivity |]. split.
    + intros _. cbn. repeat split. lia.
    + intros Hout. lia.
  - cbn [EventProviderIterator.advance].
    unfold EventProviderIterator.Next.
    cbn [EventProviderIterator.m_providerIndex EventProviderIterator.m_numProviders
         EventProviderIterator.m_pProviderData EventProviderIterator.ctor].
    rewrite Z.mod_small by lia.
    destruct (Z.ltb_spec (index + 1) count) as [Hin | Hout].
    + destruct (IH (index + 1) count
                  (address + GetNextProviderDescriptionOffset
                               (providerHeaderAt memory address)))
        as [it [Hrun [Hvalid Hdone]]]; [lia | lia |].
      exists it. split; [exact Hrun |]. split.
      * intros Hlt. replace (index + Z.of_nat (S steps))
          with (index + 1 + Z.of_nat steps) by lia. apply Hvalid. lia.
      * intros Hge. apply Hdone. lia.
    + rewrite advance_default. eexists. split; [reflexivity |]. split.
      * intros Hlt. lia.
      * intros _. reflexivity.
Qed.

(** The iterator reached after a number of steps from the first
    provider. *)
Lemma nth_provider_reached
      (description : EventProvidersDescription.t) (address : Z) (steps : nat) :
  EventProvidersDescription.m_pResponseData description = at_address address ->
  0 <= numProviders (responseHeaderAt memory address) < 2 ^ 32 ->
  let count := numProviders (responseHeaderAt memory address) in
  exists it,
    EventProvidersDescription.nth_provider memory description steps = Some it
    /\ EventProviderIterator.IsValid it = (Z.of_nat steps <? count)
    /\ (Z.of_nat steps < count ->
        EventProviderIterator.m_providerIndex it = Z.of_nat steps
        /\ EventProviderIterator.m_numProviders it = count
        /\ is_nullptr (EventProviderIterator.m_pProviderData it) = false)
    /\ (count <= Z.of_nat steps -> (0 < steps)%nat ->
        it = EventProviderIterator.ctor_default).
Proof.
  intros Hptr Hcount count.
  unfold EventProvidersDescription.nth_provider,
    EventProvidersDescription.GetFirstProvider.
  rewrite Hptr. fold count.
  destruct (Z.eq_dec count 0) as [Hzero | Hpos].
  - (* no provider at all *)
    destruct steps as [| steps].
    + eexists. split; [reflexivity |].
      split; [reflexivity |]. split.
      * intros Hlt. cbn in Hlt. lia.
      * intros _ Hlt. inversion Hlt.
    + cbn [EventProviderIterator.advance]. unfold EventProviderIterator.Next.
      cbn [EventProviderIterator.m_providerIndex EventProviderIterator.m_numProviders
           EventProviderIterator.ctor].
      rewrite Hzero.
      replace ((0 + 1) mod 2 ^ 32 <? 0) with false by reflexivity.
      rewrite advance_default. eexists. split; [reflexivity |].
      split; [| split].
      * unfold EventProviderIterator.IsValid. cbn.
        first [reflexivity | symmetry; apply Z.ltb_ge; lia].
      * intros Hlt. lia.
      * intros _ _. reflexivity.
  - destruct (advance_in_range steps 0 count
                (address + sizeof_QueryProvidersResponseHeader))
      as [it [Hrun [Hvalid Hdone]]]; [subst count; lia | subst count; lia |].
    exists it. split; [exact Hrun |].
    destruct (Z.ltb_spec (Z.of_nat steps) count) as [Hlt | Hge].
    + destruct (Hvalid ltac:(lia)) as [Hidx [Hnum Hnon]].
      split; [| split].
      * unfold EventProviderIterator.IsValid. rewrite Hidx, Hnum.
        apply Z.ltb_lt. lia.
      * intros _. repeat split; [lia | exact Hnum | exact Hnon].
      * intros Hge. lia.
    + rewrite (Hdone ltac:(lia)).
      split; [| split].
      * unfold EventProviderIterator.IsValid. cbn. reflexivity.
      * intros Hlt. lia.
      * intros _ _. reflexivity.
Qed.

(** X11: iterating a provider description visits each provider exactly
    once.  For a description with [n] providers behind a non-null pointer,
    the iterator reached after [k] calls of [Next] from [GetFirstProvider]
    always exists (no call dereferences a null pointer); it is valid
    exactly when [k < n], and then it has index [k] and a non-null data
    pointer; once the providers are exhausted it is the default iterator
    and stays so. *)
Theorem provider_iteration_visits_each_once
        (description : EventProvidersDescription.t) (address : Z) (steps : nat) :
  EventProvidersDescription.m_pResponseData description = at_address address ->
  0 <= numProviders (responseHeaderAt memory address) < 2 ^ 32 ->
  let count := numProviders (responseHeaderAt memory address) in
  exists it,
    EventProvidersDescription.nth_provider memory description steps = Some it
    /\ EventProviderIterator.IsValid it = (Z.of_nat steps <? count)
    /\ (Z.of_nat steps < count ->
        EventProviderIterator.m_providerIndex it = Z.of_nat steps
        /\ EventProviderIterator.m_numProviders it = count
        /\ is_nullptr (EventProviderIterator.m_pProviderData it) = false)
    /\ (count <= Z.of_nat steps -> (0 < steps)%nat ->
        it = EventProviderIterator.ctor_default).
Proof. exact (nth_provider_reached description address steps). Qed.

(** X12: the expression [IsValid] asserts holds for every iterator reached
    from the first provider of a non-empty description, and for the default
    iterator; for an empty description behind a non-null pointer it does
    not hold for the first iterator, which is out of range yet carries a
    non-null data pointer. *)
Theorem IsValid_assertion_along_iteration
        (description : EventProvidersDescription.t) (address : Z) :
  EventProvidersDescription.m_pResponseData description = at_address address ->
  0 <= numProviders (responseHeaderAt memory address) < 2 ^ 32 ->
  let count := numProviders (responseHeaderAt memory address) in
  (0 < count ->
   forall steps it,
     EventProvidersDescription.nth_provider memory description steps = Some it ->
     EventProviderIterator.IsValid_asserted it = true)
  /\ (count = 0 ->
      exists first,
        EventProvidersDescription.GetFirstProvider memory description = Some first
        /\ EventProviderIterator.IsValid first = false
        /\ EventProviderIterator.IsValid_asserted first = false).
Proof.
  intros Hptr Hcount count. split.
  - intros Hpos steps it Hnth.
    destruct (nth_provider_reached description address steps
                Hptr Hcount) as [it' [Hrun [Hvalid [Hin Hout]]]].
    rewrite Hnth in Hrun. inversion Hrun; subst it'.
    unfold EventProviderIterator.IsValid_asserted.
    unfold EventProviderIterator.IsValid in Hvalid. fold count in Hvalid, Hout.
    destruct (Z.ltb_spec (Z.of_nat steps) count) as [Hlt | Hge].
    + rewrite Hvalid. apply Bool.orb_true_r.
    + rewrite (Hout Hge ltac:(lia)). reflexivity.
  - intros Hzero.
    unfold EventProvidersDescription.GetFirstProvider. rewrite Hptr.
    eexists. split; [reflexivity |].
    unfold EventProviderIterator.IsValid, EventProviderIterator.IsValid_asserted.
    cbn. fold count. rewrite Hzero. split; reflexivity.
Qed.

End ProviderIteratorFacts.

(** ** Further concrete runs *)

Section MoreConcreteRuns.
Import Bits Util Gfx9 DevDriver Samples.

Lemma LateInit_program_address_witness :
  IsPow2Aligned 0x12345600 256 = true
  /\ Z.shiftl (get (PGM_LO_LS_MEM_BASE (RegisterLayout := layout))
                   (spiShaderPgmLoLs (sh (m_regs vega_ready_checked)))) 8
     = 0x12345600
  /\ codeLength (m_stageInfo vega_ready_checked) = 0x140.
Proof.
  split; [reflexivity |].
  apply (@LateInit_program_address_round_trip debug_amdgpu layout abiReader registers
           uploader_aligned [] [0x42800000; 0x3f800000]
           (PipelineChunkHs_ctor vega perf_data) vega_ready_checked
           {| gpuVirtAddr := 0x12345600; size := 0x140 |});
    [reflexivity | split; [discriminate | reflexivity]
     | reflexivity | reflexivity | reflexivity].
Defined.

Lemma LateInit_cu_enable_witness :
  get (RSRC3_HS_CU_EN (RegisterLayout := layout))
      (spiShaderPgmRsrc3Hs (dynamic (m_regs navi_ready))) = 0xffff
  /\ same_outside [RSRC3_HS_CU_EN (RegisterLayout := layout)]
                  (spiShaderPgmRsrc3Hs (dynamic (m_regs navi_ready))) 0x380
  /\ get (RSRC4_HS_CU_EN (RegisterLayout := layout))
         (spiShaderPgmRsrc4Hs (dynamic (m_regs navi_ready))) = 0xff
  /\ same_outside [RSRC4_HS_CU_EN (RegisterLayout := layout)]
                  (spiShaderPgmRsrc4Hs (dynamic (m_regs navi_ready))) 0.
Proof.
  exact (@LateInit_cu_enable_from_device release_amdgpu layout abiReader registers
           uploader_aligned [] [0x42800000; 0x3f800000]
           (PipelineChunkHs_ctor navi no_perf_data) navi_ready eq_refl).
Defined.

Lemma LateInit_hash_and_context_witness :
  exists data,
    [0x42800000; 0x3f800000] = [] ++ data
    /\ WriteContextCommands (L := layout) [] vega_ready
       = Done ([] ++ [SetSeqContextRegs 0xa286 0xa287 data], vega_ready).
Proof.
  exact (@LateInit_hashes_what_WriteContextCommands_writes release_amdgpu layout
           abiReader registers uploader_aligned [] [0x42800000; 0x3f800000]
           (PipelineChunkHs_ctor vega perf_data) vega_ready [] eq_refl).
Defined.

Lemma static_registers_witness :
  exists rest,
    WriteShCommands (cfg := release_amdgpu) (L := layout) [] no_override vega_ready
    = Done ([]
            ++ [SetOneShReg ShaderGraphics 0x2d48 0x123456;
                SetSeqShRegs 0x2d0a 0x2d0b ShaderGraphics [0x002c0041; 0x94];
                SetOneShReg ShaderGraphics 0x2d0d 0x800040]
            ++ rest, vega_ready).
Proof.
  exact (@LateInit_then_WriteShCommands_static_registers release_amdgpu layout
           vega perf_data abiReader registers uploader_aligned []
           [0x42800000; 0x3f800000] vega_ready [] no_override eq_refl).
Defined.

Lemma LateInit_reads_only_its_registers_witness :
  HasEntry registers 0x2d20 = None
  /\ HasEntry registers_with_extra 0x2d20 = Some 5
  /\ LateInit (cfg := debug_amdgpu) (L := layout) abiReader registers
              uploader_aligned [] (PipelineChunkHs_ctor navi perf_data)
     = LateInit (cfg := debug_amdgpu) (L := layout) abiReader registers_with_extra
                uploader_aligned [] (PipelineChunkHs_ctor navi perf_data).
Proof.
  split; [reflexivity | split; [reflexivity |]].
  apply (@LateInit_reads_only_its_registers debug_amdgpu layout abiReader
           registers registers_with_extra uploader_aligned []
           (PipelineChunkHs_ctor navi perf_data)).
  repeat split; intros; reflexivity.
Defined.

Lemma LateInit_idempotent_witness :
  exists pHasher'',
    LateInit (cfg := release_amdgpu) (L := layout) abiReader registers
             uploader_aligned [0x42800000; 0x3f800000] vega_ready
    = Done (pHasher'', vega_ready).
Proof.
  exact (@LateInit_idempotent release_amdgpu layout abiReader registers
           uploader_aligned [] [0x42800000; 0x3f800000]
           (PipelineChunkHs_ctor vega perf_data) vega_ready eq_refl).
Defined.

Lemma wave_limit_override_witness :
  exists appended emitted,
    WriteShCommands (cfg := release_amdgpu) (L := layout) []
                    {| wavesPerSh := 64; cuEnableMask := 0 |} vega_ready
    = Done ([] ++ appended, vega_ready)
    /\ index_writes 0x2d07 appended = [emitted]
    /\ get (RSRC3_HS_WAVE_LIMIT (RegisterLayout := layout)) emitted = 0.
Proof.
  exact (@wave_limit_override_is_emitted_truncated release_amdgpu layout []
           {| wavesPerSh := 64; cuEnableMask := 0 |} vega_ready
           eq_refl eq_refl eq_refl).
Defined.

Lemma no_override_witness :
  exists appended,
    WriteShCommands (cfg := release_amdgpu) (L := layout) [] no_override navi_ready
    = Done ([] ++ appended, navi_ready)
    /\ index_writes 0x2d07 appended = [0xffff0380]
    /\ index_writes 0x2d05 appended = [0xff].
Proof.
  exact (@no_override_replays_snapshot release_amdgpu layout [] no_override navi_ready
           eq_refl eq_refl eq_refl eq_refl).
Defined.

Lemma provider_iteration_witness :
  (exists it,
      EventProvidersDescription.nth_provider
        (protocol := event_protocol) response_memory two_providers 1 = Some it
      /\ EventProviderIterator.IsValid it = true
      /\ (1 < 2 ->
          EventProviderIterator.m_providerIndex it = 1
          /\ EventProviderIterator.m_numProviders it = 2
          /\ is_nullptr (EventProviderIterator.m_pProviderData it) = false)
      /\ (2 <= 1 -> (0 < 1)%nat -> it = EventProviderIterator.ctor_default))
  /\ (exists it,
         EventProvidersDescription.nth_provider
           (protocol := event_protocol) response_memory two_providers 2 = Some it
         /\ EventProviderIterator.IsValid it = false
         /\ (2 < 2 ->
             EventProviderIterator.m_providerIndex it = 2
             /\ EventProviderIterator.m_numProviders it = 2
             /\ is_nullptr (EventProviderIterator.m_pProviderData it) = false)
         /\ (2 <= 2 -> (0 < 2)%nat -> it = EventProviderIterator.ctor_default)).
Proof.
  split.
  - apply (@provider_iteration_visits_each_once event_protocol response_memory
             two_providers 0x1000 1); [reflexivity | split; [discriminate | reflexivity]].
  - apply (@provider_iteration_visits_each_once event_protocol response_memory
             two_providers 0x1000 2); [reflexivity | split; [discriminate | reflexivity]].
Defined.

Lemma IsValid_assertion_witness :
  (forall steps it,
      EventProvidersDescription.nth_provider
        (protocol := event_protocol) response_memory two_providers steps = Some it ->
      EventProviderIterator.IsValid_asserted it = true)
  /\ (exists first,
         EventProvidersDescription.GetFirstProvider
           (protocol := event_protocol) response_memory no_providers = Some first
         /\ EventProviderIterator.IsValid first = false
         /\ EventProviderIterator.IsValid_asserted first = false).
Proof.
  split.
  - refine (proj1 (@IsValid_assertion_along_iteration event_protocol response_memory
                     two_providers 0x1000 eq_refl (conj _ eq_refl)) eq_refl);
      discriminate.
  - refine (proj2 (@IsValid_assertion_along_iteration event_protocol response_memory
                     no_providers 0x2000 eq_refl (conj _ eq_refl)) eq_refl);
      discriminate.
Defined.

End MoreConcreteRuns.
